(** * FlipkartETL.transform_data: the normalize stage of the ETL pipeline

    A shallow embedding of [FlipkartETL.transform_data]
    (artifact_modular_ETL_PIPELINE.py) and of the pandas operations it
    calls, followed by the properties of the cleaning rules.

    Python strings are sequences of Unicode code points, so a string is a
    list of code points here; a DataFrame is the ordered list of its
    labelled columns; an exception is an error value. *)

From Stdlib Require Import List NArith ZArith Bool Lia.
From Stdlib Require String Ascii.
Import ListNotations String.StringSyntax.


(** ** Python strings *)

Definition pystr := list N.

(** Decoding of a UTF-8 literal of this file into code points. *)
Fixpoint utf8_decode (pending : nat) (acc : N) (bs : list N) : pystr :=
  match bs with
  | [] => []
  | b :: bs' =>
      match pending with
      | O =>
          if (b <? 128)%N then b :: utf8_decode 0 0%N bs'
          else if (b <? 224)%N then utf8_decode 1 (b - 192)%N bs'
          else if (b <? 240)%N then utf8_decode 2 (b - 224)%N bs'
          else utf8_decode 3 (b - 240)%N bs'
      | S O => (acc * 64 + (b - 128))%N :: utf8_decode 0 0%N bs'
      | S p => utf8_decode p (acc * 64 + (b - 128))%N bs'
      end
  end.

Definition py (s : String.string) : pystr :=
  utf8_decode 0 0%N (map Ascii.N_of_ascii (String.list_ascii_of_string s)).

Arguments py s%_string_scope.

Definition pystr_eqb (a b : pystr) : bool :=
  if list_eq_dec N.eq_dec a b then true else false.

(** [str.isspace] on one code point: the white space of [str.split()] and
    [str.strip()]. *)
Definition isspace (c : N) : bool :=
  ((9 <=? c) && (c <=? 13) || (28 <=? c) && (c <=? 32)
   || (c =? 133) || (c =? 160) || (c =? 5760)
   || (8192 <=? c) && (c <=? 8202)
   || (c =? 8232) || (c =? 8233) || (c =? 8239) || (c =? 8287)
   || (c =? 12288))%N.

(** First code point of every run of ten decimal digits (Unicode general
    category Nd, Unicode 15): the class [\d] of the [re] module. *)
Definition decimal_runs : list N :=
  [ 0x30; 0x660; 0x6F0; 0x7C0; 0x966; 0x9E6; 0xA66; 0xAE6; 0xB66; 0xBE6;
    0xC66; 0xCE6; 0xD66; 0xDE6; 0xE50; 0xED0; 0xF20; 0x1040; 0x1090;
    0x17E0; 0x1810; 0x1946; 0x19D0; 0x1A80; 0x1A90; 0x1B50; 0x1BB0;
    0x1C40; 0x1C50; 0xA620; 0xA8D0; 0xA900; 0xA9D0; 0xA9F0; 0xAA50;
    0xABF0; 0xFF10; 0x104A0; 0x10D30; 0x11066; 0x110F0; 0x11136; 0x111D0;
    0x112F0; 0x11450; 0x114D0; 0x11650; 0x116C0; 0x11730; 0x118E0;
    0x11950; 0x11C50; 0x11D50; 0x11DA0; 0x11F50; 0x16A60; 0x16AC0;
    0x16B50; 0x1D7CE; 0x1D7D8; 0x1D7E2; 0x1D7EC; 0x1D7F6; 0x1E140;
    0x1E2F0; 0x1E4F0; 0x1E950; 0x1FBF0 ]%N.

Definition unicode_decimal (c : N) : bool :=
  existsb (fun lo => (lo <=? c) && (c <? lo + 10))%N decimal_runs.

Definition ascii_digit (c : N) : bool := ((48 <=? c) && (c <=? 57))%N.

(** *** [str.split()] : split on runs of white space *)

Fixpoint split_ws_from (cur : pystr) (s : pystr) : list pystr :=
  match s with
  | [] => match cur with [] => [] | _ => [rev cur] end
  | c :: s' =>
      if isspace c then
        match cur with
        | [] => split_ws_from [] s'
        | _ => rev cur :: split_ws_from [] s'
        end
      else split_ws_from (c :: cur) s'
  end.

Definition split_ws (s : pystr) : list pystr := split_ws_from [] s.

(** *** [str.split(sep)] for a one-character separator *)

Fixpoint split_char_from (sep : N) (cur : pystr) (s : pystr) : list pystr :=
  match s with
  | [] => [rev cur]
  | c :: s' =>
      if (c =? sep)%N then rev cur :: split_char_from sep [] s'
      else split_char_from sep (c :: cur) s'
  end.

Definition split_char (sep : N) (s : pystr) : list pystr :=
  split_char_from sep [] s.

(** *** [str.strip()] *)

Fixpoint lstrip (s : pystr) : pystr :=
  match s with
  | [] => []
  | c :: s' => if isspace c then lstrip s' else s
  end.

Definition rstrip (s : pystr) : pystr := rev (lstrip (rev s)).

Definition strip (s : pystr) : pystr := rstrip (lstrip s).

(** *** [sep.join(tokens)] *)

Fixpoint join (sep : pystr) (l : list pystr) : pystr :=
  match l with
  | [] => []
  | [x] => x
  | x :: l' => x ++ sep ++ join sep l'
  end.

(** *** [str.replace(old, new)] for a non-empty [old]

    Left to right, non-overlapping: at a position where [old] starts, [new]
    is emitted and the scan resumes after the occurrence.  [skip] counts the
    code points of the current occurrence still to pass. *)

Fixpoint starts_with (p s : pystr) : bool :=
  match p, s with
  | [], _ => true
  | _ :: _, [] => false
  | a :: p', b :: s' => (a =? b)%N && starts_with p' s'
  end.

Fixpoint replace_from (old new : pystr) (skip : nat) (s : pystr) : pystr :=
  match s with
  | [] => []
  | c :: s' =>
      match skip with
      | S k => replace_from old new k s'
      | O =>
          if starts_with old s
          then new ++ replace_from old new (length old - 1) s'
          else c :: replace_from old new 0 s'
      end
  end.

Definition str_replace (old new s : pystr) : pystr := replace_from old new 0 s.

(** [re.sub(r'\D', '', s)] *)
Definition remove_non_digits (s : pystr) : pystr := filter unicode_decimal s.

(** [old in s] *)
Fixpoint contains (old s : pystr) : bool :=
  starts_with old s ||
  match s with
  | [] => false
  | _ :: s' => contains old s'
  end.

(** ** pandas values

    A cell of a text (object) column read by [pd.read_csv] is a string or
    NaN; [None] is NaN.  A column is a text column, a nullable [Int64]
    column, or a numeric column of another dtype (int64, uint64, float64,
    bool), whose values no rule reads: only its length is kept. *)

Definition cell := option pystr.

Inductive series :=
| ObjectSeries (cells : list cell)
| Int64Series (vals : list (option Z))
| NumericSeries (len : nat).

(** The columns of the DataFrame, in order, each with its label. *)
Definition frame := list (pystr * series).

Inductive exn :=
| KeyError (label : pystr)
| AttributeError
| TypeError.

Inductive result (A : Type) :=
| Ok (a : A)
| Raise (e : exn).

Arguments Ok {A} a.
Arguments Raise {A} e.

Definition bind {A B} (r : result A) (k : A -> result B) : result B :=
  match r with
  | Ok a => k a
  | Raise e => Raise e
  end.

Declare Scope py_scope.
Delimit Scope py_scope with py.
Notation "x <- c1 ;; c2" := (bind c1 (fun x => c2))
  (at level 61, c1 at next level, right associativity) : py_scope.
Open Scope py_scope.

Fixpoint mapM {A B} (f : A -> result B) (l : list A) : result (list B) :=
  match l with
  | [] => Ok []
  | a :: l' => b <- f a ;; bs <- mapM f l' ;; Ok (b :: bs)
  end.

(** *** DataFrame operations *)

Definition labels (df : frame) : list pystr := map fst df.

(** [df.filter(like=s).columns] : the labels that contain [s]. *)
Definition filter_like (like : pystr) (df : frame) : list pystr :=
  filter (contains like) (labels df).

(** [df.drop(columns=ls, inplace=True)] for labels [ls] taken from [df]. *)
Definition drop_columns (ls : list pystr) (df : frame) : frame :=
  filter (fun col => negb (existsb (pystr_eqb (fst col)) ls)) df.

Definition has_label (label : pystr) (df : frame) : bool :=
  existsb (fun col => pystr_eqb (fst col) label) df.

(** [df.drop(label, inplace=True, axis=1)] *)
Definition drop_label (label : pystr) (df : frame) : result frame :=
  if has_label label df
  then Ok (filter (fun col => negb (pystr_eqb (fst col) label)) df)
  else Raise (KeyError label).

(** [df[label]] selects every column of that label. *)
Definition columns_of (label : pystr) (df : frame) : list series :=
  map snd (filter (fun col => pystr_eqb (fst col) label) df).

(** [df[label].str] : the column must exist, be the only one of that label
    (two columns of one label select a DataFrame, which has no [.str]) and
    hold text. *)
Definition column_text (df : frame) (label : pystr) : result (list cell) :=
  match columns_of label df with
  | [] => Raise (KeyError label)
  | [ObjectSeries cells] => Ok cells
  | _ => Raise AttributeError
  end.

(** [df[label] = s] for a whole column [s] : a column of that label is
    replaced in place; a new label is appended.  [transform_data] assigns to
    Processor, RAM, Operating_System, Warranty, Prices and Rating only after
    [df[label].str] has shown the label to be on one column.  Brand_Name may
    be on no column or on one.  On a table built by hand with the label
    repeated, pandas gives every such column the whole of [s], except when
    their number is [len(s)] : then the i-th of them receives the i-th value
    only.  The definition does not cover that last case; the statements that
    read the contents of Brand_Name assume at most one column of the label
    in the table given. *)
Definition setitem (df : frame) (label : pystr) (s : series) : frame :=
  if has_label label df
  then map (fun col => if pystr_eqb (fst col) label then (fst col, s) else col) df
  else df ++ [(label, s)].

Definition series_head (n : nat) (s : series) : series :=
  match s with
  | ObjectSeries cells => ObjectSeries (firstn n cells)
  | Int64Series vals => Int64Series (firstn n vals)
  | NumericSeries len => NumericSeries (Nat.min n len)
  end.

Definition series_length (s : series) : nat :=
  match s with
  | ObjectSeries cells => length cells
  | Int64Series vals => length vals
  | NumericSeries len => len
  end.

(** [df.head(n)] *)
Definition head (n : nat) (df : frame) : frame :=
  map (fun col => (fst col, series_head n (snd col))) df.

(** *** The [.str] methods: NaN stays NaN *)

Definition str_split_ws (col : list cell) : list (option (list pystr)) :=
  map (option_map split_ws) col.

Definition str_split_char (sep : N) (col : list cell)
  : list (option (list pystr)) :=
  map (option_map (split_char sep)) col.

(** [.str[i]] : NaN where the list is too short. *)
Definition str_get (i : nat) (col : list (option (list pystr))) : list cell :=
  map (fun c => match c with Some l => nth_error l i | None => None end) col.

(** [.str[:n]] *)
Definition str_slice_to (n : nat) (col : list (option (list pystr)))
  : list (option (list pystr)) :=
  map (option_map (firstn n)) col.

Definition str_strip (col : list cell) : list cell :=
  map (option_map strip) col.

Definition str_replace_col (old new : pystr) (col : list cell) : list cell :=
  map (option_map (str_replace old new)) col.

Definition str_remove_non_digits (col : list cell) : list cell :=
  map (option_map remove_non_digits) col.

(** [.apply(' '.join)] : the function is called on every element, NaN
    included, and [' '.join(nan)] raises TypeError. *)
Definition join_element (sep : pystr) (c : option (list pystr)) : result cell :=
  match c with
  | Some tokens => Ok (Some (join sep tokens))
  | None => Raise TypeError
  end.

Definition apply_join (sep : pystr) (col : list (option (list pystr)))
  : result (list cell) :=
  mapM (join_element sep) col.

(** *** [pd.to_numeric(col, errors='coerce').astype('Int64', errors='ignore')]

    In [transform_data] the argument has been through
    [.str.replace(r'\D', '', regex=True)], so every text is a (possibly
    empty) run of decimal digits.  [pd.to_numeric] reads each text twice:
    as a binary64 number, with the parser [precise_xstrtod] of pandas, and,
    when that succeeds, as the Python integer [int(text)].  A text that does
    not parse is coerced to NaN. *)

(** [int(text)] for a run of ASCII digits. *)
Fixpoint digits_value (acc : Z) (s : pystr) : option Z :=
  match s with
  | [] => Some acc
  | c :: s' =>
      if ascii_digit c
      then digits_value (acc * 10 + Z.of_N (c - 48)) s'
      else None
  end.

(** The integer that the text of a cell denotes: none for NaN, for the
    empty text and for a text with a digit outside ASCII. *)
Definition to_numeric_cell (c : cell) : option Z :=
  match c with
  | None => None
  | Some [] => None
  | Some s => digits_value 0 s
  end.

(** binary64 arithmetic on integers that are not negative: the result of an
    operation is the exact result rounded to 53 significant bits, to the
    nearest, ties to even. *)
Definition round64 (z : Z) : Z :=
  let k := (Z.log2 z - 52)%Z in
  if (k <=? 0)%Z then z
  else
    let q := Z.shiftr z k in
    let r := (z - Z.shiftl q k)%Z in
    let half := Z.shiftl 1 (k - 1) in
    let q' := if (r <? half)%Z then q
              else if (half <? r)%Z then (q + 1)%Z
              else if Z.even q then q else (q + 1)%Z in
    Z.shiftl q' k.

(** The largest finite binary64 number. *)
Definition DBL_MAX : Z := (2 ^ 53 - 1) * 2 ^ 971.

(** The digit loop of [precise_xstrtod]: the first 17 digits are
    accumulated in a binary64 [number], every further digit only adds one
    to [exponent]. *)
Fixpoint xstrtod_digits (num_digits : nat) (number exponent : Z) (s : pystr)
  : option (Z * Z) :=
  match s with
  | [] => Some (number, exponent)
  | c :: s' =>
      if ascii_digit c
      then if (num_digits <? 17)%nat
           then xstrtod_digits (S num_digits)
                  (round64 (round64 (number * 10) + Z.of_N (c - 48)))
                  exponent s'
           else xstrtod_digits num_digits number (exponent + 1) s'
      else None
  end.

(** [precise_xstrtod] on a text: no digit, a character that is not an ASCII
    digit, more than 308 digits after the seventeenth, or an infinite
    result is an error. *)
Definition precise_xstrtod (s : pystr) : option Z :=
  match s with
  | [] => None
  | _ =>
      match xstrtod_digits 0 0 0 s with
      | None => None
      | Some (number, exponent) =>
          if (308 <? exponent)%Z then None
          else
            let number :=
              if (0 <? exponent)%Z
              then round64 (number * round64 (10 ^ exponent))
              else number in
            if (DBL_MAX <? number)%Z then None else Some number
      end
  end.

(** The binary64 value of a cell; [None] is NaN. *)
Definition to_double (c : cell) : option Z :=
  match c with
  | Some s => precise_xstrtod s
  | None => None
  end.

(** [int(val)], computed for a text that was parsed as a number. *)
Definition as_int (c : cell) : option Z :=
  match to_double c with
  | Some _ => to_numeric_cell c
  | None => None
  end.

Definition INT64_MAX : Z := 9223372036854775807.

Definition fits_int64 (v : option Z) : bool :=
  match v with
  | Some z => (z <=? INT64_MAX)%Z
  | None => true
  end.

Definition is_parsed (v : option Z) : bool :=
  match v with
  | Some _ => true
  | None => false
  end.

Definition UINT64_MAX : Z := 18446744073709551615.

Definition fits_uint64 (v : option Z) : bool :=
  match v with
  | Some z => (z <=? UINT64_MAX)%Z
  | None => true
  end.

(** When every cell is parsed and every integer fits int64, [pd.to_numeric]
    gives the int64 column of the integers, and [astype] the [Int64] column
    of the same values; with an integer beyond int64 (none beyond uint64)
    the column is uint64, and so it stays ([errors='ignore']).  With a NaN
    in the column, or an integer beyond uint64, [pd.to_numeric] gives the
    float64 column of the binary64 values; [astype] casts them to [Int64],
    the integers being the rounded ones, unless one of them does not fit
    int64: then the column stays float64.  A uint64 or float64 column is a
    numeric column whose values are not modelled. *)
Definition to_numeric_Int64 (col : list cell) : series :=
  let ints := map as_int col in
  let floats := map to_double col in
  if forallb is_parsed floats && forallb fits_uint64 ints
  then if forallb fits_int64 ints
       then Int64Series ints
       else NumericSeries (length col)
  else if forallb fits_int64 floats
       then Int64Series floats
       else NumericSeries (length col).

(** ** [FlipkartETL.transform_data] *)

Definition prefix : pystr := py "Unnamed:".

Definition warranty_replacements : list (pystr * pystr) :=
  [ (py "1 Yr", py "1 Year"); (py "1 Yera", py "1 Year");
    (py "1 Years ", py "1 Year"); (py "1 year", py "1 Year");
    (py "1 Years", py "1 Year"); (py "One-year International", py "1 Year");
    (py "3 Years", py "3 Year"); (py "2 Years", py "2 Year") ].

Definition rating_replacements : list (pystr * pystr) :=
  [ (py "74,990", py "4.3"); (py "57,499", py "4.3") ].

(** [for key, value in reps.items(): df[label] = df[label].str.replace(key, value)].
    No key of the two dictionaries has a character that is special in a
    regular expression, so the loop over [rating_replacements], which passes
    [regex=True], replaces literally as well. *)
Fixpoint replace_loop (label : pystr) (reps : list (pystr * pystr))
  (df : frame) : result frame :=
  match reps with
  | [] => Ok df
  | (key, value) :: rest =>
      col <- column_text df label ;;
      replace_loop label rest
        (setitem df label (ObjectSeries (str_replace_col key value col)))
  end.

(** The blocks of [transform_data], in the order of the source. *)

(* Drop unnecessary columns *)
Definition drop_unnamed (raw_data : frame) : frame :=
  let cols_to_drop := filter_like prefix raw_data in
  drop_columns cols_to_drop raw_data.

(* Extract Brand Name from Title *)
Definition extract_brand (df : frame) : result frame :=
  title <- column_text df (py "Title") ;;
  let df := setitem df (py "Brand_Name")
              (ObjectSeries (str_get 0 (str_split_ws title))) in
  drop_label (py "Title") df.

(* Transform the Processor column *)
Definition transform_processor (df : frame) : result frame :=
  col <- column_text df (py "Processor") ;;
  let df := setitem df (py "Processor")
              (ObjectSeries (str_strip (str_get 0 (str_split_char 40 col)))) in
  col <- column_text df (py "Processor") ;;
  let df := setitem df (py "Processor")
              (ObjectSeries (str_replace_col (py "Intel Core 5 Processor")
                               (py "Intel Core i5 Processor") col)) in
  col <- column_text df (py "Processor") ;;
  Ok (setitem df (py "Processor")
        (ObjectSeries (str_replace_col (py "Intel Core 7 Processor")
                         (py "Intel Core i7 Processor") col))).

(* Transform the RAM column *)
Definition transform_ram (df : frame) : result frame :=
  col <- column_text df (py "RAM") ;;
  ram <- apply_join (py " ") (str_slice_to 2 (str_split_ws col)) ;;
  Ok (setitem df (py "RAM") (ObjectSeries ram)).

(* Transform the Operating System column *)
Definition transform_os (df : frame) : result frame :=
  col <- column_text df (py "Operating_System") ;;
  Ok (setitem df (py "Operating_System")
        (ObjectSeries
           (str_replace_col (py "64 bit Windows 11 Home Operating System")
              (py "64 bit Windows 11 Operating System") col))).

(* Transform the Warranty column *)
Definition transform_warranty (df : frame) : result frame :=
  col <- column_text df (py "Warranty") ;;
  warranty <- apply_join (py " ") (str_slice_to 2 (str_split_ws col)) ;;
  let df := setitem df (py "Warranty") (ObjectSeries warranty) in
  replace_loop (py "Warranty") warranty_replacements df.

(* Transform the Prices column *)
Definition transform_prices (df : frame) : result frame :=
  col <- column_text df (py "Prices") ;;
  let df := setitem df (py "Prices")
              (ObjectSeries
                 (str_remove_non_digits (str_replace_col (py ",") [] col))) in
  col <- column_text df (py "Prices") ;;
  Ok (setitem df (py "Prices") (to_numeric_Int64 col)).

(* Transform the Rating column *)
Definition transform_rating (df : frame) : result frame :=
  replace_loop (py "Rating") rating_replacements df.

(** The body of [transform_data] up to the returned expression: the frame
    that is saved as [transformed_data.csv]. *)
Definition normalize (raw_data : frame) : result frame :=
  df <- extract_brand (drop_unnamed raw_data) ;;
  df <- transform_processor df ;;
  df <- transform_ram df ;;
  df <- transform_os df ;;
  df <- transform_warranty df ;;
  df <- transform_prices df ;;
  transform_rating df.

(** [transform_data] on the table alone: the rules, then
    [return raw_data.head(50)].  The write of line 101,
    [raw_data.to_csv(transformed_data_path)], works on the file system and
    is not part of this reading: what is given here is the result of the
    call when that write raises nothing.  [transform_data_saving] below is
    the function with the write and the exception it may raise. *)
Definition transform_data (raw_data : frame) : result frame :=
  df <- normalize raw_data ;;
  Ok (head 50 df).

(** ** The cleaning rules on one value *)

Definition brand_rule (title : pystr) : cell := nth_error (split_ws title) 0.

Definition processor_rule (s : pystr) : pystr :=
  str_replace (py "Intel Core 7 Processor") (py "Intel Core i7 Processor")
    (str_replace (py "Intel Core 5 Processor") (py "Intel Core i5 Processor")
       (strip (hd [] (split_char 40 s)))).

Definition two_tokens (s : pystr) : pystr :=
  join (py " ") (firstn 2 (split_ws s)).

Definition os_rule (s : pystr) : pystr :=
  str_replace (py "64 bit Windows 11 Home Operating System")
    (py "64 bit Windows 11 Operating System") s.

Definition apply_replacements (reps : list (pystr * pystr)) (s : pystr)
  : pystr :=
  fold_left (fun acc kv => str_replace (fst kv) (snd kv) acc) reps s.

Definition warranty_rule (s : pystr) : pystr :=
  apply_replacements warranty_replacements (two_tokens s).

Definition price_text (s : pystr) : pystr :=
  remove_non_digits (str_replace (py ",") [] s).

(** The price of the specification: the integer that the digits left in
    the text denote, as a Python integer of any size.  It is what the code
    computes for a cell, [to_numeric_Int64] on the column, as long as
    binary64 and int64 carry the integers exactly; the statements on the
    Prices column say when. *)
Definition price_rule (c : cell) : option Z :=
  to_numeric_cell (option_map price_text c).

Definition rating_rule (s : pystr) : pystr :=
  apply_replacements rating_replacements s.

(** ** Auxiliary notions used in the statements *)

(** The text before the first occurrence of the code point [sep]. *)
Fixpoint before (sep : N) (s : pystr) : pystr :=
  match s with
  | [] => []
  | c :: s' => if (c =? sep)%N then [] else c :: before sep s'
  end.

(** [clash p q] : the two texts differ at a position they both have, so
    neither is a prefix of the other. *)
Fixpoint clash (p q : pystr) : bool :=
  match p, q with
  | a :: p', b :: q' => negb (a =? b)%N || clash p' q'
  | _, _ => false
  end.

(** Every non-empty suffix of [w] clashes with [r]: no occurrence of [r]
    can begin inside [w]. *)
Definition suffixes_clash (w r : pystr) : bool :=
  forallb (fun i => clash (skipn i w) r) (seq 0 (length w)).

(** An occurrence of [q] can neither begin inside an emitted [r] nor run
    into one: replacing by [r] creates no occurrence of [q]. *)
Definition independent (q r : pystr) : bool :=
  forallb (fun k => clash q (skipn k r)) (seq 0 (length r))
  && suffixes_clash (tl q) r.

Definition no_leading_space (s : pystr) : bool :=
  match s with
  | [] => true
  | c :: _ => negb (isspace c)
  end.

Definition stripped (s : pystr) : bool :=
  no_leading_space s && no_leading_space (rev s).

(** A token of [str.split()]: not empty and free of white space. *)
Definition is_token (t : pystr) : bool :=
  match t with
  | [] => false
  | _ => forallb (fun c => negb (isspace c)) t
  end.

(** The brand rule on a cell: NaN stays NaN. *)
Definition brand_cell (c : cell) : cell :=
  match c with
  | Some title => brand_rule title
  | None => None
  end.

Definition is_text (c : cell) : bool :=
  match c with
  | Some _ => true
  | None => false
  end.

(** [' '.join] fails on a column with a missing cell. *)
Definition check_text (col : list cell) : result unit :=
  if forallb is_text col then Ok tt else Raise TypeError.

(** The frame built from the seven columns read in the raw frame. *)
Definition normalized_frame (raw_data : frame)
  (title proc ram os war prices rating : list cell) : frame :=
  let df := drop_unnamed raw_data in
  let df := setitem df (py "Brand_Name") (ObjectSeries (map brand_cell title)) in
  let df := filter (fun col => negb (pystr_eqb (fst col) (py "Title"))) df in
  let df := setitem df (py "Processor")
              (ObjectSeries (map (option_map processor_rule) proc)) in
  let df := setitem df (py "RAM")
              (ObjectSeries (map (option_map two_tokens) ram)) in
  let df := setitem df (py "Operating_System")
              (ObjectSeries (map (option_map os_rule) os)) in
  let df := setitem df (py "Warranty")
              (ObjectSeries (map (option_map warranty_rule) war)) in
  let df := setitem df (py "Prices")
              (to_numeric_Int64 (map (option_map price_text) prices)) in
  setitem df (py "Rating") (ObjectSeries (map (option_map rating_rule) rating)).

(** The conditions under which [normalize] returns. *)
Definition normalizable (raw_data : frame)
  (title proc ram os war prices rating : list cell) : Prop :=
  column_text raw_data (py "Title") = Ok title
  /\ column_text raw_data (py "Processor") = Ok proc
  /\ column_text raw_data (py "RAM") = Ok ram
  /\ forallb is_text ram = true
  /\ column_text raw_data (py "Operating_System") = Ok os
  /\ column_text raw_data (py "Warranty") = Ok war
  /\ forallb is_text war = true
  /\ column_text raw_data (py "Prices") = Ok prices
  /\ column_text raw_data (py "Rating") = Ok rating.

(** A price of at most fifteen digits: binary64 carries every integer of
    fifteen digits exactly. *)
Definition short_price (c : cell) : bool :=
  match c with
  | Some s => (length (price_text s) <=? 15)%nat
  | None => true
  end.

(** ** Sample frames *)

(** The scenario of the specification as first row, with a second row and
    two artifact columns; one has the prefix in the middle of its label. *)
Definition sample_raw : frame :=
  [ (py "Unnamed: 0", NumericSeries 2);
    (py "Title",
      ObjectSeries [Some (py "Dell Inspiron 15"); Some (py "HP Pavilion 14")]);
    (py "Processor",
      ObjectSeries [Some (py "Intel Core 7 Processor (12th Gen)");
                    Some (py "AMD Ryzen 5 Hexa Core Processor")]);
    (py "RAM",
      ObjectSeries [Some (py "8 GB DDR4 3200MHz"); Some (py "16 GB DDR4 RAM")]);
    (py "Operating_System",
      ObjectSeries [Some (py "64 bit Windows 11 Home Operating System"); None]);
    (py "old Unnamed: 0.1", NumericSeries 2);
    (py "Warranty",
      ObjectSeries [Some (py "1 Years Warranty"); Some (py "2 Years Onsite")]);
    (py "Prices", ObjectSeries [Some (py "₹45,990"); None]);
    (py "Rating", ObjectSeries [Some (py "45,990"); Some (py "74,990")]) ].

Definition sample_out : frame :=
  [ (py "Processor",
      ObjectSeries [Some (py "Intel Core i7 Processor");
                    Some (py "AMD Ryzen 5 Hexa Core Processor")]);
    (py "RAM", ObjectSeries [Some (py "8 GB"); Some (py "16 GB")]);
    (py "Operating_System",
      ObjectSeries [Some (py "64 bit Windows 11 Operating System"); None]);
    (py "Warranty", ObjectSeries [Some (py "1 Year"); Some (py "2 Year")]);
    (py "Prices", Int64Series [Some 45990%Z; None]);
    (py "Rating", ObjectSeries [Some (py "45,990"); Some (py "4.3")]);
    (py "Brand_Name", ObjectSeries [Some (py "Dell"); Some (py "HP")]) ].

(** [sample_raw] with the RAM field of the second row left empty. *)
Definition frame_missing_ram : frame :=
  setitem sample_raw (py "RAM")
    (ObjectSeries [Some (py "8 GB DDR4 3200MHz"); None]).

(** [sample_raw] with the Warranty field of the second row left empty. *)
Definition frame_missing_warranty : frame :=
  setitem sample_raw (py "Warranty")
    (ObjectSeries [Some (py "1 Years Warranty"); None]).

(** Sixty rows, all alike. *)
Definition long_raw : frame :=
  [ (py "Title", ObjectSeries (repeat (Some (py "Dell Inspiron 15")) 60));
    (py "Processor",
      ObjectSeries (repeat (Some (py "Intel Core 5 Processor (11th Gen)")) 60));
    (py "RAM", ObjectSeries (repeat (Some (py "16 GB DDR4 RAM")) 60));
    (py "Operating_System", ObjectSeries (repeat None 60));
    (py "Warranty", ObjectSeries (repeat (Some (py "1 Yr Warranty")) 60));
    (py "Prices", ObjectSeries (repeat (Some (py "₹74,990")) 60));
    (py "Rating", ObjectSeries (repeat (Some (py "74,990")) 60)) ].

Definition long_normalized : frame :=
  [ (py "Processor",
      ObjectSeries (repeat (Some (py "Intel Core i5 Processor")) 60));
    (py "RAM", ObjectSeries (repeat (Some (py "16 GB")) 60));
    (py "Operating_System", ObjectSeries (repeat None 60));
    (py "Warranty", ObjectSeries (repeat (Some (py "1 Year")) 60));
    (py "Prices", Int64Series (repeat (Some 74990%Z) 60));
    (py "Rating", ObjectSeries (repeat (Some (py "4.3")) 60));
    (py "Brand_Name", ObjectSeries (repeat (Some (py "Dell")) 60)) ].

(** ** The statements of [transform_data], run in place

    [transform_data] works on the DataFrame object it is given
    ([inplace=True], column assignment).  A statement either raises, and then
    leaves the object as it was (the right-hand side is evaluated before the
    assignment), or changes it. *)

Definition statement := frame -> result frame.

(** [df[label] = df[label].str.replace(key, value)] *)
Definition replace_statement (label : pystr) (kv : pystr * pystr) : statement :=
  fun df =>
    col <- column_text df label ;;
    Ok (setitem df label
          (ObjectSeries (str_replace_col (fst kv) (snd kv) col))).

(** The statements of the body, in the order of the source, the two loops
    unrolled. *)
Definition statements : list statement :=
  [ (fun df => Ok (drop_unnamed df));
    (fun df =>
       title <- column_text df (py "Title") ;;
       Ok (setitem df (py "Brand_Name")
             (ObjectSeries (str_get 0 (str_split_ws title)))));
    drop_label (py "Title");
    (fun df =>
       col <- column_text df (py "Processor") ;;
       Ok (setitem df (py "Processor")
             (ObjectSeries (str_strip (str_get 0 (str_split_char 40 col))))));
    replace_statement (py "Processor")
      (py "Intel Core 5 Processor", py "Intel Core i5 Processor");
    replace_statement (py "Processor")
      (py "Intel Core 7 Processor", py "Intel Core i7 Processor");
    (fun df =>
       col <- column_text df (py "RAM") ;;
       ram <- apply_join (py " ") (str_slice_to 2 (str_split_ws col)) ;;
       Ok (setitem df (py "RAM") (ObjectSeries ram)));
    replace_statement (py "Operating_System")
      (py "64 bit Windows 11 Home Operating System",
       py "64 bit Windows 11 Operating System");
    (fun df =>
       col <- column_text df (py "Warranty") ;;
       warranty <- apply_join (py " ") (str_slice_to 2 (str_split_ws col)) ;;
       Ok (setitem df (py "Warranty") (ObjectSeries warranty))) ]
  ++ map (replace_statement (py "Warranty")) warranty_replacements
  ++ [ (fun df =>
          col <- column_text df (py "Prices") ;;
          Ok (setitem df (py "Prices")
                (ObjectSeries
                   (str_remove_non_digits
                      (str_replace_col (py ",") [] col)))));
       (fun df =>
          col <- column_text df (py "Prices") ;;
          Ok (setitem df (py "Prices") (to_numeric_Int64 col))) ]
  ++ map (replace_statement (py "Rating")) rating_replacements.

(** The object after the statements have run, and the exception that
    stopped them, if any. *)
Fixpoint exec (stmts : list statement) (df : frame) : frame * option exn :=
  match stmts with
  | [] => (df, None)
  | s :: rest =>
      match s df with
      | Ok df' => exec rest df'
      | Raise e => (df, Some e)
      end
  end.

(** The value or the exception of a run of statements. *)
Definition outcome (r : frame * option exn) : result frame :=
  match r with
  | (df, None) => Ok df
  | (_, Some e) => Raise e
  end.

(** [transform_data] with the object it was given: the first component is
    the DataFrame [raw_data] as the caller finds it afterwards; [head(50)]
    returns a new object. *)
Definition transform_data_inplace (raw_data : frame) : frame * result frame :=
  match exec statements raw_data with
  | (df, None) => (df, Ok (head 50 df))
  | (df, Some e) => (df, Raise e)
  end.

(** The columns that [transform_data] reads, in the order it reads them. *)
Definition read_order : list pystr :=
  [py "Title"; py "Processor"; py "RAM"; py "Operating_System";
   py "Warranty"; py "Prices"; py "Rating"].

(** The two columns rebuilt with [' '.join]. *)
Definition joined (label : pystr) : bool :=
  pystr_eqb label (py "RAM") || pystr_eqb label (py "Warranty").

(** A column that its rule can process. *)
Definition readable (raw_data : frame) (label : pystr) : Prop :=
  exists col, column_text raw_data label = Ok col
              /\ (joined label = true -> forallb is_text col = true).

Definition readableb (raw_data : frame) (label : pystr) : bool :=
  match column_text raw_data label with
  | Ok col => implb (joined label) (forallb is_text col)
  | Raise _ => false
  end.

(** A frame without the columns of one label. *)
Definition frame_without (label : pystr) (df : frame) : frame :=
  filter (fun col => negb (pystr_eqb (fst col) label)) df.

(** The number of white-space characters of a text. *)
Definition count_space (s : pystr) : nat := length (filter isspace s).

(** ** [FlipkartETL]: the object, the connection string and the run *)

Record FlipkartETL := {
  bucket_name : pystr;
  file_key : pystr;
  host_name : pystr;
  port_number : pystr;
  db_name : pystr;
  user_name : pystr;
  password : pystr
}.

(** The f-string of [load_data_to_redshift]. *)
Definition conn_str (self : FlipkartETL) : pystr :=
  py "postgresql+psycopg2://" ++ user_name self ++ py ":" ++ password self
  ++ py "@" ++ host_name self ++ py ":" ++ port_number self
  ++ py "/" ++ db_name self.

(** What the run does outside the process, on a world that is left
    abstract: the S3 download parsed by [pd.read_csv], [DataFrame.to_csv] and
    [DataFrame.to_sql(..., if_exists='replace')].  A write returns the world
    it leaves and the exception it raised, if any.  The calls to [logging]
    are left out. *)
Record externals (world : Type) := {
  read_csv_s3 : pystr -> pystr -> world -> result frame;
  to_csv : pystr -> frame -> world -> world * option exn;
  to_sql : pystr -> pystr -> frame -> world -> world * option exn
}.

Arguments read_csv_s3 {world} _ _ _ _.
Arguments to_csv {world} _ _ _ _.
Arguments to_sql {world} _ _ _ _.

(** [os.path.join] of a directory and a file name (POSIX). *)
Definition path_join (dir name : pystr) : pystr := dir ++ py "/" ++ name.

Definition extract_data {world} (ext : externals world) (self : FlipkartETL)
  (w : world) : world * result frame :=
  match read_csv_s3 ext (bucket_name self) (file_key self) w with
  | Raise e => (w, Raise e)
  | Ok raw_data =>
      let raw_data_path := path_join (py "artifacts") (py "raw_data.csv") in
      match to_csv ext raw_data_path raw_data w with
      | (w', Some e) => (w', Raise e)
      | (w', None) => (w', Ok raw_data)
      end
  end.

(** [transform_data] as the source has it, with the file it saves at line
    101 before it returns: the write can raise, and then no table is
    returned. *)
Definition transform_data_saving {world} (ext : externals world)
  (raw_data : frame) (w : world) : world * result frame :=
  match normalize raw_data with
  | Raise e => (w, Raise e)
  | Ok df =>
      let transformed_data_path :=
        path_join (py "artifacts") (py "transformed_data.csv") in
      match to_csv ext transformed_data_path df w with
      | (w', Some e) => (w', Raise e)
      | (w', None) => (w', Ok (head 50 df))
      end
  end.

Definition load_data_to_redshift {world} (ext : externals world)
  (self : FlipkartETL) (transformed_data : frame) (table_name : pystr)
  (w : world) : world * result unit :=
  match to_sql ext (conn_str self) table_name transformed_data w with
  | (w', Some e) => (w', Raise e)
  | (w', None) => (w', Ok tt)
  end.

Definition run_etl {world} (ext : externals world) (self : FlipkartETL)
  (table_name : pystr) (w : world) : world * result unit :=
  match extract_data ext self w with
  | (w1, Raise e) => (w1, Raise e)
  | (w1, Ok raw_data) =>
      match transform_data_saving ext raw_data w1 with
      | (w2, Raise e) => (w2, Raise e)
      | (w2, Ok transformed_data) =>
          load_data_to_redshift ext self transformed_data table_name w2
      end
  end.

(** A sample object. *)
Definition sample_etl : FlipkartETL :=
  {| bucket_name := py "bucket";
     file_key := py "Flipkart_data.csv";
     host_name := py "warehouse.example.com";
     port_number := py "5439";
     db_name := py "my_db";
     user_name := py "loader";
     password := py "secret" |}.

(** A world that records what is written: the files and the tables, the
    newest first. *)
Definition recorded : Type := list (pystr * frame) * list (pystr * frame).

Definition recording (bucket : frame) : externals recorded :=
  {| read_csv_s3 := fun _ _ _ => Ok bucket;
     to_csv := fun path df w => ((path, df) :: fst w, snd w, None);
     to_sql := fun _ table df w => (fst w, (table, df) :: snd w, None) |}.

(** * Properties *)

(** ** Evaluation on the values of the specification *)

Example py_rupee : py "₹74,990" = [8377; 55; 52; 44; 57; 57; 48]%N.
Proof. reflexivity. Qed.

Example split_ws_ram :
  split_ws (py "  16 GB  DDR4 RAM ") = [py "16"; py "GB"; py "DDR4"; py "RAM"].
Proof. reflexivity. Qed.

Example split_char_paren :
  split_char 40 (py "Intel Core 5 Processor (11th Gen)")
  = [py "Intel Core 5 Processor "; py "11th Gen)"].
Proof. reflexivity. Qed.

Example str_replace_twice :
  str_replace (py "aa") (py "b") (py "aaaaa") = py "bba".
Proof. reflexivity. Qed.

Example processor_example :
  processor_rule (py "Intel Core 5 Processor (11th Gen)")
  = py "Intel Core i5 Processor".
Proof. reflexivity. Qed.

Example price_example : price_rule (Some (py "₹74,990")) = Some 74990%Z.
Proof. reflexivity. Qed.

Example warranty_example : warranty_rule (py "1 Yr Warranty") = py "1 Year".
Proof. reflexivity. Qed.

(** ** Helper lemmas on lists *)

Lemma forallb_map_compose {A B} (f : A -> B) (p : B -> bool) l :
  forallb p (map f l) = forallb (fun x => p (f x)) l.
Proof. induction l as [|a l IH]; simpl; [reflexivity|now rewrite IH]. Qed.

(** ** Prefixes and occurrences *)

Lemma starts_with_app p t : starts_with p (p ++ t) = true.
Proof.
  induction p as [|a p IH]; simpl; [reflexivity|].
  now rewrite N.eqb_refl, IH.
Qed.

Lemma starts_with_inv p s :
  starts_with p s = true -> s = p ++ skipn (length p) s.
Proof.
  revert s; induction p as [|a p IH]; intros [|b s] H; simpl in *;
    try reflexivity; try discriminate.
  apply andb_true_iff in H as [Hab H].
  apply N.eqb_eq in Hab; subst b. f_equal. now apply IH.
Qed.

Lemma starts_with_cons a p c s :
  starts_with (a :: p) (c :: s) = true <-> a = c /\ starts_with p s = true.
Proof.
  simpl. rewrite andb_true_iff, N.eqb_eq. tauto.
Qed.

Lemma clash_not_prefix p q t :
  clash p q = true -> starts_with p (q ++ t) = false.
Proof.
  revert q; induction p as [|a p IH]; intros [|b q] H; simpl in *;
    try discriminate.
  destruct (N.eqb_spec a b) as [->|Hne]; simpl in *; [now apply IH|reflexivity].
Qed.

Lemma contains_cons old c s :
  contains old (c :: s) = starts_with old (c :: s) || contains old s.
Proof. reflexivity. Qed.

Lemma contains_app_r old a b :
  contains old b = true -> contains old (a ++ b) = true.
Proof.
  intros H; induction a as [|c a IH]; simpl app; [assumption|].
  rewrite contains_cons, IH. apply orb_true_r.
Qed.

Lemma contains_skipn old k s :
  starts_with old (skipn k s) = true -> contains old s = true.
Proof.
  revert s; induction k as [|k IH]; intros s H.
  - destruct s; simpl in *; rewrite H; reflexivity.
  - destruct s as [|c s]; [simpl in *; now rewrite H|].
    rewrite contains_cons. simpl in H. rewrite (IH _ H). apply orb_true_r.
Qed.

(** An occurrence in [a ++ b] begins inside [a] or lies in [b]. *)
Lemma contains_app_inv old a b :
  contains old (a ++ b) = true ->
  (exists k, k < length a /\ starts_with old (skipn k a ++ b) = true)
  \/ contains old b = true.
Proof.
  induction a as [|c a IH]; simpl app; intros H; [now right|].
  rewrite contains_cons in H. apply orb_true_iff in H as [H|H].
  - left. exists 0. split; [simpl; lia|exact H].
  - destruct (IH H) as [(k & Hk & Hs)|Hb]; [left|now right].
    exists (S k). split; [simpl; lia|exact Hs].
Qed.

Lemma contains_nil q : q <> [] -> contains q [] = false.
Proof. destruct q; [contradiction|reflexivity]. Qed.

(** ** [str.replace] *)

Section Replace.

Variables old new : pystr.
Hypothesis old_not_empty : old <> [].

Lemma replace_from_skip k s :
  replace_from old new k s = replace_from old new 0 (skipn k s).
Proof.
  revert s; induction k as [|k IH]; intros [|c s]; try reflexivity.
  simpl. apply IH.
Qed.

Lemma str_replace_nil : str_replace old new [] = [].
Proof. reflexivity. Qed.

Lemma str_replace_match s :
  starts_with old s = true ->
  str_replace old new s = new ++ str_replace old new (skipn (length old) s).
Proof.
  unfold str_replace. destruct s as [|c s]; intros H.
  - destruct old; [contradiction|discriminate].
  - cbn [replace_from]. rewrite H, replace_from_skip.
    destruct old as [|a o]; [contradiction|].
    simpl. now rewrite ?Nat.sub_0_r.
Qed.

Lemma str_replace_match_app t :
  str_replace old new (old ++ t) = new ++ str_replace old new t.
Proof.
  rewrite str_replace_match by apply starts_with_app.
  now rewrite skipn_app, skipn_all, Nat.sub_diag.
Qed.

Lemma str_replace_copy c s :
  starts_with old (c :: s) = false ->
  str_replace old new (c :: s) = c :: str_replace old new s.
Proof.
  unfold str_replace. intros H. cbn [replace_from]. now rewrite H.
Qed.

(** Induction along the scan of [str.replace]. *)
Lemma str_replace_ind (P : pystr -> pystr -> Prop) :
  P [] [] ->
  (forall t, P t (str_replace old new t) ->
             P (old ++ t) (new ++ str_replace old new t)) ->
  (forall c s, starts_with old (c :: s) = false ->
               P s (str_replace old new s) ->
               P (c :: s) (c :: str_replace old new s)) ->
  forall s, P s (str_replace old new s).
Proof.
  intros Hnil Hmatch Hcopy s.
  remember (length s) as n eqn:Hn. revert s Hn.
  induction n as [n IH] using lt_wf_ind. intros [|c s] Hn.
  - exact Hnil.
  - destruct (starts_with old (c :: s)) eqn:Hs.
    + pose proof (starts_with_inv _ _ Hs) as Heq.
      rewrite Heq, str_replace_match_app.
      apply Hmatch. eapply IH; [|reflexivity].
      subst n. rewrite length_skipn.
      destruct old; [contradiction|simpl; lia].
    + rewrite str_replace_copy by assumption.
      apply Hcopy; [assumption|]. eapply IH; [|reflexivity].
      subst n; simpl; lia.
Qed.

Lemma str_replace_absent s :
  contains old s = false -> str_replace old new s = s.
Proof.
  induction s as [|c s IH]; intros H; [reflexivity|].
  rewrite contains_cons in H. apply orb_false_iff in H as [H1 H2].
  rewrite str_replace_copy by assumption. now rewrite IH.
Qed.

(** A text none of whose suffixes can meet [new] is read through the
    replacement: if it begins the result, it began the argument. *)
Lemma prefix_through_replace w :
  suffixes_clash w new = true ->
  forall s, starts_with w (str_replace old new s) = true ->
            starts_with w s = true.
Proof.
  induction w as [|a w IH]; intros Hw s H; [reflexivity|].
  unfold suffixes_clash in Hw. cbn [length seq forallb] in Hw.
  apply andb_true_iff in Hw as [Ha Hw]. cbn [skipn] in Ha.
  assert (Hw' : suffixes_clash w new = true).
  { unfold suffixes_clash. rewrite <- seq_shift, forallb_map_compose in Hw.
    exact Hw. }
  destruct s as [|c s]; [discriminate H|].
  destruct (starts_with old (c :: s)) eqn:Hs.
  - rewrite str_replace_match in H by assumption.
    now rewrite (clash_not_prefix _ _ _ Ha) in H.
  - rewrite str_replace_copy in H by assumption.
    apply starts_with_cons in H as [-> H].
    apply starts_with_cons. split; [reflexivity|]. now apply IH.
Qed.

Lemma prefix_through_copy q c s :
  suffixes_clash (tl q) new = true ->
  starts_with q (c :: str_replace old new s) = true ->
  starts_with q (c :: s) = true.
Proof.
  destruct q as [|a q]; [reflexivity|]. intros Hend H.
  apply starts_with_cons in H as [-> H].
  apply (prefix_through_replace _ Hend) in H.
  now apply starts_with_cons.
Qed.

Lemma starts_inside_new q b :
  forallb (fun k => clash q (skipn k new)) (seq 0 (length new)) = true ->
  forall k, k < length new -> starts_with q (skipn k new ++ b) = false.
Proof.
  intros H k Hk. rewrite forallb_forall in H.
  apply clash_not_prefix, H, in_seq. lia.
Qed.

(** Replacing creates no occurrence of a text independent of [new]. *)
Lemma replace_creates_no q :
  independent q new = true ->
  forall s, contains q (str_replace old new s) = true ->
            contains q s = true.
Proof.
  intros Hq. apply andb_true_iff in Hq as [Hin Hend].
  apply (str_replace_ind
           (fun s y => contains q y = true -> contains q s = true)).
  - trivial.
  - intros t IH H. apply contains_app_r.
    apply contains_app_inv in H as [(k & Hk & Hs)|H]; [|now apply IH].
    now rewrite (starts_inside_new _ _ Hin _ Hk) in Hs.
  - intros c s Hs IH H. rewrite contains_cons in *.
    apply orb_true_iff in H as [H|H].
    + apply (prefix_through_copy _ _ _ Hend) in H. now rewrite H.
    + rewrite (IH H). apply orb_true_r.
Qed.

(** After the replacement no occurrence of [old] is left. *)
Lemma replace_removes_all :
  independent old new = true ->
  forall s, contains old (str_replace old new s) = false.
Proof.
  intros Hq. apply andb_true_iff in Hq as [Hin Hend].
  apply (str_replace_ind (fun _ y => contains old y = false)).
  - now apply contains_nil.
  - intros t IH. apply not_true_is_false. intros H.
    apply contains_app_inv in H as [(k & Hk & Hs)|H]; [|congruence].
    now rewrite (starts_inside_new _ _ Hin _ Hk) in Hs.
  - intros c s Hs IH. rewrite contains_cons, IH, orb_false_r.
    apply not_true_is_false. intros H.
    apply (prefix_through_copy _ _ _ Hend) in H. congruence.
Qed.

Lemma str_replace_idempotent s :
  independent old new = true ->
  str_replace old new (str_replace old new s) = str_replace old new s.
Proof.
  intros H. apply str_replace_absent. now apply replace_removes_all.
Qed.

End Replace.

(** ** [str.split()] and [' '.join] *)

Lemma split_ws_from_token t cur s :
  forallb (fun c => negb (isspace c)) t = true ->
  split_ws_from cur (t ++ s) = split_ws_from (rev t ++ cur) s.
Proof.
  revert cur; induction t as [|c t IH]; intros cur H; [reflexivity|].
  simpl in H. apply andb_true_iff in H as [Hc H].
  apply negb_true_iff in Hc. simpl. rewrite Hc, IH by assumption.
  now rewrite <- app_assoc.
Qed.

(** The three equations that determine [split_ws]. *)
Lemma split_ws_space c s : isspace c = true -> split_ws (c :: s) = split_ws s.
Proof. unfold split_ws; simpl; now intros ->. Qed.

Lemma split_ws_token_space t c s :
  is_token t = true -> isspace c = true ->
  split_ws (t ++ c :: s) = t :: split_ws s.
Proof.
  intros Ht Hc. unfold split_ws.
  destruct t as [|a t]; [discriminate|]. unfold is_token in Ht.
  rewrite split_ws_from_token by assumption. rewrite app_nil_r.
  cbn [split_ws_from]. rewrite Hc.
  destruct (rev (a :: t)) eqn:E.
  - apply (f_equal (@length _)) in E. rewrite length_rev in E. discriminate.
  - now rewrite <- E, rev_involutive.
Qed.

Lemma split_ws_token t : is_token t = true -> split_ws t = [t].
Proof.
  intros Ht. unfold split_ws.
  destruct t as [|a t]; [discriminate|]. unfold is_token in Ht.
  rewrite <- (app_nil_r (a :: t)) at 1.
  rewrite split_ws_from_token by assumption. rewrite app_nil_r.
  cbn [split_ws_from].
  destruct (rev (a :: t)) eqn:E.
  - apply (f_equal (@length _)) in E. rewrite length_rev in E. discriminate.
  - now rewrite <- E, rev_involutive.
Qed.

Lemma split_ws_from_tokens s : forall cur,
  forallb (fun c => negb (isspace c)) cur = true ->
  Forall (fun t => is_token t = true) (split_ws_from cur s).
Proof.
  assert (Hrev : forall cur, cur <> [] ->
            forallb (fun c => negb (isspace c)) cur = true ->
            is_token (rev cur) = true).
  { intros cur Hne Hcur. unfold is_token.
    destruct (rev cur) eqn:E.
    - apply (f_equal (@length _)) in E. rewrite length_rev in E.
      destruct cur; [contradiction|discriminate].
    - rewrite <- E. apply forallb_forall. intros x Hx.
      rewrite forallb_forall in Hcur. apply Hcur. now apply in_rev. }
  induction s as [|c s IH]; intros cur Hcur; simpl.
  - destruct cur as [|a cur]; constructor; [|constructor].
    now apply Hrev.
  - destruct (isspace c) eqn:Hc.
    + destruct cur as [|a cur]; [now apply IH|].
      constructor; [now apply Hrev|now apply IH].
    + apply IH. simpl. now rewrite Hc.
Qed.

Lemma split_ws_tokens s : Forall (fun t => is_token t = true) (split_ws s).
Proof. now apply split_ws_from_tokens. Qed.

Lemma split_ws_join toks :
  Forall (fun t => is_token t = true) toks ->
  split_ws (join (py " ") toks) = toks.
Proof.
  induction 1 as [|t toks Ht Htoks IH]; [reflexivity|].
  destruct toks as [|t' toks].
  - simpl. now apply split_ws_token.
  - change (join (py " ") (t :: t' :: toks))
      with (t ++ 32%N :: join (py " ") (t' :: toks)).
    rewrite split_ws_token_space by (assumption || reflexivity).
    now rewrite IH.
Qed.

Lemma Forall_firstn {A} (P : A -> Prop) n l :
  Forall P l -> Forall P (firstn n l).
Proof.
  intros H; revert n; induction H; intros [|n]; simpl; constructor; auto.
Qed.

Lemma split_ws_two_tokens s :
  split_ws (two_tokens s) = firstn 2 (split_ws s).
Proof.
  unfold two_tokens. apply split_ws_join, Forall_firstn, split_ws_tokens.
Qed.

Lemma two_tokens_idempotent s : two_tokens (two_tokens s) = two_tokens s.
Proof.
  unfold two_tokens at 1. rewrite split_ws_two_tokens.
  rewrite firstn_firstn. reflexivity.
Qed.

(** ** [str.strip()] *)

Lemma lstrip_spec s :
  exists ws, s = ws ++ lstrip s /\ forallb isspace ws = true.
Proof.
  induction s as [|c s (ws & Hs & Hws)]; [now exists []|].
  simpl. destruct (isspace c) eqn:Hc.
  - exists (c :: ws). simpl. rewrite Hc, Hws. split; [now f_equal|reflexivity].
  - now exists [].
Qed.

Lemma lstrip_no_leading_space s : no_leading_space (lstrip s) = true.
Proof.
  induction s as [|c s IH]; [reflexivity|].
  simpl. destruct (isspace c) eqn:Hc; [assumption|]. simpl. now rewrite Hc.
Qed.

Lemma lstrip_fixed s : no_leading_space s = true -> lstrip s = s.
Proof.
  destruct s as [|c s]; [reflexivity|]. simpl.
  now intros ->%negb_true_iff.
Qed.

Lemma no_leading_space_app a b :
  no_leading_space (a ++ b)
  = match a with [] => no_leading_space b | _ => no_leading_space a end.
Proof. now destruct a. Qed.

Lemma lstrip_keeps_end s :
  no_leading_space (rev s) = true -> no_leading_space (rev (lstrip s)) = true.
Proof.
  induction s as [|c s IH]; [reflexivity|].
  simpl. destruct (isspace c) eqn:Hc; [|trivial].
  intros H. apply IH. rewrite no_leading_space_app in H.
  destruct (rev s); [reflexivity|exact H].
Qed.

Lemma strip_stripped s : stripped (strip s) = true.
Proof.
  unfold stripped, strip, rstrip. rewrite rev_involutive.
  rewrite lstrip_no_leading_space, andb_true_r.
  apply lstrip_keeps_end. rewrite rev_involutive.
  apply lstrip_no_leading_space.
Qed.

Lemma strip_fixed s : stripped s = true -> strip s = s.
Proof.
  unfold stripped, strip, rstrip. intros [H1 H2]%andb_true_iff.
  rewrite (lstrip_fixed _ H1), (lstrip_fixed _ H2). apply rev_involutive.
Qed.

(** [strip] removes white space, and only at the two ends. *)
Lemma strip_spec s :
  exists l r, s = l ++ strip s ++ r
              /\ forallb isspace l = true /\ forallb isspace r = true.
Proof.
  destruct (lstrip_spec s) as (l & Hl & Hlw).
  destruct (lstrip_spec (rev (lstrip s))) as (r & Hr & Hrw).
  exists l, (rev r). unfold strip, rstrip. repeat split.
  - rewrite Hl at 1. f_equal. rewrite <- rev_app_distr, <- Hr.
    now rewrite rev_involutive.
  - assumption.
  - apply forallb_forall. intros x Hx. rewrite forallb_forall in Hrw.
    apply Hrw. now apply in_rev.
Qed.

Lemma strip_incl s c : In c (strip s) -> In c s.
Proof.
  destruct (strip_spec s) as (l & r & Hs & _). intros H. rewrite Hs.
  apply in_or_app; right. apply in_or_app; now left.
Qed.

(** ** The text before a separator *)

Lemma split_char_from_hd sep s : forall cur,
  hd [] (split_char_from sep cur s) = rev cur ++ before sep s.
Proof.
  induction s as [|c s IH]; intros cur; simpl.
  - now rewrite app_nil_r.
  - destruct (c =? sep)%N; simpl; [now rewrite app_nil_r|].
    rewrite IH. simpl. now rewrite <- app_assoc.
Qed.

Lemma split_char_hd sep s : hd [] (split_char sep s) = before sep s.
Proof. apply split_char_from_hd. Qed.

Lemma split_char_nth0 sep s :
  nth_error (split_char sep s) 0 = Some (before sep s).
Proof.
  rewrite <- split_char_hd. unfold split_char.
  destruct s as [|c s]; simpl; [reflexivity|].
  destruct (c =? sep)%N; [reflexivity|].
  generalize [c]. induction s as [|d s IH]; intros cur; simpl; [reflexivity|].
  destruct (d =? sep)%N; [reflexivity|apply IH].
Qed.

Lemma before_spec sep s :
  exists rest, s = before sep s ++ rest
               /\ (rest = [] \/ hd_error rest = Some sep).
Proof.
  induction s as [|c s (rest & Hs & Hrest)]; [exists []; auto|].
  simpl. destruct (N.eqb_spec c sep) as [->|Hne].
  - exists (sep :: s). auto.
  - exists rest. split; [simpl; now f_equal|assumption].
Qed.

Lemma before_without sep s : ~ In sep (before sep s).
Proof.
  induction s as [|c s IH]; simpl; [tauto|].
  destruct (N.eqb_spec c sep) as [->|Hne]; simpl; [tauto|].
  intros [H|H]; [congruence|tauto].
Qed.

Lemma before_fixed sep s : ~ In sep s -> before sep s = s.
Proof.
  induction s as [|c s IH]; simpl; [reflexivity|]. intros H.
  destruct (N.eqb_spec c sep) as [->|Hne]; [tauto|]. f_equal. tauto.
Qed.

Lemma contains_single c s : contains [c] s = existsb (N.eqb c) s.
Proof.
  induction s as [|d s IH]; [reflexivity|].
  rewrite contains_cons, IH. simpl. now rewrite andb_true_r.
Qed.

Lemma contains_single_false c s : contains [c] s = false <-> ~ In c s.
Proof.
  rewrite contains_single. split.
  - intros H Hin. assert (existsb (N.eqb c) s = true); [|congruence].
    apply existsb_exists. exists c. split; [assumption|apply N.eqb_refl].
  - intros H. apply not_true_is_false. intros (x & Hx & Hcx)%existsb_exists.
    apply N.eqb_eq in Hcx. now subst.
Qed.

(** ** Replacement and the ends of a text *)

Lemma no_leading_space_rev_app a b :
  no_leading_space (rev (a ++ b))
  = match b with [] => no_leading_space (rev a) | _ => no_leading_space (rev b) end.
Proof.
  rewrite rev_app_distr, no_leading_space_app.
  destruct b as [|c b]; [reflexivity|].
  destruct (rev (c :: b)) eqn:E; [|reflexivity].
  apply (f_equal (@length _)) in E. rewrite length_rev in E. discriminate.
Qed.

Lemma replace_no_leading_space old new s :
  old <> [] -> new <> [] -> no_leading_space new = true ->
  no_leading_space s = true ->
  no_leading_space (str_replace old new s) = true.
Proof.
  intros Ho Hn Hnew Hs. destruct s as [|c s]; [reflexivity|].
  destruct (starts_with old (c :: s)) eqn:E.
  - rewrite str_replace_match by assumption.
    rewrite no_leading_space_app. destruct new; [contradiction|assumption].
  - rewrite str_replace_copy by assumption. exact Hs.
Qed.

Lemma replace_keeps_end old new :
  old <> [] -> new <> [] -> no_leading_space (rev new) = true ->
  forall s, no_leading_space (rev s) = true ->
            no_leading_space (rev (str_replace old new s)) = true.
Proof.
  intros Ho Hn Hnew s.
  enough (H : (str_replace old new s = [] -> s = [])
              /\ (no_leading_space (rev s) = true ->
                  no_leading_space (rev (str_replace old new s)) = true))
    by apply H.
  apply (str_replace_ind old new Ho
           (fun s y => (y = [] -> s = [])
                       /\ (no_leading_space (rev s) = true ->
                           no_leading_space (rev y) = true))).
  - auto.
  - intros t [IH1 IH2]. split.
    + intros H. apply app_eq_nil in H as [H _]. contradiction.
    + rewrite !no_leading_space_rev_app.
      destruct (str_replace old new t) eqn:Ey; [trivial|].
      destruct t; [discriminate Ey|exact IH2].
  - intros c s0 _ [IH1 IH2]. split; [discriminate|].
    change (c :: s0) with ([c] ++ s0).
    change (c :: str_replace old new s0) with ([c] ++ str_replace old new s0).
    rewrite !no_leading_space_rev_app.
    destruct (str_replace old new s0) eqn:Ey.
    + now rewrite (IH1 eq_refl).
    + destruct s0; [discriminate|exact IH2].
Qed.

Lemma replace_stripped old new s :
  old <> [] -> new <> [] -> stripped new = true ->
  stripped s = true -> stripped (str_replace old new s) = true.
Proof.
  unfold stripped. intros Ho Hn [Hn1 Hn2]%andb_true_iff [Hs1 Hs2]%andb_true_iff.
  rewrite replace_no_leading_space, replace_keeps_end by assumption.
  reflexivity.
Qed.

Lemma replace_without old new c s :
  old <> [] -> independent [c] new = true ->
  ~ In c s -> ~ In c (str_replace old new s).
Proof.
  intros Ho Hind Hs. apply contains_single_false.
  apply not_true_is_false. intros H.
  apply (replace_creates_no old new Ho [c] Hind) in H.
  apply contains_single_false in Hs. congruence.
Qed.

(** ** Two replacements in a row *)

Section TwoReplacements.

Variables o1 n1 o2 n2 : pystr.
Hypothesis o1_not_empty : o1 <> [].
Hypothesis o2_not_empty : o2 <> [].

Lemma chain_fixed t :
contains o1 t = false -> contains o2 t = false ->
str_replace o2 n2 (str_replace o1 n1 t) = t.
Proof.
intros H1 H2. rewrite (str_replace_absent o1 n1 t H1).
now apply str_replace_absent.
Qed.

Lemma chain_clean t :
independent o1 n1 = true -> independent o1 n2 = true ->
independent o2 n2 = true ->
contains o1 (str_replace o2 n2 (str_replace o1 n1 t)) = false
/\ contains o2 (str_replace o2 n2 (str_replace o1 n1 t)) = false.
Proof.
intros H11 H12 H22. split.
- apply not_true_is_false. intros H.
  apply (replace_creates_no o2 n2 o2_not_empty o1 H12) in H.
  now rewrite (replace_removes_all o1 n1 o1_not_empty H11) in H.
- now apply replace_removes_all.
Qed.

Lemma chain_idempotent t :
independent o1 n1 = true -> independent o1 n2 = true ->
independent o2 n2 = true ->
str_replace o2 n2
  (str_replace o1 n1 (str_replace o2 n2 (str_replace o1 n1 t)))
= str_replace o2 n2 (str_replace o1 n1 t).
Proof.
intros H11 H12 H22.
destruct (chain_clean t H11 H12 H22) as [H1 H2].
now apply chain_fixed.
Qed.

Lemma chain_without c t :
independent [c] n1 = true -> independent [c] n2 = true ->
~ In c t -> ~ In c (str_replace o2 n2 (str_replace o1 n1 t)).
Proof.
intros H1 H2 H. apply replace_without; [assumption|assumption|].
now apply replace_without.
Qed.

Lemma chain_stripped t :
n1 <> [] -> n2 <> [] -> stripped n1 = true -> stripped n2 = true ->
stripped t = true ->
stripped (str_replace o2 n2 (str_replace o1 n1 t)) = true.
Proof.
intros N1 N2 S1 S2 St. apply replace_stripped; try assumption.
now apply replace_stripped.
Qed.

End TwoReplacements.

(** ** The processor rule *)

Lemma processor_rule_eq s :
  processor_rule s
  = str_replace (py "Intel Core 7 Processor") (py "Intel Core i7 Processor")
      (str_replace (py "Intel Core 5 Processor") (py "Intel Core i5 Processor")
         (strip (before 40 s))).
Proof. unfold processor_rule. now rewrite split_char_hd. Qed.

Lemma processor_rule_no_paren s : ~ In 40%N (processor_rule s).
Proof.
  rewrite processor_rule_eq.
  apply chain_without;
    [discriminate|discriminate|vm_compute; reflexivity|vm_compute; reflexivity|].
  intros H. apply strip_incl in H. now apply before_without in H.
Qed.

Lemma processor_rule_stripped s : stripped (processor_rule s) = true.
Proof.
  rewrite processor_rule_eq.
  apply chain_stripped;
    [discriminate|discriminate|discriminate|discriminate
    |vm_compute; reflexivity|vm_compute; reflexivity|apply strip_stripped].
Qed.

Lemma processor_rule_fixed t :
  ~ In 40%N t -> stripped t = true ->
  contains (py "Intel Core 5 Processor") t = false ->
  contains (py "Intel Core 7 Processor") t = false ->
  processor_rule t = t.
Proof.
  intros H1 H2 H3 H4. rewrite processor_rule_eq.
  rewrite (before_fixed 40 t H1), (strip_fixed t H2).
  apply chain_fixed; assumption.
Qed.

Lemma processor_rule_clean s :
  contains (py "Intel Core 5 Processor") (processor_rule s) = false
  /\ contains (py "Intel Core 7 Processor") (processor_rule s) = false.
Proof.
  rewrite processor_rule_eq.
  apply chain_clean;
    [discriminate|discriminate
    |vm_compute; reflexivity|vm_compute; reflexivity|vm_compute; reflexivity].
Qed.

Lemma processor_rule_idempotent s :
  processor_rule (processor_rule s) = processor_rule s.
Proof.
  apply processor_rule_fixed.
  - apply processor_rule_no_paren.
  - apply processor_rule_stripped.
  - exact (proj1 (processor_rule_clean s)).
  - exact (proj2 (processor_rule_clean s)).
Qed.

(** ** The operating-system rule *)

Lemma os_rule_idempotent s : os_rule (os_rule s) = os_rule s.
Proof.
  unfold os_rule.
  apply str_replace_idempotent; [discriminate|vm_compute; reflexivity].
Qed.

(** ** The rating rule *)

Lemma rating_rule_eq s :
  rating_rule s
  = str_replace (py "57,499") (py "4.3") (str_replace (py "74,990") (py "4.3") s).
Proof. reflexivity. Qed.

Lemma rating_rule_fixed s :
  contains (py "74,990") s = false -> contains (py "57,499") s = false ->
  rating_rule s = s.
Proof. intros H1 H2. rewrite rating_rule_eq. now apply chain_fixed. Qed.

Lemma rating_rule_clean s :
  contains (py "74,990") (rating_rule s) = false
  /\ contains (py "57,499") (rating_rule s) = false.
Proof.
  rewrite rating_rule_eq.
  apply chain_clean;
    [discriminate|discriminate
    |vm_compute; reflexivity|vm_compute; reflexivity|vm_compute; reflexivity].
Qed.

Lemma rating_rule_idempotent s : rating_rule (rating_rule s) = rating_rule s.
Proof.
  apply rating_rule_fixed;
    [exact (proj1 (rating_rule_clean s))|exact (proj2 (rating_rule_clean s))].
Qed.

(** ** The replacement loops *)

Lemma apply_replacements_fixed reps s :
  Forall (fun kv => contains (fst kv) s = false) reps ->
  apply_replacements reps s = s.
Proof.
  unfold apply_replacements. induction 1 as [|kv reps Hkv _ IH]; [reflexivity|].
  simpl. rewrite str_replace_absent by assumption. exact IH.
Qed.

(** ** The price rule *)

Lemma remove_commas s :
  str_replace (py ",") [] s = filter (fun c => negb (c =? 44)%N) s.
Proof.
  induction s as [|c s IH]; [reflexivity|].
  destruct (starts_with (py ",") (c :: s)) eqn:E.
  - rewrite str_replace_match by (assumption || discriminate).
    change (skipn (length (py ",")) (c :: s)) with s.
    apply starts_with_cons in E as [<- _]. simpl. exact IH.
  - rewrite str_replace_copy by assumption. simpl.
    change (starts_with (py ",") (c :: s)) with ((44 =? c)%N && true) in E.
    rewrite andb_true_r, N.eqb_sym in E. now rewrite E, IH.
Qed.

Lemma price_text_filter s : price_text s = filter unicode_decimal s.
Proof.
  unfold price_text, remove_non_digits. rewrite remove_commas.
  induction s as [|c s IH]; [reflexivity|]. simpl.
  destruct (N.eqb_spec c 44) as [->|Hne]; simpl; [exact IH|].
  now rewrite IH.
Qed.

Lemma price_text_digits s : forallb unicode_decimal (price_text s) = true.
Proof.
  rewrite price_text_filter. apply forallb_forall. intros c Hc.
  now apply filter_In in Hc.
Qed.

Lemma price_text_idempotent s : price_text (price_text s) = price_text s.
Proof.
  rewrite !price_text_filter. induction s as [|c s IH]; [reflexivity|].
  simpl. destruct (unicode_decimal c) eqn:E; [|exact IH].
  simpl. now rewrite E, IH.
Qed.

Lemma digits_value_bound s : forall acc z,
  (0 <= acc)%Z -> digits_value acc s = Some z -> (acc <= z)%Z.
Proof.
  induction s as [|c s IH]; simpl; intros acc z Hacc H.
  - injection H as <-. lia.
  - destruct (ascii_digit c); [|discriminate].
    apply IH in H; lia.
Qed.

Lemma digits_value_ascii s : forall acc,
  forallb ascii_digit s = true -> exists z, digits_value acc s = Some z.
Proof.
  induction s as [|c s IH]; simpl; intros acc H; [eauto|].
  apply andb_true_iff in H as [-> H]. now apply IH.
Qed.

Lemma digits_value_not_ascii s : forall acc,
  forallb ascii_digit s = false -> digits_value acc s = None.
Proof.
  induction s as [|c s IH]; simpl; intros acc H; [discriminate|].
  destruct (ascii_digit c); [now apply IH|reflexivity].
Qed.

Lemma to_numeric_cell_nonneg c z : to_numeric_cell c = Some z -> (0 <= z)%Z.
Proof.
  destruct c as [[|a s]|]; try discriminate.
  unfold to_numeric_cell. apply digits_value_bound. lia.
Qed.

Lemma price_rule_nonneg c z : price_rule c = Some z -> (0 <= z)%Z.
Proof. apply to_numeric_cell_nonneg. Qed.

(** ** Columns of a frame *)

Lemma pystr_eqb_eq a b : pystr_eqb a b = true <-> a = b.
Proof. unfold pystr_eqb. destruct (list_eq_dec N.eq_dec a b); split; congruence. Qed.

Lemma pystr_eqb_refl a : pystr_eqb a a = true.
Proof. now apply pystr_eqb_eq. Qed.

Lemma pystr_eqb_neq a b : pystr_eqb a b = false <-> a <> b.
Proof. rewrite <- pystr_eqb_eq. destruct (pystr_eqb a b); split; congruence. Qed.

Lemma has_label_columns l df :
  has_label l df = match columns_of l df with [] => false | _ => true end.
Proof.
  unfold has_label, columns_of. induction df as [|[l0 s0] df IH]; [reflexivity|].
  simpl. destruct (pystr_eqb l0 l); [reflexivity|exact IH].
Qed.

Lemma has_label_In l df : has_label l df = true <-> In l (labels df).
Proof.
  unfold has_label, labels. rewrite existsb_exists. split.
  - intros ([l0 s0] & Hin & E). apply pystr_eqb_eq in E. simpl in E. subst l0.
    apply in_map_iff. now exists (l, s0).
  - intros ([l0 s0] & E & Hin)%in_map_iff. simpl in E. subst l0.
    exists (l, s0). split; [assumption|apply pystr_eqb_refl].
Qed.

Lemma pystr_eqb_sym a b : pystr_eqb a b = pystr_eqb b a.
Proof.
  destruct (pystr_eqb b a) eqn:E.
  - apply pystr_eqb_eq. apply pystr_eqb_eq in E. congruence.
  - apply pystr_eqb_neq. apply pystr_eqb_neq in E. congruence.
Qed.

Lemma columns_of_setitem_other l l' s df :
  pystr_eqb l' l = false ->
  columns_of l' (setitem df l s) = columns_of l' df.
Proof.
  intros Hne. unfold setitem, columns_of. destruct (has_label l df).
  - induction df as [|[l0 s0] df IH]; [reflexivity|]. simpl.
    destruct (pystr_eqb l0 l) eqn:E; simpl.
    + apply pystr_eqb_eq in E. subst l0.
      rewrite pystr_eqb_sym, Hne. exact IH.
    + destruct (pystr_eqb l0 l'); simpl; now rewrite IH.
  - rewrite filter_app, map_app. simpl.
    rewrite pystr_eqb_sym, Hne. apply app_nil_r.
Qed.

Lemma columns_of_setitem_same l s df :
  columns_of l (setitem df l s)
  = match columns_of l df with
    | [] => [s]
    | cs => map (fun _ => s) cs
    end.
Proof.
  unfold setitem. rewrite has_label_columns.
  destruct (columns_of l df) as [|c cs] eqn:E.
  - unfold columns_of in *. rewrite filter_app, map_app, E. simpl.
    now rewrite pystr_eqb_refl.
  - rewrite <- E. clear E. unfold columns_of.
    induction df as [|[l0 s0] df IH]; [reflexivity|]. simpl.
    destruct (pystr_eqb l0 l) eqn:E; simpl; rewrite E; simpl; now rewrite IH.
Qed.

Lemma labels_setitem l s df :
  labels (setitem df l s) = if has_label l df then labels df else labels df ++ [l].
Proof.
  unfold setitem, labels. destruct (has_label l df).
  - rewrite map_map. apply map_ext. intros [l0 s0]. simpl.
    now destruct (pystr_eqb l0 l).
  - now rewrite map_app.
Qed.

Lemma setitem_setitem l s1 s2 df :
  setitem (setitem df l s1) l s2 = setitem df l s2.
Proof.
  unfold setitem at 1. rewrite has_label_columns, columns_of_setitem_same.
  replace (match match columns_of l df with [] => [s1]
                 | s :: l0 => map (fun _ => s1) (s :: l0) end
           with [] => false | _ => true end) with true
    by now destruct (columns_of l df).
  unfold setitem. destruct (has_label l df) eqn:E.
  - rewrite map_map. apply map_ext. intros [l0 s0]. simpl.
    destruct (pystr_eqb l0 l) eqn:E0; simpl; now rewrite E0.
  - rewrite map_app. simpl. rewrite pystr_eqb_refl. f_equal.
    rewrite <- (map_id df) at 2. apply map_ext_in. intros [l0 s0] Hin. simpl.
    destruct (pystr_eqb l0 l) eqn:E0; [|reflexivity].
    apply pystr_eqb_eq in E0. subst l0.
    assert (has_label l df = true); [|congruence].
    apply has_label_In, in_map_iff. now exists (l, s0).
Qed.

Lemma column_text_ok df l col :
  column_text df l = Ok col <-> columns_of l df = [ObjectSeries col].
Proof.
  unfold column_text.
  destruct (columns_of l df) as [|[c|v|n] [|x xs]]; split; congruence.
Qed.

Lemma column_text_setitem df l col col' :
  column_text df l = Ok col ->
  column_text (setitem df l (ObjectSeries col')) l = Ok col'.
Proof.
  rewrite !column_text_ok, columns_of_setitem_same. now intros ->.
Qed.

Lemma column_text_setitem_other df l l' s :
  pystr_eqb l' l = false ->
  column_text (setitem df l s) l' = column_text df l'.
Proof.
  intros H. unfold column_text. now rewrite columns_of_setitem_other.
Qed.

Lemma column_text_has_label df l col :
  column_text df l = Ok col -> has_label l df = true.
Proof.
  rewrite column_text_ok, has_label_columns. now intros ->.
Qed.

Lemma columns_of_filter_label l l' df :
  columns_of l' (filter (fun col => negb (pystr_eqb (fst col) l)) df)
  = if pystr_eqb l' l then [] else columns_of l' df.
Proof.
  unfold columns_of. induction df as [|[l0 s0] df IH]; simpl.
  - now destruct (pystr_eqb l' l).
  - destruct (pystr_eqb l0 l) eqn:E; simpl.
    + apply pystr_eqb_eq in E. subst l0. rewrite IH.
      rewrite (pystr_eqb_sym l l'). now destruct (pystr_eqb l' l).
    + destruct (pystr_eqb l0 l') eqn:E'; simpl; rewrite IH;
        [|reflexivity].
      apply pystr_eqb_eq in E'. subst l0. now rewrite E.
Qed.

Lemma labels_filter (p : pystr -> bool) (df : frame) :
  labels (filter (fun col => p (fst col)) df) = filter p (labels df).
Proof.
  unfold labels. induction df as [|[l0 s0] df IH]; [reflexivity|]. simpl.
  destruct (p l0); simpl; now rewrite IH.
Qed.

(** The artifact drop keeps exactly the columns whose label does not
    contain the prefix. *)
Lemma drop_unnamed_filter df :
  drop_unnamed df = filter (fun col => negb (contains prefix (fst col))) df.
Proof.
  unfold drop_unnamed, drop_columns, filter_like.
  apply filter_ext_in. intros [l0 s0] Hin. simpl. f_equal.
  destruct (contains prefix l0) eqn:E.
  - apply existsb_exists. exists l0. split; [|apply pystr_eqb_refl].
    apply filter_In. split; [|assumption].
    unfold labels. apply in_map_iff. now exists (l0, s0).
  - apply not_true_is_false. intros (x & Hx & Hl)%existsb_exists.
    apply pystr_eqb_eq in Hl. subst x. apply filter_In in Hx. destruct Hx.
    congruence.
Qed.

Lemma columns_of_drop_unnamed l df :
  columns_of l (drop_unnamed df)
  = if contains prefix l then [] else columns_of l df.
Proof.
  rewrite drop_unnamed_filter. unfold columns_of.
  induction df as [|[l0 s0] df IH]; simpl.
  - now destruct (contains prefix l).
  - destruct (contains prefix l0) eqn:E; simpl.
    + rewrite IH. destruct (pystr_eqb l0 l) eqn:E'; [|reflexivity].
      apply pystr_eqb_eq in E'. subst l0. now rewrite E.
    + destruct (pystr_eqb l0 l) eqn:E'; simpl; rewrite IH; [|reflexivity].
      apply pystr_eqb_eq in E'. subst l0. now rewrite E.
Qed.

Lemma columns_of_head n l df :
  columns_of l (head n df) = map (series_head n) (columns_of l df).
Proof.
  unfold columns_of, head. induction df as [|[l0 s0] df IH]; [reflexivity|].
  simpl. destruct (pystr_eqb l0 l); simpl; now rewrite IH.
Qed.

Lemma labels_head n df : labels (head n df) = labels df.
Proof. unfold labels, head. rewrite map_map. now apply map_ext. Qed.

Lemma series_head_length n s :
  series_length (series_head n s) = Nat.min n (series_length s).
Proof. destruct s; simpl; now rewrite ?length_firstn. Qed.

(** ** The vectorised rules are the rules on one value, cell by cell *)

Lemma brand_column col :
  str_get 0 (str_split_ws col) = map brand_cell col.
Proof.
  unfold str_get, str_split_ws. rewrite map_map. apply map_ext.
  now intros [s|].
Qed.

Lemma processor_column col :
  str_replace_col (py "Intel Core 7 Processor") (py "Intel Core i7 Processor")
    (str_replace_col (py "Intel Core 5 Processor") (py "Intel Core i5 Processor")
       (str_strip (str_get 0 (str_split_char 40 col))))
  = map (option_map processor_rule) col.
Proof.
  unfold str_replace_col, str_strip, str_get, str_split_char.
  rewrite !map_map. apply map_ext. intros [s|]; [|reflexivity].
  cbn [option_map]. rewrite split_char_nth0. cbn [option_map].
  unfold processor_rule. now rewrite split_char_hd.
Qed.

Lemma two_tokens_column col :
  apply_join (py " ") (str_slice_to 2 (str_split_ws col))
  = if forallb is_text col then Ok (map (option_map two_tokens) col)
    else Raise TypeError.
Proof.
  unfold apply_join, str_slice_to, str_split_ws. rewrite map_map.
  induction col as [|[s|] col IH]; [reflexivity| |reflexivity].
  simpl. simpl in IH. rewrite IH. now destruct (forallb is_text col).
Qed.

Lemma price_column col :
  str_remove_non_digits (str_replace_col (py ",") [] col)
  = map (option_map price_text) col.
Proof.
  unfold str_remove_non_digits, str_replace_col. rewrite map_map.
  apply map_ext. now intros [s|].
Qed.

(** ** The blocks of [transform_data] *)

Lemma setitem_unchanged l s df :
  Forall (eq s) (columns_of l df) -> has_label l df = true ->
  setitem df l s = df.
Proof.
  unfold setitem. intros H ->. unfold columns_of in H.
  induction df as [|[l0 s0] df IH]; [reflexivity|]. simpl in *.
  destruct (pystr_eqb l0 l); simpl in *.
  - inversion H; subst. f_equal. now apply IH.
  - f_equal. now apply IH.
Qed.

Lemma replace_loop_spec l reps : forall df col,
  column_text df l = Ok col ->
  replace_loop l reps df
  = Ok (setitem df l
          (ObjectSeries (map (option_map (apply_replacements reps)) col))).
Proof.
  induction reps as [|[k v] reps IH]; intros df col H.
  - simpl. f_equal. symmetry. apply setitem_unchanged.
    + apply column_text_ok in H. rewrite H.
      constructor; [|constructor]. f_equal.
      etransitivity; [|apply map_id]. apply map_ext. now intros [s|].
    + eapply column_text_has_label; eassumption.
  - cbn [replace_loop]. rewrite H. cbn [bind].
    rewrite (IH _ _ (column_text_setitem _ _ _ _ H)).
    rewrite setitem_setitem. unfold str_replace_col. rewrite map_map.
    do 3 f_equal. apply map_ext. now intros [s|].
Qed.

Lemma replace_loop_raise l kv reps df e :
  column_text df l = Raise e -> replace_loop l (kv :: reps) df = Raise e.
Proof. intros H. destruct kv. cbn [replace_loop]. now rewrite H. Qed.

Lemma extract_brand_spec df :
  extract_brand df
  = title <- column_text df (py "Title") ;;
    Ok (filter (fun col => negb (pystr_eqb (fst col) (py "Title")))
          (setitem df (py "Brand_Name") (ObjectSeries (map brand_cell title)))).
Proof.
  unfold extract_brand. destruct (column_text df (py "Title")) eqn:E;
    [|reflexivity].
  cbn [bind]. rewrite brand_column. unfold drop_label.
  replace (has_label _ _) with true; [reflexivity|]. symmetry.
  apply has_label_In. rewrite labels_setitem.
  apply column_text_has_label, has_label_In in E.
  destruct (has_label _ df); [assumption|]. apply in_or_app. now left.
Qed.

Lemma transform_processor_spec df :
  transform_processor df
  = col <- column_text df (py "Processor") ;;
    Ok (setitem df (py "Processor")
          (ObjectSeries (map (option_map processor_rule) col))).
Proof.
  unfold transform_processor.
  destruct (column_text df (py "Processor")) eqn:E; [|reflexivity].
  cbn [bind]. rewrite (column_text_setitem _ _ _ _ E). cbn [bind].
  rewrite setitem_setitem, (column_text_setitem _ _ _ _ E). cbn [bind].
  now rewrite setitem_setitem, processor_column.
Qed.

Lemma transform_ram_spec df :
  transform_ram df
  = col <- column_text df (py "RAM") ;;
    if forallb is_text col
    then Ok (setitem df (py "RAM")
               (ObjectSeries (map (option_map two_tokens) col)))
    else Raise TypeError.
Proof.
  unfold transform_ram.
  destruct (column_text df (py "RAM")) eqn:E; [|reflexivity].
  cbn [bind]. rewrite two_tokens_column.
  now destruct (forallb is_text a).
Qed.

Lemma transform_os_spec df :
  transform_os df
  = col <- column_text df (py "Operating_System") ;;
    Ok (setitem df (py "Operating_System")
          (ObjectSeries (map (option_map os_rule) col))).
Proof. reflexivity. Qed.

Lemma transform_warranty_spec df :
  transform_warranty df
  = col <- column_text df (py "Warranty") ;;
    if forallb is_text col
    then Ok (setitem df (py "Warranty")
               (ObjectSeries (map (option_map warranty_rule) col)))
    else Raise TypeError.
Proof.
  unfold transform_warranty.
  destruct (column_text df (py "Warranty")) eqn:E; [|reflexivity].
  cbn [bind]. rewrite two_tokens_column.
  destruct (forallb is_text a); [|reflexivity]. cbn [bind].
  rewrite (replace_loop_spec _ _ _ _ (column_text_setitem _ _ _ _ E)).
  rewrite setitem_setitem, map_map. do 3 f_equal.
  apply map_ext. now intros [s|].
Qed.

Lemma transform_prices_spec df :
  transform_prices df
  = col <- column_text df (py "Prices") ;;
    Ok (setitem df (py "Prices")
          (to_numeric_Int64 (map (option_map price_text) col))).
Proof.
  unfold transform_prices.
  destruct (column_text df (py "Prices")) eqn:E; [|reflexivity].
  cbn [bind]. rewrite (column_text_setitem _ _ _ _ E). cbn [bind].
  now rewrite setitem_setitem, price_column.
Qed.

Lemma transform_rating_spec df :
  transform_rating df
  = col <- column_text df (py "Rating") ;;
    Ok (setitem df (py "Rating")
          (ObjectSeries (map (option_map rating_rule) col))).
Proof.
  unfold transform_rating.
  destruct (column_text df (py "Rating")) eqn:E.
  - cbn [bind]. now apply replace_loop_spec.
  - now apply replace_loop_raise.
Qed.

Lemma column_text_filter_label df l l' :
  pystr_eqb l' l = false ->
  column_text (filter (fun col => negb (pystr_eqb (fst col) l)) df) l'
  = column_text df l'.
Proof.
  intros H. unfold column_text. now rewrite columns_of_filter_label, H.
Qed.

Lemma column_text_drop_unnamed df l :
  contains prefix l = false ->
  column_text (drop_unnamed df) l = column_text df l.
Proof.
  intros H. unfold column_text. now rewrite columns_of_drop_unnamed, H.
Qed.

Ltac through_frames :=
  repeat first
    [ rewrite column_text_setitem_other by reflexivity
    | rewrite column_text_filter_label by reflexivity
    | rewrite column_text_drop_unnamed by reflexivity ].

(** [normalize] reads the seven columns of the raw frame, in the order of
    the source, and fails on the first that is absent, not text, or (RAM and
    Warranty) has a missing cell. *)
Lemma normalize_eq raw_data :
  normalize raw_data
  = title <- column_text raw_data (py "Title") ;;
    proc <- column_text raw_data (py "Processor") ;;
    ram <- column_text raw_data (py "RAM") ;;
    _ <- check_text ram ;;
    os <- column_text raw_data (py "Operating_System") ;;
    war <- column_text raw_data (py "Warranty") ;;
    _ <- check_text war ;;
    prices <- column_text raw_data (py "Prices") ;;
    rating <- column_text raw_data (py "Rating") ;;
    Ok (normalized_frame raw_data title proc ram os war prices rating).
Proof.
  unfold normalize, check_text. rewrite extract_brand_spec.
  rewrite column_text_drop_unnamed by reflexivity.
  destruct (column_text raw_data (py "Title")) as [title|]; [|reflexivity].
  cbn [bind]. rewrite transform_processor_spec. through_frames.
  destruct (column_text raw_data (py "Processor")) as [proc|]; [|reflexivity].
  cbn [bind]. rewrite transform_ram_spec. through_frames.
  destruct (column_text raw_data (py "RAM")) as [ram|]; [|reflexivity].
  cbn [bind]. destruct (forallb is_text ram); [|reflexivity].
  cbn [bind]. rewrite transform_os_spec. through_frames.
  destruct (column_text raw_data (py "Operating_System")) as [os|];
    [|reflexivity].
  cbn [bind]. rewrite transform_warranty_spec. through_frames.
  destruct (column_text raw_data (py "Warranty")) as [war|]; [|reflexivity].
  cbn [bind]. destruct (forallb is_text war); [|reflexivity].
  cbn [bind]. rewrite transform_prices_spec. through_frames.
  destruct (column_text raw_data (py "Prices")) as [prices|]; [|reflexivity].
  cbn [bind]. rewrite transform_rating_spec. through_frames.
  destruct (column_text raw_data (py "Rating")) as [rating|]; reflexivity.
Qed.

Lemma bind_ok {A B} (c : result A) (k : A -> result B) b :
  bind c k = Ok b -> exists a, c = Ok a /\ k a = Ok b.
Proof. destruct c as [a|e]; [eauto|discriminate]. Qed.

Lemma check_text_ok col u : check_text col = Ok u -> forallb is_text col = true.
Proof. unfold check_text. now destruct (forallb is_text col). Qed.

Lemma normalize_ok raw_data df :
  normalize raw_data = Ok df <->
  exists title proc ram os war prices rating,
    normalizable raw_data title proc ram os war prices rating
    /\ df = normalized_frame raw_data title proc ram os war prices rating.
Proof.
  rewrite normalize_eq. unfold normalizable. split.
  - intros H.
    apply bind_ok in H as (title & Ht & H).
    apply bind_ok in H as (proc & Hp & H).
    apply bind_ok in H as (ram & Hr & H).
    apply bind_ok in H as (u1 & Hr1 & H). apply check_text_ok in Hr1.
    apply bind_ok in H as (os & Ho & H).
    apply bind_ok in H as (war & Hw & H).
    apply bind_ok in H as (u2 & Hw1 & H). apply check_text_ok in Hw1.
    apply bind_ok in H as (prices & Hpr & H).
    apply bind_ok in H as (rating & Hra & H).
    injection H as <-.
    exists title, proc, ram, os, war, prices, rating. tauto.
  - intros (title & proc & ram & os & war & prices & rating & H & ->).
    destruct H as (Ht & Hp & Hr & Hr1 & Ho & Hw & Hw1 & Hpr & Hra).
    unfold check_text.
    rewrite Ht; cbn [bind]. rewrite Hp; cbn [bind]. rewrite Hr; cbn [bind].
    rewrite Hr1; cbn [bind]. rewrite Ho; cbn [bind]. rewrite Hw; cbn [bind].
    rewrite Hw1; cbn [bind]. rewrite Hpr; cbn [bind]. now rewrite Hra.
Qed.

Lemma columns_of_filter_other l l' df :
  pystr_eqb l' l = false ->
  columns_of l' (filter (fun col => negb (pystr_eqb (fst col) l)) df)
  = columns_of l' df.
Proof. intros H. now rewrite columns_of_filter_label, H. Qed.

Lemma columns_of_drop_unnamed_keep l df :
  contains prefix l = false -> columns_of l (drop_unnamed df) = columns_of l df.
Proof. intros H. now rewrite columns_of_drop_unnamed, H. Qed.

Ltac through_columns :=
  repeat first
    [ rewrite columns_of_setitem_other by reflexivity
    | rewrite columns_of_filter_other by reflexivity
    | rewrite columns_of_drop_unnamed_keep by reflexivity ].

Section NormalizedFrame.

Variables (raw_data : frame) (title proc ram os war prices rating : list cell).
Hypothesis readable : normalizable raw_data title proc ram os war prices rating.

Ltac column_set H :=
  unfold normalized_frame; cbv zeta; through_columns;
  rewrite columns_of_setitem_same; through_columns;
  apply column_text_ok in H; rewrite H; reflexivity.

Lemma normalized_processor :
  columns_of (py "Processor")
    (normalized_frame raw_data title proc ram os war prices rating)
  = [ObjectSeries (map (option_map processor_rule) proc)].
Proof. destruct readable as (_ & H & _). column_set H. Qed.

Lemma normalized_ram :
  columns_of (py "RAM")
    (normalized_frame raw_data title proc ram os war prices rating)
  = [ObjectSeries (map (option_map two_tokens) ram)].
Proof. destruct readable as (_ & _ & H & _). column_set H. Qed.

Lemma normalized_os :
  columns_of (py "Operating_System")
    (normalized_frame raw_data title proc ram os war prices rating)
  = [ObjectSeries (map (option_map os_rule) os)].
Proof. destruct readable as (_ & _ & _ & _ & H & _). column_set H. Qed.

Lemma normalized_warranty :
  columns_of (py "Warranty")
    (normalized_frame raw_data title proc ram os war prices rating)
  = [ObjectSeries (map (option_map warranty_rule) war)].
Proof. destruct readable as (_ & _ & _ & _ & _ & H & _). column_set H. Qed.

Lemma normalized_prices :
  columns_of (py "Prices")
    (normalized_frame raw_data title proc ram os war prices rating)
  = [to_numeric_Int64 (map (option_map price_text) prices)].
Proof.
  destruct readable as (_ & _ & _ & _ & _ & _ & _ & H & _). column_set H.
Qed.

Lemma normalized_rating :
  columns_of (py "Rating")
    (normalized_frame raw_data title proc ram os war prices rating)
  = [ObjectSeries (map (option_map rating_rule) rating)].
Proof.
  destruct readable as (_ & _ & _ & _ & _ & _ & _ & _ & H). column_set H.
Qed.

Lemma normalized_title :
  columns_of (py "Title")
    (normalized_frame raw_data title proc ram os war prices rating)
  = [].
Proof.
  unfold normalized_frame; cbv zeta; through_columns.
  now rewrite columns_of_filter_label.
Qed.

Lemma normalized_brand :
  columns_of (py "Brand_Name")
    (normalized_frame raw_data title proc ram os war prices rating)
  = match columns_of (py "Brand_Name") raw_data with
    | [] => [ObjectSeries (map brand_cell title)]
    | cs => map (fun _ => ObjectSeries (map brand_cell title)) cs
    end.
Proof.
  unfold normalized_frame; cbv zeta; through_columns.
  rewrite columns_of_setitem_same. now through_columns.
Qed.

(** A column no rule touches is kept unless its label contains the
    artifact prefix. *)
Lemma normalized_other l :
  existsb (pystr_eqb l)
    [py "Brand_Name"; py "Title"; py "Processor"; py "RAM";
     py "Operating_System"; py "Warranty"; py "Prices"; py "Rating"] = false ->
  columns_of l (normalized_frame raw_data title proc ram os war prices rating)
  = if contains prefix l then [] else columns_of l raw_data.
Proof.
  cbn [existsb]. rewrite !orb_false_iff.
  intros (H1 & H2 & H3 & H4 & H5 & H6 & H7 & H8 & _).
  unfold normalized_frame; cbv zeta.
  rewrite !columns_of_setitem_other by assumption.
  rewrite columns_of_filter_other by assumption.
  rewrite columns_of_setitem_other by assumption.
  apply columns_of_drop_unnamed.
Qed.

End NormalizedFrame.

Lemma labels_setitem_incl l l' s df :
  In l' (labels (setitem df l s)) -> In l' (labels df) \/ l' = l.
Proof.
  rewrite labels_setitem. destruct (has_label l df); [now left|].
  intros [H|[H|[]]]%in_app_or; auto.
Qed.

Lemma labels_normalized_frame raw_data title proc ram os war prices rating l :
  In l (labels (normalized_frame raw_data title proc ram os war prices rating)) ->
  contains prefix l = false /\ l <> py "Title".
Proof.
  unfold normalized_frame; cbv zeta. intros H.
  repeat (apply labels_setitem_incl in H as [H| ->];
          [|split; [reflexivity|discriminate]]).
  rewrite (labels_filter (fun l => negb (pystr_eqb l (py "Title")))) in H.
  apply filter_In in H as [H Ht].
  apply negb_true_iff, pystr_eqb_neq in Ht. split; [|assumption].
  apply labels_setitem_incl in H as [H| ->]; [|reflexivity].
  rewrite drop_unnamed_filter in H.
  rewrite (labels_filter (fun l => negb (contains prefix l))) in H.
  apply filter_In in H as [_ H]. now apply negb_true_iff in H.
Qed.

(** ** More on occurrences, tokens and decimal texts *)

Lemma starts_with_contains p s : starts_with p s = true -> contains p s = true.
Proof. destruct s; simpl; now intros ->. Qed.

(** [contains p s] : [p] occurs somewhere in [s]. *)
Lemma contains_spec p s :
  contains p s = true <-> exists a b, s = a ++ p ++ b.
Proof.
  split.
  - induction s as [|c s IH].
    + simpl. rewrite orb_false_r. intros H.
      destruct p; [|discriminate]. now exists [], [].
    + rewrite contains_cons. intros [H|H]%orb_true_iff.
      * exists [], (skipn (length p) (c :: s)). now apply starts_with_inv.
      * destruct (IH H) as (a & b & ->). now exists (c :: a), b.
  - intros (a & b & ->). apply contains_app_r, starts_with_contains,
      starts_with_app.
Qed.

Lemma split_ws_leading ws s :
  forallb isspace ws = true -> split_ws (ws ++ s) = split_ws s.
Proof.
  induction ws as [|c ws IH]; [reflexivity|]. simpl.
  intros [Hc H]%andb_true_iff. rewrite split_ws_space by assumption. auto.
Qed.

Lemma split_ws_blank s : forallb isspace s = true -> split_ws s = [].
Proof.
  intros H. rewrite <- (app_nil_r s). now rewrite split_ws_leading.
Qed.

Lemma digits_value_snoc s : forall acc d,
  ascii_digit d = true ->
  digits_value acc (s ++ [d])
  = option_map (fun v => v * 10 + Z.of_N (d - 48))%Z (digits_value acc s).
Proof.
  induction s as [|c s IH]; intros acc d Hd; simpl.
  - now rewrite Hd.
  - destruct (ascii_digit c); [now apply IH|reflexivity].
Qed.

Lemma digits_value_below s : forall acc z,
  (0 <= acc)%Z -> digits_value acc s = Some z ->
  (z < (acc + 1) * 10 ^ Z.of_nat (length s))%Z.
Proof.
  induction s as [|c s IH]; intros acc z Hacc H.
  - injection H as <-. simpl. lia.
  - simpl in H. destruct (ascii_digit c) eqn:Hc; [|discriminate].
    unfold ascii_digit in Hc. apply andb_true_iff in Hc as [H1 H2].
    apply N.leb_le in H1, H2.
    apply IH in H; [|lia].
    change (length (c :: s)) with (S (length s)).
    rewrite Nat2Z.inj_succ, Z.pow_succ_r by lia.
    assert (0 < 10 ^ Z.of_nat (length s))%Z by (apply Z.pow_pos_nonneg; lia).
    nia.
Qed.

Lemma round64_exact z : (0 <= z < 2 ^ 53)%Z -> round64 z = z.
Proof.
  intros [H0 H]. unfold round64. cbv zeta.
  destruct (Z.leb_spec (Z.log2 z - 52) 0) as [_|Hk]; [reflexivity|].
  exfalso. destruct (Z.eq_dec z 0) as [->|Hz]; [discriminate Hk|].
  assert (Hl : (Z.log2 z < 53)%Z) by (apply Z.log2_lt_pow2; [lia|exact H]).
  lia.
Qed.

Lemma round64_nonneg z : (0 <= z)%Z -> (0 <= round64 z)%Z.
Proof.
  intros H. unfold round64. cbv zeta.
  destruct (Z.leb_spec (Z.log2 z - 52) 0) as [_|Hk]; [assumption|].
  apply Z.shiftl_nonneg.
  assert (Hq : (0 <= Z.shiftr z (Z.log2 z - 52))%Z) by now apply Z.shiftr_nonneg.
  repeat match goal with
         | |- context [if ?b then _ else _] => destruct b
         end; lia.
Qed.

Lemma xstrtod_digits_exact s : forall n number e z,
  (n + length s <= 17)%nat -> (0 <= number)%Z ->
  digits_value number s = Some z -> (z < 2 ^ 53)%Z ->
  xstrtod_digits n number e s = Some (z, e).
Proof.
  induction s as [|c s IH]; intros n number e z Hn H0 H Hz.
  - injection H as <-. reflexivity.
  - cbn [digits_value xstrtod_digits length] in *.
    destruct (ascii_digit c) eqn:Hc; [|discriminate].
    replace (n <? 17)%nat with true by (symmetry; apply Nat.ltb_lt; lia).
    assert (Hd : (0 <= Z.of_N (c - 48))%Z) by lia.
    assert (Hb : (number * 10 + Z.of_N (c - 48) <= z)%Z)
      by (eapply digits_value_bound; [|exact H]; lia).
    rewrite (round64_exact (number * 10)) by lia.
    rewrite round64_exact by lia.
    apply IH; [lia|lia|assumption|assumption].
Qed.

Lemma xstrtod_digits_not_ascii s : forall n number e,
  forallb ascii_digit s = false -> xstrtod_digits n number e s = None.
Proof.
  induction s as [|c s IH]; simpl; intros n number e H; [discriminate|].
  destruct (ascii_digit c); [|reflexivity].
  destruct (n <? 17)%nat; now apply IH.
Qed.

Lemma xstrtod_digits_nonneg s : forall n number e number' e',
  (0 <= number)%Z ->
  xstrtod_digits n number e s = Some (number', e') -> (0 <= number')%Z.
Proof.
  induction s as [|c s IH]; cbn [xstrtod_digits];
    intros n number e number' e' H0 H.
  - now injection H as <- _.
  - destruct (ascii_digit c); [|discriminate].
    destruct (n <? 17)%nat; [|eapply IH; eassumption].
    eapply IH; [|exact H]. apply round64_nonneg.
    pose proof (round64_nonneg (number * 10)). lia.
Qed.

Lemma to_double_nonneg c z : to_double c = Some z -> (0 <= z)%Z.
Proof.
  destruct c as [s|]; [|discriminate]. unfold to_double, precise_xstrtod.
  destruct s as [|a s]; [discriminate|].
  destruct (xstrtod_digits 0 0 0 (a :: s)) as [[number e]|] eqn:E;
    [|discriminate].
  apply xstrtod_digits_nonneg in E; [|lia].
  destruct (308 <? e)%Z; [discriminate|]. cbv zeta.
  assert (H : (0 <= if (0 <? e)%Z
                    then round64 (number * round64 (10 ^ e)) else number)%Z).
  { destruct (Z.ltb_spec 0 e) as [He|_]; [|assumption].
    apply round64_nonneg. apply Z.mul_nonneg_nonneg; [assumption|].
    apply round64_nonneg. apply Z.pow_nonneg. lia. }
  destruct (DBL_MAX <? _)%Z; [discriminate|]. now intros [= <-].
Qed.

Lemma as_int_nonneg c z : as_int c = Some z -> (0 <= z)%Z.
Proof.
  unfold as_int. destruct (to_double c); [|discriminate].
  apply to_numeric_cell_nonneg.
Qed.

(** A text of at most fifteen digits is carried exactly by binary64. *)
Lemma short_text_exact l :
  (length l <= 15)%nat ->
  precise_xstrtod l = to_numeric_cell (Some l)
  /\ fits_int64 (to_numeric_cell (Some l)) = true.
Proof.
  intros Hlen. destruct l as [|a t]; [now split|].
  unfold precise_xstrtod, to_numeric_cell. cbv beta match.
  destruct (forallb ascii_digit (a :: t)) eqn:Hd.
  - destruct (digits_value_ascii _ 0%Z Hd) as (z & Hz).
    assert (Hlt : (z < 10 ^ 15)%Z).
    { assert (Hb : (z < (0 + 1) * 10 ^ Z.of_nat (length (a :: t)))%Z)
        by (apply digits_value_below; [lia|exact Hz]).
      eapply Z.lt_le_trans; [exact Hb|].
      rewrite Z.mul_1_l. apply Z.pow_le_mono_r; lia. }
    assert (Hz0 : (0 <= z)%Z)
      by (eapply digits_value_bound; [|exact Hz]; lia).
    rewrite (xstrtod_digits_exact _ 0 0%Z 0%Z z) by (lia || assumption).
    change (308 <? 0)%Z with false. change (0 <? 0)%Z with false.
    cbv beta match zeta.
    replace (DBL_MAX <? z)%Z with false.
    2:{ symmetry. apply Z.ltb_ge.
        apply Z.le_trans with (2 ^ 53)%Z; [lia|].
        apply Z.leb_le. vm_compute. reflexivity. }
    rewrite Hz. split; [reflexivity|].
    apply Z.leb_le. unfold INT64_MAX. lia.
  - rewrite (xstrtod_digits_not_ascii _ _ _ _ Hd).
    rewrite (digits_value_not_ascii _ _ Hd). now split.
Qed.

Lemma parsed_self (o : option Z) :
  match o with Some _ => o | None => None end = o.
Proof. now destruct o. Qed.

Lemma short_price_exact c :
  short_price c = true ->
  to_double (option_map price_text c) = price_rule c
  /\ as_int (option_map price_text c) = price_rule c
  /\ fits_int64 (price_rule c) = true.
Proof.
  destruct c as [s|]; [|now repeat split].
  unfold short_price, price_rule, as_int, to_double. cbn [option_map].
  intros Hlen%Nat.leb_le.
  destruct (short_text_exact _ Hlen) as [-> Hfit].
  split; [reflexivity|]. split; [|assumption].
  apply parsed_self.
Qed.

Lemma to_numeric_Int64_cases col :
  (exists vals, to_numeric_Int64 col = Int64Series vals)
  \/ to_numeric_Int64 col = NumericSeries (length col).
Proof.
  unfold to_numeric_Int64. cbv zeta.
  repeat match goal with
         | |- context [if ?b then _ else _] => destruct b
         end; eauto.
Qed.

Lemma to_numeric_Int64_short col :
  forallb short_price col = true ->
  to_numeric_Int64 (map (option_map price_text) col)
  = Int64Series (map price_rule col).
Proof.
  intros H. rewrite forallb_forall in H.
  assert (Hf : map to_double (map (option_map price_text) col)
               = map price_rule col).
  { rewrite map_map. apply map_ext_in. intros c Hc.
    now apply short_price_exact, H. }
  assert (Hi : map as_int (map (option_map price_text) col)
               = map price_rule col).
  { rewrite map_map. apply map_ext_in. intros c Hc.
    now apply short_price_exact, H. }
  assert (H1 : forallb fits_int64 (map price_rule col) = true).
  { rewrite forallb_map_compose. apply forallb_forall.
    intros c Hc. now apply short_price_exact, H. }
  unfold to_numeric_Int64. cbv zeta. rewrite Hf, Hi, H1.
  now destruct (_ && _).
Qed.

Lemma digits_value_none s : forall acc,
  digits_value acc s = None -> forallb ascii_digit s = false.
Proof.
  intros acc H. destruct (forallb ascii_digit s) eqn:E; [|reflexivity].
  destruct (digits_value_ascii _ acc E) as (z & Hz). congruence.
Qed.

Lemma to_double_unparsed c : to_numeric_cell c = None -> to_double c = None.
Proof.
  destruct c as [[|a s]|]; try reflexivity.
  unfold to_numeric_cell, to_double, precise_xstrtod.
  intros H%digits_value_none.
  now rewrite (xstrtod_digits_not_ascii _ _ _ _ H).
Qed.

Lemma as_int_unparsed c : to_numeric_cell c = None -> as_int c = None.
Proof. intros H. unfold as_int. now rewrite (to_double_unparsed _ H). Qed.

(** The values of an [Int64] column of prices: none is negative, and a
    cell without a readable integer gives a missing value. *)
Lemma to_numeric_Int64_values col vals :
  to_numeric_Int64 col = Int64Series vals ->
  length vals = length col
  /\ Forall (fun v => forall z, v = Some z -> (0 <= z)%Z) vals
  /\ (forall i c, nth_error col i = Some c -> to_numeric_cell c = None ->
        nth_error vals i = Some None).
Proof.
  unfold to_numeric_Int64. cbv zeta.
  destruct (_ && _);
    [destruct (forallb fits_int64 (map as_int col))
    |destruct (forallb fits_int64 (map to_double col))];
    try discriminate; intros [= <-].
  - split; [apply length_map|]. split.
    + apply Forall_forall. intros v (c & <- & _)%in_map_iff z.
      apply as_int_nonneg.
    + intros i c Hc Hn. rewrite nth_error_map, Hc. cbn [option_map].
      now rewrite (as_int_unparsed _ Hn).
  - split; [apply length_map|]. split.
    + apply Forall_forall. intros v (c & <- & _)%in_map_iff z.
      apply to_double_nonneg.
    + intros i c Hc Hn. rewrite nth_error_map, Hc. cbn [option_map].
      now rewrite (to_double_unparsed _ Hn).
Qed.

Lemma normalize_inv raw_data df :
  normalize raw_data = Ok df ->
  exists title proc ram os war prices rating,
    normalizable raw_data title proc ram os war prices rating
    /\ df = normalized_frame raw_data title proc ram os war prices rating.
Proof. apply normalize_ok. Qed.

Lemma transform_data_inv raw_data out :
  transform_data raw_data = Ok out ->
  exists df, normalize raw_data = Ok df /\ out = head 50 df.
Proof.
  unfold transform_data. intros (df & H1 & H2)%bind_ok.
  injection H2 as <-. eauto.
Qed.

Lemma Ok_inj {A} (a b : A) : Ok a = Ok b -> a = b.
Proof. congruence. Qed.

Lemma price_text_column col :
  map (option_map price_text) col
  = map (option_map (filter unicode_decimal)) col.
Proof.
  apply map_ext. intros [s|]; [|reflexivity]. cbn [option_map].
  now rewrite price_text_filter.
Qed.

Lemma normalized_prices_column raw_data df prices :
  normalize raw_data = Ok df ->
  column_text raw_data (py "Prices") = Ok prices ->
  columns_of (py "Prices") df
  = [to_numeric_Int64 (map (option_map price_text) prices)].
Proof.
  intros H Hp.
  apply normalize_inv in H
    as (title & proc & ram & os & war & prices' & rating & Hn & ->).
  rewrite (normalized_prices _ _ _ _ _ _ _ _ Hn).
  destruct Hn as (_ & _ & _ & _ & _ & _ & _ & Hp' & _).
  rewrite Hp in Hp'. now injection Hp' as <-.
Qed.

(** * The claims *)

(** ** Failure of the normalize stage *)

(** A missing cell in the RAM column stops the run with TypeError, as soon
    as the Title and Processor columns have been read. *)
Lemma normalize_raises_on_missing_ram raw_data title proc ram :
  column_text raw_data (py "Title") = Ok title ->
  column_text raw_data (py "Processor") = Ok proc ->
  column_text raw_data (py "RAM") = Ok ram ->
  In None ram ->
  normalize raw_data = Raise TypeError.
Proof.
  intros Ht Hp Hr Hin. rewrite normalize_eq, Ht, Hp, Hr. cbn [bind].
  unfold check_text. replace (forallb is_text ram) with false; [reflexivity|].
  symmetry. apply not_true_is_false. intros H.
  rewrite forallb_forall in H. now apply H in Hin.
Qed.

(** C1 (evaluation of the code at the failing input): with the RAM field of
    one row missing, and likewise with the Warranty field of one row missing,
    [transform_data] raises TypeError instead of returning a table. *)
Theorem transform_data_missing_field_raises :
  transform_data frame_missing_ram = Raise TypeError
  /\ transform_data frame_missing_warranty = Raise TypeError.
Proof. split; vm_compute; reflexivity. Qed.

(** ** Prices *)

(** C2 (as stated): a digit text is not always converted to the integer it
    denotes.  With a missing price in the column the values are carried as
    binary64 before the cast to [Int64]: twenty zeros and a one are read as
    0, not 1, and 9,007,199,254,740,993 as 9007199254740992. *)
Lemma price_of_long_digit_text_differs :
  to_numeric_Int64
    (str_remove_non_digits
       (str_replace_col (py ",") []
          [Some (py "000000000000000000001"); None]))
  = Int64Series [Some 0%Z; None]
  /\ price_rule (Some (py "000000000000000000001")) = Some 1%Z
  /\ to_numeric_Int64
       (str_remove_non_digits
          (str_replace_col (py ",") []
             [Some (py "000000000000000000001"); None]))
     <> Int64Series
          (map price_rule [Some (py "000000000000000000001"); None])
  /\ to_numeric_Int64
       (str_remove_non_digits
          (str_replace_col (py ",") []
             [Some (py "9,007,199,254,740,993"); None]))
     = Int64Series [Some 9007199254740992%Z; None]
  /\ price_rule (Some (py "9,007,199,254,740,993"))
     = Some 9007199254740993%Z.
Proof.
  split; [vm_compute; reflexivity|].
  split; [vm_compute; reflexivity|].
  split; [vm_compute; discriminate|].
  split; vm_compute; reflexivity.
Qed.

(** C2 (amended): the price rule removes the commas and then every
    character that is not a decimal digit, and reads what is left as an
    integer; an empty or unreadable rest, and a missing cell, give a missing
    value and no error; a price that is not missing is a non-negative
    integer.  In a column where no price has more than fifteen digits the
    result is the [Int64] column of these integers.  In any column the
    block raises nothing, and when the result is an [Int64] column no value
    of it is negative and a cell without a readable integer is missing. *)
Theorem price_normalization :
  (forall s, str_replace (py ",") [] s = filter (fun c => negb (c =? 44)%N) s)
  /\ (forall s, price_text s = filter unicode_decimal s)
  /\ (forall s d, ascii_digit d = true ->
        digits_value 0 (s ++ [d])
        = option_map (fun v => v * 10 + Z.of_N (d - 48))%Z (digits_value 0 s))
  /\ (forall s, price_text s <> [] ->
        forallb ascii_digit (price_text s) = true ->
        exists z, price_rule (Some s) = Some z
                  /\ digits_value 0 (price_text s) = Some z)
  /\ (forall s, price_text s = [] -> price_rule (Some s) = None)
  /\ (forall s, forallb ascii_digit (price_text s) = false ->
        price_rule (Some s) = None)
  /\ price_rule None = None
  /\ (forall c z, price_rule c = Some z -> (0 <= z)%Z)
  /\ price_rule (Some (py "₹74,990")) = Some 74990%Z
  /\ price_rule (Some (py "N/A")) = None
  /\ price_rule (Some (py "-500")) = Some 500%Z
  /\ to_numeric_Int64
       (str_remove_non_digits
          (str_replace_col (py ",") []
             [Some (py "₹74,990"); Some (py "N/A"); Some (py "-500")]))
     = Int64Series [Some 74990%Z; None; Some 500%Z]
  /\ (forall col, forallb short_price col = true ->
        to_numeric_Int64 (str_remove_non_digits (str_replace_col (py ",") [] col))
        = Int64Series (map price_rule col))
  /\ (forall col vals,
        to_numeric_Int64 (str_remove_non_digits (str_replace_col (py ",") [] col))
        = Int64Series vals ->
        length vals = length col
        /\ Forall (fun v => forall z, v = Some z -> (0 <= z)%Z) vals
        /\ (forall i c, nth_error col i = Some c -> price_rule c = None ->
              nth_error vals i = Some None))
  /\ (forall df prices,
        column_text df (py "Prices") = Ok prices ->
        transform_prices df
        = Ok (setitem df (py "Prices")
                (to_numeric_Int64
                   (str_remove_non_digits
                      (str_replace_col (py ",") [] prices)))))
  /\ (forall raw_data df prices,
        normalize raw_data = Ok df ->
        column_text raw_data (py "Prices") = Ok prices ->
        columns_of (py "Prices") df
        = [to_numeric_Int64
             (str_remove_non_digits (str_replace_col (py ",") [] prices))]).
Proof.
  split; [exact remove_commas|].
  split; [exact price_text_filter|].
  split; [intros s d; apply digits_value_snoc|].
  split.
  { intros s Hne Hd. unfold price_rule. cbn [option_map].
    destruct (digits_value_ascii _ 0%Z Hd) as (z & Hz). exists z.
    split; [|assumption]. unfold to_numeric_cell.
    destruct (price_text s); [contradiction|assumption]. }
  split; [intros s H; unfold price_rule; cbn [option_map]; now rewrite H|].
  split.
  { intros s H. unfold price_rule. cbn [option_map]. unfold to_numeric_cell.
    destruct (price_text s) eqn:E; [reflexivity|].
    now apply digits_value_not_ascii. }
  split; [reflexivity|].
  split; [exact price_rule_nonneg|].
  split; [reflexivity|]. split; [reflexivity|]. split; [reflexivity|].
  split; [vm_compute; reflexivity|].
  split; [intros col; rewrite price_column; apply to_numeric_Int64_short|].
  split.
  { intros col vals. rewrite price_column.
    intros (Hlen & Hpos & Hmiss)%to_numeric_Int64_values.
    rewrite length_map in Hlen. split; [assumption|]. split; [assumption|].
    intros i c Hc Hn. apply (Hmiss i (option_map price_text c)); [|exact Hn].
    exact (map_nth_error (option_map price_text) i col Hc). }
  split.
  { intros df prices Hp.
    now rewrite transform_prices_spec, Hp, price_column. }
  intros raw_data df prices H Hp.
  apply normalize_inv in H
    as (title & proc & ram & os & war & prices' & rating & Hn & ->).
  rewrite (normalized_prices _ _ _ _ _ _ _ _ Hn), price_column.
  destruct Hn as (_ & _ & _ & _ & _ & _ & _ & Hp' & _).
  rewrite Hp in Hp'. now injection Hp' as <-.
Qed.

Lemma price_normalization_witness :
  ascii_digit 48 = true
  /\ digits_value 0 (py "7499" ++ [48%N])
     = option_map (fun v => v * 10 + Z.of_N (48 - 48))%Z
         (digits_value 0 (py "7499"))
  /\ (exists z, price_rule (Some (py "₹74,990")) = Some z
                /\ digits_value 0 (price_text (py "₹74,990")) = Some z)
  /\ price_text (py "N/A") = []
  /\ price_rule (Some (py "N/A")) = None
  /\ forallb ascii_digit (price_text (py "٧٤٩٩٠")) = false
  /\ price_rule (Some (py "٧٤٩٩٠")) = None
  /\ (0 <= 500)%Z
  /\ forallb short_price [Some (py "₹45,990"); None] = true
  /\ to_numeric_Int64
       (str_remove_non_digits
          (str_replace_col (py ",") [] [Some (py "₹45,990"); None]))
     = Int64Series (map price_rule [Some (py "₹45,990"); None])
  /\ (length [Some 0%Z; None] = length [Some (py "000000000000000000001"); None]
      /\ Forall (fun v => forall z, v = Some z -> (0 <= z)%Z) [Some 0%Z; None]
      /\ (forall i c,
            nth_error [Some (py "000000000000000000001"); None] i = Some c ->
            price_rule c = None ->
            nth_error [Some 0%Z; None] i = Some None))
  /\ column_text sample_raw (py "Prices") = Ok [Some (py "₹45,990"); None]
  /\ transform_prices sample_raw
     = Ok (setitem sample_raw (py "Prices")
             (to_numeric_Int64
                (str_remove_non_digits
                   (str_replace_col (py ",") [] [Some (py "₹45,990"); None]))))
  /\ normalize sample_raw = Ok sample_out
  /\ columns_of (py "Prices") sample_out
     = [to_numeric_Int64
          (str_remove_non_digits
             (str_replace_col (py ",") [] [Some (py "₹45,990"); None]))].
Proof.
  pose proof price_normalization
    as (_ & _ & Hsnoc & Hint & Hempty & Hforeign & _ & Hpos & _ & _ & Hminus
        & _ & Hshort & Hvals & Hblock & Hframe).
  assert (Hp : column_text sample_raw (py "Prices")
               = Ok [Some (py "₹45,990"); None]) by (vm_compute; reflexivity).
  split; [reflexivity|].
  split; [apply Hsnoc; reflexivity|].
  split; [apply Hint; [vm_compute; discriminate|vm_compute; reflexivity]|].
  split; [vm_compute; reflexivity|].
  split; [apply Hempty; vm_compute; reflexivity|].
  split; [vm_compute; reflexivity|].
  split; [apply Hforeign; vm_compute; reflexivity|].
  split; [exact (Hpos _ _ Hminus)|].
  split; [vm_compute; reflexivity|].
  split; [apply Hshort; vm_compute; reflexivity|].
  split; [apply Hvals; vm_compute; reflexivity|].
  split; [exact Hp|].
  split; [exact (Hblock sample_raw _ Hp)|].
  split; [vm_compute; reflexivity|].
  apply (Hframe sample_raw sample_out); [vm_compute; reflexivity|exact Hp].
Defined.

(** ** Warranty *)

(** C3 (as stated): the mapping does not have ten keys. *)
Lemma warranty_mapping_not_ten_keys : ~ (length warranty_replacements = 10).
Proof. vm_compute. discriminate. Qed.

(** C3 (amended): after the first two tokens are kept, the warranty rule
    applies a fixed mapping of eight keys; every key is sent to one of
    "1 Year", "2 Year", "3 Year"; a value in which no key occurs is left as
    it is; "1 Yr Warranty" becomes "1 Year". *)
Theorem warranty_mapping :
  map fst warranty_replacements
  = [py "1 Yr"; py "1 Yera"; py "1 Years "; py "1 year"; py "1 Years";
     py "One-year International"; py "3 Years"; py "2 Years"]
  /\ length warranty_replacements = 8
  /\ Forall (fun kv => In (snd kv) [py "1 Year"; py "2 Year"; py "3 Year"])
       warranty_replacements
  /\ Forall (fun kv => apply_replacements warranty_replacements (fst kv) = snd kv)
       warranty_replacements
  /\ (forall s, warranty_rule s
                = apply_replacements warranty_replacements (two_tokens s))
  /\ (forall s,
        Forall (fun kv => contains (fst kv) (two_tokens s) = false)
          warranty_replacements ->
        warranty_rule s = two_tokens s)
  /\ warranty_rule (py "1 Yr Warranty") = py "1 Year"
  /\ (forall raw_data df war,
        normalize raw_data = Ok df ->
        column_text raw_data (py "Warranty") = Ok war ->
        columns_of (py "Warranty") df
        = [ObjectSeries (map (option_map warranty_rule) war)]).
Proof.
  split; [reflexivity|]. split; [reflexivity|].
  split; [repeat constructor; vm_compute; tauto|].
  split; [repeat constructor|].
  split; [reflexivity|].
  split; [intros s; apply apply_replacements_fixed|].
  split; [vm_compute; reflexivity|].
  intros raw_data df war H Hw.
  apply normalize_inv in H
    as (title & proc & ram & os & war' & prices & rating & Hn & ->).
  rewrite (normalized_warranty _ _ _ _ _ _ _ _ Hn).
  destruct Hn as (_ & _ & _ & _ & _ & Hw' & _).
  rewrite Hw in Hw'. now injection Hw' as <-.
Qed.

Lemma warranty_mapping_witness :
  Forall (fun kv => contains (fst kv) (two_tokens (py "5 Year Onsite Warranty")) = false)
    warranty_replacements
  /\ warranty_rule (py "5 Year Onsite Warranty")
     = two_tokens (py "5 Year Onsite Warranty")
  /\ normalize sample_raw = Ok sample_out
  /\ columns_of (py "Warranty") sample_out
     = [ObjectSeries
          (map (option_map warranty_rule)
             [Some (py "1 Years Warranty"); Some (py "2 Years Onsite")])].
Proof.
  pose proof warranty_mapping as (_ & _ & _ & _ & _ & Hfix & _ & Hframe).
  assert (H : Forall (fun kv => contains (fst kv)
                        (two_tokens (py "5 Year Onsite Warranty")) = false)
                warranty_replacements)
    by (repeat constructor).
  split; [exact H|]. split; [exact (Hfix _ H)|].
  split; [vm_compute; reflexivity|].
  apply (Hframe sample_raw sample_out); vm_compute; reflexivity.
Defined.

(** ** Rating *)

(** C4 (as stated): a rating value other than the two keys is changed when a
    key occurs inside it. *)
Lemma rating_inside_longer_value_replaced :
  ~ (py "174,990" <> py "74,990" -> py "174,990" <> py "57,499" ->
     rating_rule (py "174,990") = py "174,990").
Proof.
  intros H. assert (E : rating_rule (py "174,990") = py "174,990")
    by (apply H; vm_compute; discriminate).
  vm_compute in E. discriminate.
Qed.

(** C4 (amended): the rating rule replaces the occurrences of the two texts
    "74,990" and "57,499" by "4.3", wherever they are in the value; a value
    in which neither occurs passes unchanged: "4.5" and "45,990" do. *)
Theorem rating_correction :
  rating_replacements = [(py "74,990", py "4.3"); (py "57,499", py "4.3")]
  /\ (forall s, rating_rule s
                = str_replace (py "57,499") (py "4.3")
                    (str_replace (py "74,990") (py "4.3") s))
  /\ rating_rule (py "74,990") = py "4.3"
  /\ rating_rule (py "57,499") = py "4.3"
  /\ (forall s, contains (py "74,990") (rating_rule s) = false
                /\ contains (py "57,499") (rating_rule s) = false)
  /\ (forall s, contains (py "74,990") s = false ->
                contains (py "57,499") s = false ->
                rating_rule s = s)
  /\ rating_rule (py "4.5") = py "4.5"
  /\ rating_rule (py "45,990") = py "45,990"
  /\ (forall raw_data df rating,
        normalize raw_data = Ok df ->
        column_text raw_data (py "Rating") = Ok rating ->
        columns_of (py "Rating") df
        = [ObjectSeries (map (option_map rating_rule) rating)]).
Proof.
  split; [reflexivity|]. split; [exact rating_rule_eq|].
  split; [vm_compute; reflexivity|]. split; [vm_compute; reflexivity|].
  split; [exact rating_rule_clean|].
  split; [exact rating_rule_fixed|].
  split; [vm_compute; reflexivity|]. split; [vm_compute; reflexivity|].
  intros raw_data df rating H Hr.
  apply normalize_inv in H
    as (title & proc & ram & os & war & prices & rating' & Hn & ->).
  rewrite (normalized_rating _ _ _ _ _ _ _ _ Hn).
  destruct Hn as (_ & _ & _ & _ & _ & _ & _ & _ & Hr').
  rewrite Hr in Hr'. now injection Hr' as <-.
Qed.

Lemma rating_correction_witness :
  contains (py "74,990") (py "45,990") = false
  /\ contains (py "57,499") (py "45,990") = false
  /\ rating_rule (py "45,990") = py "45,990"
  /\ normalize sample_raw = Ok sample_out
  /\ columns_of (py "Rating") sample_out
     = [ObjectSeries
          (map (option_map rating_rule)
             [Some (py "45,990"); Some (py "74,990")])].
Proof.
  pose proof rating_correction as (_ & _ & _ & _ & _ & Hfix & _ & _ & Hframe).
  split; [vm_compute; reflexivity|]. split; [vm_compute; reflexivity|].
  split; [apply Hfix; vm_compute; reflexivity|].
  split; [vm_compute; reflexivity|].
  apply (Hframe sample_raw sample_out); vm_compute; reflexivity.
Defined.

(** ** Processor *)

(** C5: the processor rule keeps the text before the first '(' and strips
    the white space at its two ends, then replaces "Intel Core 5 Processor" by
    "Intel Core i5 Processor" and "Intel Core 7 Processor" by
    "Intel Core i7 Processor"; a value in which neither text occurs is left
    as truncated and stripped; the result never has a '('. *)
Theorem processor_normalization :
  (forall s, processor_rule s
             = str_replace (py "Intel Core 7 Processor")
                 (py "Intel Core i7 Processor")
                 (str_replace (py "Intel Core 5 Processor")
                    (py "Intel Core i5 Processor")
                    (strip (before 40 s))))
  /\ (forall s, exists rest,
        s = before 40 s ++ rest
        /\ ~ In 40%N (before 40 s)
        /\ (rest = [] \/ hd_error rest = Some 40%N))
  /\ (forall s, exists l r,
        s = l ++ strip s ++ r
        /\ forallb isspace l = true /\ forallb isspace r = true
        /\ stripped (strip s) = true)
  /\ (forall s,
        contains (py "Intel Core 5 Processor") (strip (before 40 s)) = false ->
        contains (py "Intel Core 7 Processor") (strip (before 40 s)) = false ->
        processor_rule s = strip (before 40 s))
  /\ processor_rule (py "Intel Core 5 Processor") = py "Intel Core i5 Processor"
  /\ processor_rule (py "Intel Core 7 Processor") = py "Intel Core i7 Processor"
  /\ (forall s, ~ In 40%N (processor_rule s))
  /\ processor_rule (py "Intel Core 5 Processor (11th Gen)")
     = py "Intel Core i5 Processor"
  /\ (forall raw_data df proc,
        normalize raw_data = Ok df ->
        column_text raw_data (py "Processor") = Ok proc ->
        columns_of (py "Processor") df
        = [ObjectSeries (map (option_map processor_rule) proc)]).
Proof.
  split; [exact processor_rule_eq|].
  split.
  { intros s. destruct (before_spec 40 s) as (rest & H1 & H2).
    exists rest. split; [assumption|]. split; [apply before_without|assumption]. }
  split.
  { intros s. destruct (strip_spec s) as (l & r & H1 & H2 & H3).
    exists l, r. repeat split; try assumption. apply strip_stripped. }
  split; [intros s H5 H7; rewrite processor_rule_eq; now apply chain_fixed|].
  split; [vm_compute; reflexivity|]. split; [vm_compute; reflexivity|].
  split; [exact processor_rule_no_paren|].
  split; [vm_compute; reflexivity|].
  intros raw_data df proc H Hp.
  apply normalize_inv in H
    as (title & proc' & ram & os & war & prices & rating & Hn & ->).
  rewrite (normalized_processor _ _ _ _ _ _ _ _ Hn).
  destruct Hn as (_ & Hp' & _).
  rewrite Hp in Hp'. now injection Hp' as <-.
Qed.

Lemma processor_normalization_witness :
  contains (py "Intel Core 5 Processor")
    (strip (before 40 (py " AMD Ryzen 5 (Hexa Core) "))) = false
  /\ contains (py "Intel Core 7 Processor")
       (strip (before 40 (py " AMD Ryzen 5 (Hexa Core) "))) = false
  /\ processor_rule (py " AMD Ryzen 5 (Hexa Core) ")
     = strip (before 40 (py " AMD Ryzen 5 (Hexa Core) "))
  /\ normalize sample_raw = Ok sample_out
  /\ columns_of (py "Processor") sample_out
     = [ObjectSeries
          (map (option_map processor_rule)
             [Some (py "Intel Core 7 Processor (12th Gen)");
              Some (py "AMD Ryzen 5 Hexa Core Processor")])].
Proof.
  pose proof processor_normalization
    as (_ & _ & _ & Hfix & _ & _ & _ & _ & Hframe).
  split; [vm_compute; reflexivity|]. split; [vm_compute; reflexivity|].
  split; [apply Hfix; vm_compute; reflexivity|].
  split; [vm_compute; reflexivity|].
  apply (Hframe sample_raw sample_out); vm_compute; reflexivity.
Defined.

(** ** RAM and the first two tokens *)

(** C7: the RAM value, and the Warranty value before the mapping, is made
    of the first two white-space-delimited tokens of the original text (fewer
    when it has fewer), joined by one space: the tokens of the result are
    exactly these.  "16 GB DDR4 RAM" becomes "16 GB".  The RAM column of the
    result is the column of these values; the Warranty block writes the
    column of these values to Warranty and runs the mapping loop on it, so
    that the Warranty column of the result is the mapping applied to them. *)
Theorem two_token_normalization :
  (forall s, two_tokens s = join (py " ") (firstn 2 (split_ws s)))
  /\ (forall s, split_ws (two_tokens s) = firstn 2 (split_ws s))
  /\ (forall s, Forall (fun t => is_token t = true) (split_ws s))
  /\ (forall c s, isspace c = true -> split_ws (c :: s) = split_ws s)
  /\ (forall t c s, is_token t = true -> isspace c = true ->
        split_ws (t ++ c :: s) = t :: split_ws s)
  /\ (forall t, is_token t = true -> split_ws t = [t])
  /\ two_tokens (py "16 GB DDR4 RAM") = py "16 GB"
  /\ (forall col, forallb is_text col = true ->
        apply_join (py " ") (str_slice_to 2 (str_split_ws col))
        = Ok (map (option_map two_tokens) col))
  /\ (forall df col,
        column_text df (py "RAM") = Ok col ->
        forallb is_text col = true ->
        transform_ram df
        = Ok (setitem df (py "RAM")
                (ObjectSeries (map (option_map two_tokens) col))))
  /\ (forall df col,
        column_text df (py "Warranty") = Ok col ->
        forallb is_text col = true ->
        transform_warranty df
        = replace_loop (py "Warranty") warranty_replacements
            (setitem df (py "Warranty")
               (ObjectSeries (map (option_map two_tokens) col)))
        /\ column_text
             (setitem df (py "Warranty")
                (ObjectSeries (map (option_map two_tokens) col)))
             (py "Warranty")
           = Ok (map (option_map two_tokens) col))
  /\ (forall raw_data df ram,
        normalize raw_data = Ok df ->
        column_text raw_data (py "RAM") = Ok ram ->
        columns_of (py "RAM") df
        = [ObjectSeries (map (option_map two_tokens) ram)])
  /\ (forall raw_data df war,
        normalize raw_data = Ok df ->
        column_text raw_data (py "Warranty") = Ok war ->
        columns_of (py "Warranty") df
        = [ObjectSeries
             (map (option_map
                     (fun s => apply_replacements warranty_replacements
                                 (two_tokens s)))
                war)]).
Proof.
  split; [reflexivity|].
  split; [exact split_ws_two_tokens|].
  split; [exact split_ws_tokens|].
  split; [exact split_ws_space|].
  split; [exact split_ws_token_space|].
  split; [exact split_ws_token|].
  split; [vm_compute; reflexivity|].
  split; [intros col H; now rewrite two_tokens_column, H|].
  split.
  { intros df col Hc Ht. now rewrite transform_ram_spec, Hc; cbn [bind]; rewrite Ht. }
  split.
  { intros df col Hc Ht. split.
    - unfold transform_warranty. rewrite Hc. cbn [bind].
      rewrite two_tokens_column, Ht. reflexivity.
    - exact (column_text_setitem _ _ _ _ Hc). }
  split.
  { intros raw_data df ram H Hr.
    apply normalize_inv in H
      as (title & proc & ram' & os & war & prices & rating & Hn & ->).
    rewrite (normalized_ram _ _ _ _ _ _ _ _ Hn).
    destruct Hn as (_ & _ & Hr' & _).
    rewrite Hr in Hr'. now injection Hr' as <-. }
  intros raw_data df war H Hw.
  apply normalize_inv in H
    as (title & proc & ram & os & war' & prices & rating & Hn & ->).
  rewrite (normalized_warranty _ _ _ _ _ _ _ _ Hn).
  destruct Hn as (_ & _ & _ & _ & _ & Hw' & _).
  rewrite Hw in Hw'. now injection Hw' as <-.
Qed.

Lemma two_token_normalization_witness :
  is_token (py "16") = true /\ isspace 32 = true
  /\ split_ws (py "16" ++ 32%N :: py "GB DDR4") = py "16" :: split_ws (py "GB DDR4")
  /\ forallb is_text [Some (py "8 GB DDR4 3200MHz"); Some (py "16 GB DDR4 RAM")]
     = true
  /\ apply_join (py " ")
       (str_slice_to 2
          (str_split_ws
             [Some (py "8 GB DDR4 3200MHz"); Some (py "16 GB DDR4 RAM")]))
     = Ok (map (option_map two_tokens)
             [Some (py "8 GB DDR4 3200MHz"); Some (py "16 GB DDR4 RAM")])
  /\ normalize sample_raw = Ok sample_out
  /\ columns_of (py "RAM") sample_out
     = [ObjectSeries
          (map (option_map two_tokens)
             [Some (py "8 GB DDR4 3200MHz"); Some (py "16 GB DDR4 RAM")])]
  /\ column_text sample_raw (py "Warranty")
     = Ok [Some (py "1 Years Warranty"); Some (py "2 Years Onsite")]
  /\ transform_warranty sample_raw
     = replace_loop (py "Warranty") warranty_replacements
         (setitem sample_raw (py "Warranty")
            (ObjectSeries
               (map (option_map two_tokens)
                  [Some (py "1 Years Warranty"); Some (py "2 Years Onsite")])))
  /\ columns_of (py "Warranty") sample_out
     = [ObjectSeries
          (map (option_map
                  (fun s => apply_replacements warranty_replacements
                              (two_tokens s)))
             [Some (py "1 Years Warranty"); Some (py "2 Years Onsite")])].
Proof.
  pose proof two_token_normalization
    as (_ & _ & _ & _ & Htok & _ & _ & Hcol & _ & Hwar & Hframe & Hframe').
  assert (Hw : column_text sample_raw (py "Warranty")
               = Ok [Some (py "1 Years Warranty"); Some (py "2 Years Onsite")])
    by (vm_compute; reflexivity).
  split; [vm_compute; reflexivity|]. split; [vm_compute; reflexivity|].
  split; [apply Htok; vm_compute; reflexivity|].
  split; [vm_compute; reflexivity|].
  split; [apply Hcol; vm_compute; reflexivity|].
  split; [vm_compute; reflexivity|].
  split; [apply (Hframe sample_raw sample_out); vm_compute; reflexivity|].
  split; [exact Hw|].
  split.
  { apply (proj1 (Hwar sample_raw _ Hw (eq_refl true))). }
  apply (Hframe' sample_raw sample_out); [vm_compute; reflexivity|exact Hw].
Defined.

(** ** Brand *)

Lemma columns_of_absent l df : ~ In l (labels df) -> columns_of l df = [].
Proof.
  intros H. pose proof (has_label_columns l df) as E.
  destruct (columns_of l df); [reflexivity|].
  exfalso. now apply H, has_label_In.
Qed.

(** C6: when [transform_data] returns, every Brand_Name cell is the first
    white-space-delimited token of the Title cell of its row, missing when
    the title is missing or has no token, and there is no Title column.  The
    table read from the file has at most one column labelled Brand_Name
    ([pd.read_csv] renames a repeated header), and the result has exactly
    one. *)
Theorem brand_name_from_title :
  (forall raw_data df,
      (length (columns_of (py "Brand_Name") raw_data) <= 1)%nat ->
      normalize raw_data = Ok df ->
      exists title,
        column_text raw_data (py "Title") = Ok title
        /\ columns_of (py "Brand_Name") df
           = [ObjectSeries (map brand_cell title)]
        /\ columns_of (py "Title") df = []
        /\ ~ In (py "Title") (labels df))
  /\ (forall raw_data out,
        (length (columns_of (py "Brand_Name") raw_data) <= 1)%nat ->
        transform_data raw_data = Ok out ->
        exists title,
          column_text raw_data (py "Title") = Ok title
          /\ columns_of (py "Brand_Name") out
             = [ObjectSeries (firstn 50 (map brand_cell title))]
          /\ columns_of (py "Title") out = []
          /\ ~ In (py "Title") (labels out))
  /\ (forall title, brand_cell (Some title) = nth_error (split_ws title) 0)
  /\ (forall ws t c rest,
        forallb isspace ws = true -> is_token t = true -> isspace c = true ->
        brand_cell (Some (ws ++ t ++ c :: rest)) = Some t)
  /\ (forall ws t,
        forallb isspace ws = true -> is_token t = true ->
        brand_cell (Some (ws ++ t)) = Some t)
  /\ (forall s, forallb isspace s = true -> brand_cell (Some s) = None)
  /\ brand_cell (Some []) = None
  /\ brand_cell None = None
  /\ brand_cell (Some (py "Dell Inspiron 15")) = Some (py "Dell").
Proof.
  assert (Hnorm : forall raw_data df,
      (length (columns_of (py "Brand_Name") raw_data) <= 1)%nat ->
      normalize raw_data = Ok df ->
      exists title,
        column_text raw_data (py "Title") = Ok title
        /\ columns_of (py "Brand_Name") df
           = [ObjectSeries (map brand_cell title)]
        /\ columns_of (py "Title") df = []
        /\ ~ In (py "Title") (labels df)).
  { intros raw_data df Hone H.
    apply normalize_inv in H
      as (title & proc & ram & os & war & prices & rating & Hn & ->).
    exists title. split; [apply Hn|].
    rewrite normalized_brand, normalized_title.
    split.
    { destruct (columns_of (py "Brand_Name") raw_data) as [|c [|c' cs]];
        [reflexivity|reflexivity|simpl in Hone; lia]. }
    split; [reflexivity|].
    intros H. apply labels_normalized_frame in H as [_ H]. now apply H. }
  split; [exact Hnorm|].
  split.
  { intros raw_data out Hone H.
    apply transform_data_inv in H as (df & H & ->).
    destruct (Hnorm _ _ Hone H) as (title & Ht & Hb & Hno & Hlab).
    exists title. split; [assumption|].
    rewrite !columns_of_head, labels_head, Hno, Hb.
    split; [reflexivity|]. split; [reflexivity|assumption]. }
  split; [reflexivity|].
  split.
  { intros ws t c rest Hws Ht Hc. unfold brand_cell, brand_rule.
    now rewrite split_ws_leading, split_ws_token_space. }
  split.
  { intros ws t Hws Ht. unfold brand_cell, brand_rule.
    now rewrite split_ws_leading, split_ws_token. }
  split.
  { intros s Hs. unfold brand_cell, brand_rule. now rewrite split_ws_blank. }
  split; [reflexivity|]. split; [reflexivity|]. vm_compute; reflexivity.
Qed.

Lemma brand_name_from_title_witness :
  (length (columns_of (py "Brand_Name") sample_raw) <= 1)%nat
  /\ transform_data sample_raw = Ok sample_out
  /\ (exists title,
        column_text sample_raw (py "Title") = Ok title
        /\ columns_of (py "Brand_Name") sample_out
           = [ObjectSeries (firstn 50 (map brand_cell title))]
        /\ columns_of (py "Title") sample_out = []
        /\ ~ In (py "Title") (labels sample_out))
  /\ forallb isspace (py "  ") = true
  /\ is_token (py "Dell") = true
  /\ brand_cell (Some (py "  " ++ py "Dell")) = Some (py "Dell").
Proof.
  pose proof brand_name_from_title as (_ & Hout & _ & _ & Htok & _).
  split; [vm_compute; lia|].
  split; [vm_compute; reflexivity|].
  split.
  { apply (Hout sample_raw sample_out); [vm_compute; lia|].
    vm_compute; reflexivity. }
  split; [vm_compute; reflexivity|]. split; [vm_compute; reflexivity|].
  apply Htok; vm_compute; reflexivity.
Defined.

(** ** The first fifty rows *)

Lemma head_columns n df :
  Forall2 (fun c c' => fst c = fst c'
                       /\ snd c = series_head n (snd c')
                       /\ series_length (snd c)
                          = Nat.min n (series_length (snd c')))
    (head n df) df.
Proof.
  induction df as [|[l s] df IH]; simpl; constructor; [|exact IH].
  simpl. repeat split. apply series_head_length.
Qed.

(** C8: [transform_data] returns the first fifty rows of the normalized
    frame, in order: every column is cut to its first fifty cells, so the
    row count is the minimum of fifty and the row count after
    normalization. *)
Theorem head_row_count :
  (forall raw_data df,
      normalize raw_data = Ok df -> transform_data raw_data = Ok (head 50 df))
  /\ (forall raw_data out,
        transform_data raw_data = Ok out ->
        exists df,
          normalize raw_data = Ok df
          /\ labels out = labels df
          /\ Forall2 (fun c c' =>
                        fst c = fst c'
                        /\ snd c = series_head 50 (snd c')
                        /\ series_length (snd c)
                           = Nat.min 50 (series_length (snd c')))
               out df)
  /\ (forall cells,
        series_head 50 (ObjectSeries cells) = ObjectSeries (firstn 50 cells))
  /\ (forall vals,
        series_head 50 (Int64Series vals) = Int64Series (firstn 50 vals))
  /\ (forall s, series_length (series_head 50 s)
                = Nat.min 50 (series_length s)).
Proof.
  split; [intros raw_data df H; unfold transform_data; now rewrite H|].
  split.
  { intros raw_data out H.
    apply transform_data_inv in H as (df & H & ->).
    exists df. split; [assumption|]. split; [apply labels_head|].
    apply head_columns. }
  split; [reflexivity|]. split; [reflexivity|]. apply series_head_length.
Qed.

Lemma head_row_count_witness :
  normalize long_raw = Ok long_normalized
  /\ transform_data long_raw = Ok (head 50 long_normalized)
  /\ map (fun c => series_length (snd c)) long_normalized
     = [60; 60; 60; 60; 60; 60; 60]
  /\ map (fun c => series_length (snd c)) (head 50 long_normalized)
     = [50; 50; 50; 50; 50; 50; 50].
Proof.
  pose proof head_row_count as (Hhead & _).
  split; [vm_compute; reflexivity|].
  split; [apply Hhead; vm_compute; reflexivity|].
  split; vm_compute; reflexivity.
Defined.

(** ** Artifact columns *)

(** C10: the artifact drop removes every column whose label contains
    "Unnamed:" at any position; when normalization returns, no label
    contains it, so a column with "Unnamed:" in the middle of its label is
    not in the output. *)
Theorem artifact_columns_dropped :
  (forall p s, contains p s = true <-> exists a b, s = a ++ p ++ b)
  /\ (forall raw_data,
        drop_unnamed raw_data
        = filter (fun col => negb (contains prefix (fst col))) raw_data)
  /\ (forall raw_data df l,
        normalize raw_data = Ok df -> In l (labels df) ->
        contains prefix l = false)
  /\ (forall raw_data out l,
        transform_data raw_data = Ok out -> In l (labels out) ->
        contains prefix l = false)
  /\ (forall raw_data out l,
        transform_data raw_data = Ok out -> contains prefix l = true ->
        columns_of l out = [])
  /\ contains prefix (py "old Unnamed: 0.1") = true
  /\ starts_with prefix (py "old Unnamed: 0.1") = false.
Proof.
  assert (Hnorm : forall raw_data df l,
             normalize raw_data = Ok df -> In l (labels df) ->
             contains prefix l = false).
  { intros raw_data df l H Hl.
    apply normalize_inv in H
      as (title & proc & ram & os & war & prices & rating & Hn & ->).
    now apply labels_normalized_frame in Hl. }
  assert (Hout : forall raw_data out l,
             transform_data raw_data = Ok out -> In l (labels out) ->
             contains prefix l = false).
  { intros raw_data out l H Hl.
    apply transform_data_inv in H as (df & H & ->).
    rewrite labels_head in Hl. eapply Hnorm; eassumption. }
  split; [exact contains_spec|].
  split; [exact drop_unnamed_filter|].
  split; [exact Hnorm|]. split; [exact Hout|].
  split.
  { intros raw_data out l H Hl. apply columns_of_absent. intros Hin.
    rewrite (Hout _ _ _ H Hin) in Hl. discriminate. }
  split; vm_compute; reflexivity.
Qed.

Lemma artifact_columns_dropped_witness :
  transform_data sample_raw = Ok sample_out
  /\ In (py "old Unnamed: 0.1") (labels sample_raw)
  /\ contains prefix (py "old Unnamed: 0.1") = true
  /\ columns_of (py "old Unnamed: 0.1") sample_out = []
  /\ In (py "Brand_Name") (labels sample_out)
  /\ contains prefix (py "Brand_Name") = false.
Proof.
  pose proof artifact_columns_dropped as (_ & _ & _ & Hout & Hgone & _).
  assert (H : transform_data sample_raw = Ok sample_out)
    by (vm_compute; reflexivity).
  assert (Hin : In (py "Brand_Name") (labels sample_out))
    by (vm_compute; tauto).
  split; [exact H|]. split; [vm_compute; tauto|].
  split; [vm_compute; reflexivity|].
  split; [apply (Hgone sample_raw sample_out _ H); vm_compute; reflexivity|].
  split; [exact Hin|]. exact (Hout sample_raw sample_out _ H Hin).
Defined.

(** ** Running the rules a second time *)

Lemma rerun_unchanged df l col (f : pystr -> pystr) :
  column_text df l = Ok col ->
  (forall s, In (Some s) col -> f s = s) ->
  setitem df l (ObjectSeries (map (option_map f) col)) = df.
Proof.
  intros H Hf. apply setitem_unchanged.
  - apply column_text_ok in H. rewrite H. constructor; [|constructor].
    f_equal. etransitivity; [|apply map_id]. apply map_ext_in.
    intros [s|] Hs; [|reflexivity]. simpl. f_equal. now apply Hf.
  - eapply column_text_has_label; eassumption.
Qed.

Lemma in_map_rule (f : pystr -> pystr) col s :
  In (Some s) (map (option_map f) col) -> exists t, s = f t.
Proof.
  intros ([t|] & E & _)%in_map_iff; [|discriminate].
  injection E as <-. now exists t.
Qed.

Lemma forallb_is_text_map (f : pystr -> pystr) col :
  forallb is_text (map (option_map f) col) = forallb is_text col.
Proof.
  rewrite forallb_map_compose.
  induction col as [|[s|] col IH]; simpl; now rewrite ?IH.
Qed.

(** C9 (as stated): the warranty rule changes a value it has produced. *)
Lemma warranty_rule_not_idempotent :
  ~ (warranty_rule (warranty_rule (py "1 Yearss"))
     = warranty_rule (py "1 Yearss")).
Proof. vm_compute. discriminate. Qed.

(** C9 (amended): the processor rule, the cut to two tokens (the RAM rule,
    and the first step of the warranty rule), the operating-system rule, the
    rating rule and the character stripping of the price rule return
    unchanged a value they have produced; run again on the frame that
    normalization returns, the Processor, RAM, Operating_System and Rating
    blocks leave it as it is, and the Prices block raises AttributeError
    because the column is no longer text. *)
Theorem cleaning_rules_idempotent :
  (forall s, processor_rule (processor_rule s) = processor_rule s)
  /\ (forall s, two_tokens (two_tokens s) = two_tokens s)
  /\ (forall s, os_rule (os_rule s) = os_rule s)
  /\ (forall s, rating_rule (rating_rule s) = rating_rule s)
  /\ (forall s, price_text (price_text s) = price_text s)
  /\ (forall raw_data df,
        normalize raw_data = Ok df ->
        transform_processor df = Ok df
        /\ transform_ram df = Ok df
        /\ transform_os df = Ok df
        /\ transform_rating df = Ok df
        /\ transform_prices df = Raise AttributeError).
Proof.
  split; [exact processor_rule_idempotent|].
  split; [exact two_tokens_idempotent|].
  split; [exact os_rule_idempotent|].
  split; [exact rating_rule_idempotent|].
  split; [exact price_text_idempotent|].
  intros raw_data df H.
  apply normalize_inv in H
    as (title & proc & ram & os & war & prices & rating & Hn & ->).
  pose proof (normalized_processor _ _ _ _ _ _ _ _ Hn) as Hp.
  pose proof (normalized_ram _ _ _ _ _ _ _ _ Hn) as Hr.
  pose proof (normalized_os _ _ _ _ _ _ _ _ Hn) as Ho.
  pose proof (normalized_rating _ _ _ _ _ _ _ _ Hn) as Hra.
  pose proof (normalized_prices _ _ _ _ _ _ _ _ Hn) as Hpr.
  apply column_text_ok in Hp, Hr, Ho, Hra.
  destruct Hn as (_ & _ & _ & Htext & _).
  split.
  { rewrite transform_processor_spec, Hp. cbn [bind]. f_equal.
    apply (rerun_unchanged _ _ _ processor_rule Hp).
    intros s (t & ->)%in_map_rule. apply processor_rule_idempotent. }
  split.
  { rewrite transform_ram_spec, Hr. cbn [bind].
    rewrite forallb_is_text_map, Htext. f_equal.
    apply (rerun_unchanged _ _ _ two_tokens Hr).
    intros s (t & ->)%in_map_rule. apply two_tokens_idempotent. }
  split.
  { rewrite transform_os_spec, Ho. cbn [bind]. f_equal.
    apply (rerun_unchanged _ _ _ os_rule Ho).
    intros s (t & ->)%in_map_rule. apply os_rule_idempotent. }
  split.
  { rewrite transform_rating_spec, Hra. cbn [bind]. f_equal.
    apply (rerun_unchanged _ _ _ rating_rule Hra).
    intros s (t & ->)%in_map_rule. apply rating_rule_idempotent. }
  rewrite transform_prices_spec. unfold column_text. rewrite Hpr.
  destruct (to_numeric_Int64_cases (map (option_map price_text) prices))
    as [[vals ->] | ->]; reflexivity.
Qed.

Lemma cleaning_rules_idempotent_witness :
  normalize sample_raw = Ok sample_out
  /\ transform_processor sample_out = Ok sample_out
  /\ transform_ram sample_out = Ok sample_out
  /\ transform_os sample_out = Ok sample_out
  /\ transform_rating sample_out = Ok sample_out
  /\ transform_prices sample_out = Raise AttributeError.
Proof.
  pose proof cleaning_rules_idempotent as (_ & _ & _ & _ & _ & Hframe).
  split; [vm_compute; reflexivity|].
  apply (Hframe sample_raw sample_out); vm_compute; reflexivity.
Defined.

(** * Further properties of [transform_data] *)

(** ** When it returns and what it raises *)

Lemma transform_data_normalize raw_data :
  transform_data raw_data
  = match normalize raw_data with
    | Ok df => Ok (head 50 df)
    | Raise e => Raise e
    end.
Proof. unfold transform_data. now destruct (normalize raw_data). Qed.

Lemma readable_text raw_data label :
  joined label = false ->
  (readable raw_data label <-> exists col, column_text raw_data label = Ok col).
Proof.
  intros H. unfold readable. rewrite H. split.
  - intros (col & Hc & _). eauto.
  - intros (col & Hc). exists col. split; [assumption|discriminate].
Qed.

Lemma readable_joined raw_data label :
  joined label = true ->
  (readable raw_data label
   <-> exists col, column_text raw_data label = Ok col
                   /\ forallb is_text col = true).
Proof.
  intros H. unfold readable. rewrite H. split.
  - intros (col & Hc & Ht). eauto.
  - intros (col & Hc & Ht). eauto.
Qed.

Lemma readableb_spec raw_data label :
  readableb raw_data label = true <-> readable raw_data label.
Proof.
  unfold readableb, readable. split.
  - destruct (column_text raw_data label) as [col|]; [|discriminate].
    intros H. exists col. split; [reflexivity|].
    intros Hj. now rewrite Hj in H.
  - intros (col & -> & H). destruct (joined label); [now rewrite H|reflexivity].
Qed.

Lemma readableb_all raw_data ls :
  forallb (readableb raw_data) ls = true -> Forall (readable raw_data) ls.
Proof.
  rewrite forallb_forall, Forall_forall. intros H l Hl.
  now apply readableb_spec, H.
Qed.

Lemma readable_all raw_data :
  Forall (readable raw_data) read_order <->
  exists title proc ram os war prices rating,
    normalizable raw_data title proc ram os war prices rating.
Proof.
  unfold read_order, normalizable. split.
  - intros H.
    repeat match goal with
           | H : Forall _ (_ :: _) |- _ => inversion H; clear H; subst
           end.
    repeat match goal with
           | H : readable _ _ |- _ => destruct H as (? & ? & ?)
           end.
    do 7 eexists. repeat split; eauto.
  - intros (title & proc & ram & os & war & prices & rating
            & Ht & Hp & Hr & Hr1 & Ho & Hw & Hw1 & Hpr & Hra).
    repeat constructor; unfold readable; eauto.
    + exists title. split; [assumption|discriminate].
    + exists proc. split; [assumption|discriminate].
    + exists os. split; [assumption|discriminate].
    + exists prices. split; [assumption|discriminate].
    + exists rating. split; [assumption|discriminate].
Qed.

(** X1: the rules of [transform_data] (lines 58 to 95) run to their end
    exactly when each of the seven columns Title, Processor, RAM,
    Operating_System, Warranty, Prices and Rating is there once and holds
    text, and no RAM or Warranty cell is missing.  [transform_data] then
    writes the normalized frame to artifacts/transformed_data.csv, and it
    returns a table exactly when, in addition, this write raises nothing. *)
Theorem transform_data_returns_iff {world} (ext : externals world) raw_data w :
  ((exists df, normalize raw_data = Ok df)
   <-> Forall (readable raw_data) read_order)
  /\ ((exists w' out, transform_data_saving ext raw_data w = (w', Ok out))
      <-> Forall (readable raw_data) read_order
          /\ forall df,
               normalize raw_data = Ok df ->
               snd (to_csv ext
                      (path_join (py "artifacts") (py "transformed_data.csv"))
                      df w)
               = None).
Proof.
  assert (Hrules : (exists df, normalize raw_data = Ok df)
                   <-> Forall (readable raw_data) read_order).
  { rewrite readable_all. split.
    - intros (df & E).
      apply normalize_ok in E
        as (title & proc & ram & os & war & prices & rating & Hn & _).
      do 7 eexists. exact Hn.
    - intros (title & proc & ram & os & war & prices & rating & Hn).
      exists (normalized_frame raw_data title proc ram os war prices rating).
      apply normalize_ok. do 7 eexists. eauto. }
  split; [exact Hrules|].
  unfold transform_data_saving. cbv zeta. split.
  - intros (w' & out & H).
    destruct (normalize raw_data) as [df|e] eqn:E; [|discriminate].
    split; [apply Hrules; eauto|].
    intros df' [= <-].
    destruct (to_csv ext _ df w) as [w1 [e|]]; [discriminate|reflexivity].
  - intros [Hr Hw]. apply Hrules in Hr as (df & E).
    specialize (Hw df E). rewrite E.
    destruct (to_csv ext _ df w) as [w1 [e|]]; [discriminate|eauto].
Qed.

Ltac read_column before Hord Hbefore :=
  destruct before as [|? before];
  [ injection Hord as <- <-
  | let Hc := fresh "Hc" in
    let Ht := fresh "Ht" in
    let Hord' := fresh "Hord" in
    injection Hord as <- Hord'; rename Hord' into Hord;
    apply Forall_cons_iff in Hbefore;
    destruct Hbefore as [(? & Hc & Ht) Hbefore];
    rewrite Hc; cbn [bind];
    try (rewrite Ht by (vm_compute; reflexivity); cbn [bind]) ].

Ltac failing_column Hl :=
  let Hj := fresh "Hj" in
  let Hc := fresh "Hc" in
  let Hf := fresh "Hf" in
  destruct Hl as [Hl|(Hj & -> & ? & Hc & Hf)];
  [ rewrite Hl; reflexivity
  | first [ vm_compute in Hj; discriminate Hj
          | rewrite Hc; cbn [bind]; rewrite Hf; reflexivity ] ].

Lemma normalize_first_failure raw_data l before after e :
  read_order = before ++ l :: after ->
  Forall (readable raw_data) before ->
  (column_text raw_data l = Raise e
   \/ (joined l = true /\ e = TypeError
       /\ exists col, column_text raw_data l = Ok col
                      /\ forallb is_text col = false)) ->
  normalize raw_data = Raise e.
Proof.
  intros Hord Hbefore Hl. rewrite normalize_eq. unfold check_text.
  unfold read_order in Hord.
  read_column before Hord Hbefore; [failing_column Hl|].
  read_column before Hord Hbefore; [failing_column Hl|].
  read_column before Hord Hbefore; [failing_column Hl|].
  read_column before Hord Hbefore; [failing_column Hl|].
  read_column before Hord Hbefore; [failing_column Hl|].
  read_column before Hord Hbefore; [failing_column Hl|].
  read_column before Hord Hbefore; [failing_column Hl|].
  destruct before; discriminate Hord.
Qed.

(** X2: the columns are read in the order Title, Processor, RAM,
    Operating_System, Warranty, Prices, Rating, and the first one that cannot
    be read decides the exception: when the columns before it are fine, the
    exception of [transform_data] is the one raised on that column
    (KeyError when it is absent, AttributeError when it is not text). *)
Theorem first_unreadable_column_raises raw_data l before after e :
  read_order = before ++ l :: after ->
  Forall (readable raw_data) before ->
  column_text raw_data l = Raise e ->
  transform_data raw_data = Raise e.
Proof.
  intros Hord Hbefore Hl. rewrite transform_data_normalize.
  rewrite (normalize_first_failure raw_data l before after e Hord Hbefore);
    [reflexivity|now left].
Qed.

(** X3: a missing cell in the RAM column, or in the Warranty column, makes
    [transform_data] raise TypeError whenever the columns read before it are
    fine. *)
Theorem missing_cell_raises_type_error raw_data l before after col :
  read_order = before ++ l :: after ->
  Forall (readable raw_data) before ->
  joined l = true ->
  column_text raw_data l = Ok col ->
  In None col ->
  transform_data raw_data = Raise TypeError.
Proof.
  intros Hord Hbefore Hj Hc Hin. rewrite transform_data_normalize.
  rewrite (normalize_first_failure raw_data l before after TypeError
             Hord Hbefore); [reflexivity|].
  right. split; [assumption|]. split; [reflexivity|].
  exists col. split; [assumption|].
  apply not_true_is_false. intros H. rewrite forallb_forall in H.
  now apply H in Hin.
Qed.

(** X4: a Rating column, or a Prices column, that holds numbers instead of
    text (every value read as a number by [pd.read_csv]) makes
    [transform_data] raise AttributeError when the columns read before it are
    fine. *)
Theorem numeric_column_raises_attribute_error raw_data l before after s :
  read_order = before ++ l :: after ->
  Forall (readable raw_data) before ->
  columns_of l raw_data = [s] ->
  (forall cells, s <> ObjectSeries cells) ->
  transform_data raw_data = Raise AttributeError.
Proof.
  intros Hord Hbefore Hs Hnum. rewrite transform_data_normalize.
  rewrite (normalize_first_failure raw_data l before after AttributeError
             Hord Hbefore); [reflexivity|].
  left. unfold column_text. rewrite Hs.
  destruct s as [cells| |]; [now destruct (Hnum cells)|reflexivity|reflexivity].
Qed.

Lemma first_unreadable_column_raises_witness :
  read_order = [py "Title"] ++ py "Processor"
               :: [py "RAM"; py "Operating_System"; py "Warranty";
                   py "Prices"; py "Rating"]
  /\ Forall (readable (frame_without (py "Processor") sample_raw)) [py "Title"]
  /\ column_text (frame_without (py "Processor") sample_raw) (py "Processor")
     = Raise (KeyError (py "Processor"))
  /\ transform_data (frame_without (py "Processor") sample_raw)
     = Raise (KeyError (py "Processor")).
Proof.
  assert (H1 : Forall (readable (frame_without (py "Processor") sample_raw))
                 [py "Title"])
    by (apply readableb_all; vm_compute; reflexivity).
  split; [reflexivity|]. split; [exact H1|].
  split; [vm_compute; reflexivity|].
  apply (first_unreadable_column_raises _ (py "Processor") [py "Title"]
           [py "RAM"; py "Operating_System"; py "Warranty";
            py "Prices"; py "Rating"]);
    [reflexivity|exact H1|vm_compute; reflexivity].
Defined.

Lemma missing_cell_raises_type_error_witness :
  read_order = [py "Title"; py "Processor"; py "RAM"; py "Operating_System"]
               ++ py "Warranty" :: [py "Prices"; py "Rating"]
  /\ Forall (readable frame_missing_warranty)
       [py "Title"; py "Processor"; py "RAM"; py "Operating_System"]
  /\ joined (py "Warranty") = true
  /\ column_text frame_missing_warranty (py "Warranty")
     = Ok [Some (py "1 Years Warranty"); None]
  /\ In None [Some (py "1 Years Warranty"); None]
  /\ transform_data frame_missing_warranty = Raise TypeError.
Proof.
  assert (H1 : Forall (readable frame_missing_warranty)
                 [py "Title"; py "Processor"; py "RAM"; py "Operating_System"])
    by (apply readableb_all; vm_compute; reflexivity).
  assert (H2 : column_text frame_missing_warranty (py "Warranty")
               = Ok [Some (py "1 Years Warranty"); None])
    by (vm_compute; reflexivity).
  assert (H3 : In None [Some (py "1 Years Warranty"); None])
    by (right; left; reflexivity).
  split; [reflexivity|]. split; [exact H1|].
  split; [vm_compute; reflexivity|]. split; [exact H2|]. split; [exact H3|].
  apply (missing_cell_raises_type_error _ (py "Warranty")
           [py "Title"; py "Processor"; py "RAM"; py "Operating_System"]
           [py "Prices"; py "Rating"]
           [Some (py "1 Years Warranty"); None]);
    [reflexivity|exact H1|vm_compute; reflexivity|exact H2|exact H3].
Defined.

Lemma numeric_column_raises_attribute_error_witness :
  read_order = [py "Title"; py "Processor"; py "RAM"; py "Operating_System";
                py "Warranty"; py "Prices"]
               ++ py "Rating" :: []
  /\ Forall (readable (setitem sample_raw (py "Rating") (NumericSeries 2)))
       [py "Title"; py "Processor"; py "RAM"; py "Operating_System";
        py "Warranty"; py "Prices"]
  /\ columns_of (py "Rating")
       (setitem sample_raw (py "Rating") (NumericSeries 2))
     = [NumericSeries 2]
  /\ (forall cells, NumericSeries 2 <> ObjectSeries cells)
  /\ transform_data (setitem sample_raw (py "Rating") (NumericSeries 2))
     = Raise AttributeError.
Proof.
  assert (H1 : Forall
                 (readable (setitem sample_raw (py "Rating") (NumericSeries 2)))
                 [py "Title"; py "Processor"; py "RAM"; py "Operating_System";
                  py "Warranty"; py "Prices"])
    by (apply readableb_all; vm_compute; reflexivity).
  assert (H2 : columns_of (py "Rating")
                 (setitem sample_raw (py "Rating") (NumericSeries 2))
               = [NumericSeries 2])
    by (vm_compute; reflexivity).
  assert (H3 : forall cells, NumericSeries 2 <> ObjectSeries cells)
    by discriminate.
  split; [reflexivity|]. split; [exact H1|]. split; [exact H2|].
  split; [exact H3|].
  apply (numeric_column_raises_attribute_error _ (py "Rating")
           [py "Title"; py "Processor"; py "RAM"; py "Operating_System";
            py "Warranty"; py "Prices"] [] (NumericSeries 2));
    [reflexivity|exact H1|exact H2|exact H3].
Defined.

(** ** The columns of the result *)

Lemma labels_setitem_present df l col s :
  column_text df l = Ok col -> labels (setitem df l s) = labels df.
Proof.
  intros H. rewrite labels_setitem.
  now rewrite (column_text_has_label _ _ _ H).
Qed.

Lemma has_label_drop_unnamed l df :
  contains prefix l = false ->
  has_label l (drop_unnamed df) = has_label l df.
Proof.
  intros H. now rewrite !has_label_columns, columns_of_drop_unnamed_keep.
Qed.

Lemma labels_normalized raw_data title proc ram os war prices rating :
  normalizable raw_data title proc ram os war prices rating ->
  labels (normalized_frame raw_data title proc ram os war prices rating)
  = filter (fun l => negb (pystr_eqb l (py "Title")))
      (filter (fun l => negb (contains prefix l)) (labels raw_data))
    ++ (if has_label (py "Brand_Name") raw_data then [] else [py "Brand_Name"]).
Proof.
  intros (Ht & Hp & Hr & _ & Ho & Hw & _ & Hpr & Hra).
  unfold normalized_frame; cbv zeta.
  rewrite (labels_setitem_present _ _ rating) by (through_frames; exact Hra).
  rewrite (labels_setitem_present _ _ prices) by (through_frames; exact Hpr).
  rewrite (labels_setitem_present _ _ war) by (through_frames; exact Hw).
  rewrite (labels_setitem_present _ _ os) by (through_frames; exact Ho).
  rewrite (labels_setitem_present _ _ ram) by (through_frames; exact Hr).
  rewrite (labels_setitem_present _ _ proc) by (through_frames; exact Hp).
  rewrite (labels_filter (fun l => negb (pystr_eqb l (py "Title")))).
  rewrite labels_setitem, has_label_drop_unnamed by reflexivity.
  rewrite drop_unnamed_filter.
  rewrite (labels_filter (fun l => negb (contains prefix l))).
  destruct (has_label (py "Brand_Name") raw_data).
  - now rewrite app_nil_r.
  - now rewrite filter_app.
Qed.

(** X5: the result keeps the columns of the raw table in their order,
    without the columns whose label contains "Unnamed:" and without Title; a
    Brand_Name column that was already there keeps its place, otherwise
    Brand_Name is the last column. *)
Theorem output_column_order raw_data out :
  transform_data raw_data = Ok out ->
  labels out
  = filter (fun l => negb (pystr_eqb l (py "Title")))
      (filter (fun l => negb (contains prefix l)) (labels raw_data))
    ++ (if has_label (py "Brand_Name") raw_data then [] else [py "Brand_Name"]).
Proof.
  intros H. apply transform_data_inv in H as (df & H & ->).
  apply normalize_inv in H
    as (title & proc & ram & os & war & prices & rating & Hn & ->).
  rewrite labels_head. now apply labels_normalized.
Qed.

Lemma output_column_order_witness :
  transform_data sample_raw = Ok sample_out
  /\ labels sample_out
     = filter (fun l => negb (pystr_eqb l (py "Title")))
         (filter (fun l => negb (contains prefix l)) (labels sample_raw))
       ++ (if has_label (py "Brand_Name") sample_raw
           then [] else [py "Brand_Name"]).
Proof.
  split; [vm_compute; reflexivity|].
  apply (output_column_order sample_raw sample_out). vm_compute; reflexivity.
Defined.

(** X6: a column that no rule names (its label is none of Brand_Name,
    Title, Processor, RAM, Operating_System, Warranty, Prices, Rating and does
    not contain "Unnamed:") is in the result with the cells it had, cut to the
    first fifty. *)
Theorem untouched_columns_kept raw_data out l :
  transform_data raw_data = Ok out ->
  existsb (pystr_eqb l)
    [py "Brand_Name"; py "Title"; py "Processor"; py "RAM";
     py "Operating_System"; py "Warranty"; py "Prices"; py "Rating"] = false ->
  contains prefix l = false ->
  columns_of l out = map (series_head 50) (columns_of l raw_data).
Proof.
  intros H Hl Hp. apply transform_data_inv in H as (df & H & ->).
  apply normalize_inv in H
    as (title & proc & ram & os & war & prices & rating & Hn & ->).
  rewrite columns_of_head.
  now rewrite (normalized_other _ _ _ _ _ _ _ _ l Hl), Hp.
Qed.

Lemma untouched_columns_kept_witness :
  transform_data
    (sample_raw ++ [(py "Storage", ObjectSeries [Some (py "512 GB SSD"); None])])
  = Ok (firstn 6 sample_out
        ++ (py "Storage", ObjectSeries [Some (py "512 GB SSD"); None])
           :: skipn 6 sample_out)
  /\ columns_of (py "Storage")
       (firstn 6 sample_out
        ++ (py "Storage", ObjectSeries [Some (py "512 GB SSD"); None])
           :: skipn 6 sample_out)
     = map (series_head 50)
         (columns_of (py "Storage")
            (sample_raw
             ++ [(py "Storage", ObjectSeries [Some (py "512 GB SSD"); None])])).
Proof.
  split; [vm_compute; reflexivity|].
  apply (untouched_columns_kept
           (sample_raw
            ++ [(py "Storage", ObjectSeries [Some (py "512 GB SSD"); None])]));
    vm_compute; reflexivity.
Defined.

(** ** Row counts *)

Lemma to_numeric_Int64_length col :
  series_length (to_numeric_Int64 col) = length col.
Proof.
  unfold to_numeric_Int64. cbv zeta.
  repeat match goal with
         | |- context [if ?b then _ else _] => destruct b
         end; simpl; try apply length_map; reflexivity.
Qed.

Lemma column_text_In df l col :
  column_text df l = Ok col -> In (l, ObjectSeries col) df.
Proof.
  intros H. apply column_text_ok in H. unfold columns_of in H.
  assert (Hin : In (ObjectSeries col)
                  (map snd (filter (fun c => pystr_eqb (fst c) l) df)))
    by (rewrite H; now left).
  apply in_map_iff in Hin as ([l0 s0] & E & Hin). simpl in E. subst s0.
  apply filter_In in Hin as [Hin Hl]. apply pystr_eqb_eq in Hl. simpl in Hl.
  now subst l0.
Qed.

(** X7: normalization keeps the number of rows: the Processor, RAM,
    Operating_System, Warranty, Prices and Rating columns of the normalized
    frame have as many cells as the columns they were computed from, and
    every Brand_Name column has as many cells as the Title column. *)
Theorem normalization_keeps_row_count raw_data df :
  normalize raw_data = Ok df ->
  (forall l, In l [py "Processor"; py "RAM"; py "Operating_System";
                   py "Warranty"; py "Prices"; py "Rating"] ->
     exists col s,
       column_text raw_data l = Ok col
       /\ columns_of l df = [s]
       /\ series_length s = length col)
  /\ (exists title,
        column_text raw_data (py "Title") = Ok title
        /\ Forall (fun s => series_length s = length title)
             (columns_of (py "Brand_Name") df)).
Proof.
  intros H. apply normalize_inv in H
    as (title & proc & ram & os & war & prices & rating & Hn & ->).
  pose proof (normalized_processor _ _ _ _ _ _ _ _ Hn) as Hp.
  pose proof (normalized_ram _ _ _ _ _ _ _ _ Hn) as Hr.
  pose proof (normalized_os _ _ _ _ _ _ _ _ Hn) as Ho.
  pose proof (normalized_warranty _ _ _ _ _ _ _ _ Hn) as Hw.
  pose proof (normalized_prices _ _ _ _ _ _ _ _ Hn) as Hpr.
  pose proof (normalized_rating _ _ _ _ _ _ _ _ Hn) as Hra.
  destruct Hn as (Ht & Hp' & Hr' & _ & Ho' & Hw' & _ & Hpr' & Hra').
  split.
  - intros l [<-|[<-|[<-|[<-|[<-|[<-|[]]]]]]].
    + exists proc; eexists. split; [eassumption|]. split; [exact Hp|].
      apply length_map.
    + exists ram; eexists. split; [eassumption|]. split; [exact Hr|].
      apply length_map.
    + exists os; eexists. split; [eassumption|]. split; [exact Ho|].
      apply length_map.
    + exists war; eexists. split; [eassumption|]. split; [exact Hw|].
      apply length_map.
    + exists prices; eexists. split; [eassumption|]. split; [exact Hpr|].
      rewrite to_numeric_Int64_length. apply length_map.
    + exists rating; eexists. split; [eassumption|]. split; [exact Hra|].
      apply length_map.
  - exists title. split; [assumption|].
    rewrite normalized_brand.
    destruct (columns_of (py "Brand_Name") raw_data) as [|c cs].
    + constructor; [apply length_map|constructor].
    + apply Forall_forall. intros s (x & <- & _)%in_map_iff.
      apply length_map.
Qed.

Lemma normalization_keeps_row_count_witness :
  normalize long_raw = Ok long_normalized
  /\ (forall l, In l [py "Processor"; py "RAM"; py "Operating_System";
                      py "Warranty"; py "Prices"; py "Rating"] ->
        exists col s,
          column_text long_raw l = Ok col
          /\ columns_of l long_normalized = [s]
          /\ series_length s = length col)
  /\ (exists title,
        column_text long_raw (py "Title") = Ok title
        /\ Forall (fun s => series_length s = length title)
             (columns_of (py "Brand_Name") long_normalized)).
Proof.
  split; [vm_compute; reflexivity|].
  apply (normalization_keeps_row_count long_raw long_normalized).
  vm_compute; reflexivity.
Defined.

(** ** Tables of at most fifty rows *)

Lemma head_short n df :
  Forall (fun col => series_length (snd col) <= n) df -> head n df = df.
Proof.
  induction 1 as [|[l s] df Hs _ IH]; [reflexivity|].
  simpl. rewrite IH. do 2 f_equal. simpl in Hs.
  destruct s; simpl in *; rewrite ?firstn_all2 by assumption;
    [reflexivity|reflexivity|].
  f_equal. lia.
Qed.

Lemma setitem_short n df l s :
  Forall (fun col => series_length (snd col) <= n) df ->
  series_length s <= n ->
  Forall (fun col => series_length (snd col) <= n) (setitem df l s).
Proof.
  intros Hdf Hs. unfold setitem. destruct (has_label l df).
  - rewrite Forall_forall in *. intros col (c & <- & Hc)%in_map_iff.
    destruct (pystr_eqb (fst c) l); [exact Hs|now apply Hdf].
  - apply Forall_app. split; [assumption|]. now constructor.
Qed.

Lemma filter_short {A} (P : A -> Prop) f l : Forall P l -> Forall P (filter f l).
Proof.
  rewrite !Forall_forall. intros H x Hx. apply filter_In in Hx. now apply H.
Qed.

Lemma normalized_short n raw_data title proc ram os war prices rating :
  normalizable raw_data title proc ram os war prices rating ->
  Forall (fun col => series_length (snd col) <= n) raw_data ->
  Forall (fun col => series_length (snd col) <= n)
    (normalized_frame raw_data title proc ram os war prices rating).
Proof.
  intros (Ht & Hp & Hr & _ & Ho & Hw & _ & Hpr & Hra) Hraw.
  assert (Hlen : forall l col, column_text raw_data l = Ok col -> length col <= n).
  { intros l col H. apply column_text_In in H.
    rewrite Forall_forall in Hraw. exact (Hraw _ H). }
  unfold normalized_frame; cbv zeta.
  repeat (apply setitem_short;
          [|simpl; rewrite ?to_numeric_Int64_length, ?length_map; eauto]).
  apply filter_short.
  apply setitem_short; [|simpl; rewrite length_map; eauto].
  rewrite drop_unnamed_filter. now apply filter_short.
Qed.

(** X8: on a table of at most fifty rows nothing is cut: [transform_data]
    returns the whole normalized frame. *)
Theorem short_table_not_cut raw_data :
  Forall (fun col => series_length (snd col) <= 50) raw_data ->
  transform_data raw_data = normalize raw_data.
Proof.
  intros Hraw. rewrite transform_data_normalize.
  destruct (normalize raw_data) as [df|e] eqn:E; [|reflexivity].
  apply normalize_inv in E
    as (title & proc & ram & os & war & prices & rating & Hn & ->).
  f_equal. apply head_short. now apply normalized_short.
Qed.

Lemma short_table_not_cut_witness :
  Forall (fun col => series_length (snd col) <= 50) sample_raw
  /\ transform_data sample_raw = normalize sample_raw.
Proof.
  assert (H : Forall (fun col => series_length (snd col) <= 50) sample_raw)
    by (repeat constructor; simpl; lia).
  split; [exact H|]. exact (short_table_not_cut sample_raw H).
Defined.

(** * Further properties of the rules *)

(** ** Operating system *)

(** X9: the operating-system rule replaces the one text
    "64 bit Windows 11 Home Operating System" by
    "64 bit Windows 11 Operating System" wherever it occurs: no result
    contains the longer text, a value without it (any other Windows 11 Home
    wording included) is unchanged, a missing cell stays missing, and the
    Operating_System column of the normalized frame is the column of these
    values. *)
Theorem os_normalization :
  (forall s, contains (py "64 bit Windows 11 Home Operating System")
               (os_rule s) = false)
  /\ (forall s,
        contains (py "64 bit Windows 11 Home Operating System") s = false ->
        os_rule s = s)
  /\ (forall b,
        os_rule (py "64 bit Windows 11 Home Operating System" ++ b)
        = py "64 bit Windows 11 Operating System" ++ os_rule b)
  /\ option_map os_rule None = None
  /\ (forall raw_data df os,
        normalize raw_data = Ok df ->
        column_text raw_data (py "Operating_System") = Ok os ->
        columns_of (py "Operating_System") df
        = [ObjectSeries (map (option_map os_rule) os)]).
Proof.
  split.
  { intros s. unfold os_rule.
    apply replace_removes_all; [discriminate|vm_compute; reflexivity]. }
  split; [intros s H; unfold os_rule; now apply str_replace_absent|].
  split; [intros b; unfold os_rule; apply str_replace_match_app; discriminate|].
  split; [reflexivity|].
  intros raw_data df os H Ho.
  apply normalize_inv in H
    as (title & proc & ram & os' & war & prices & rating & Hn & ->).
  rewrite (normalized_os _ _ _ _ _ _ _ _ Hn).
  destruct Hn as (_ & _ & _ & _ & Ho' & _).
  rewrite Ho in Ho'. now injection Ho' as <-.
Qed.

Lemma os_normalization_witness :
  contains (py "64 bit Windows 11 Home Operating System")
    (py "Windows 11 Home") = false
  /\ os_rule (py "Windows 11 Home") = py "Windows 11 Home"
  /\ normalize sample_raw = Ok sample_out
  /\ columns_of (py "Operating_System") sample_out
     = [ObjectSeries
          (map (option_map os_rule)
             [Some (py "64 bit Windows 11 Home Operating System"); None])].
Proof.
  pose proof os_normalization as (_ & Hfix & _ & _ & Hframe).
  split; [vm_compute; reflexivity|].
  split; [apply Hfix; vm_compute; reflexivity|].
  split; [vm_compute; reflexivity|].
  apply (Hframe sample_raw sample_out); vm_compute; reflexivity.
Defined.

(** ** Prices *)

(** X10: the Prices column depends only on the decimal digits of each
    text, in their order: two columns whose texts have the same digits give
    the same column, so a character that is not a digit can be put
    anywhere, or removed, without changing a price (a decimal point is
    dropped, not read: the digits after it are read as units).  Zeros in
    front are digits, and they can count: next to a missing price, twenty
    zeros before a one make the price 0. *)
Theorem price_depends_on_digits_only :
  (forall col col',
      map (option_map (filter unicode_decimal)) col
      = map (option_map (filter unicode_decimal)) col' ->
      to_numeric_Int64 (str_remove_non_digits (str_replace_col (py ",") [] col))
      = to_numeric_Int64
          (str_remove_non_digits (str_replace_col (py ",") [] col')))
  /\ (forall before a c b after,
        unicode_decimal c = false ->
        to_numeric_Int64
          (str_remove_non_digits
             (str_replace_col (py ",") []
                (before ++ Some (a ++ c :: b) :: after)))
        = to_numeric_Int64
            (str_remove_non_digits
               (str_replace_col (py ",") []
                  (before ++ Some (a ++ b) :: after))))
  /\ (forall raw_data raw_data' df df' prices prices',
        normalize raw_data = Ok df ->
        normalize raw_data' = Ok df' ->
        column_text raw_data (py "Prices") = Ok prices ->
        column_text raw_data' (py "Prices") = Ok prices' ->
        map (option_map (filter unicode_decimal)) prices
        = map (option_map (filter unicode_decimal)) prices' ->
        columns_of (py "Prices") df = columns_of (py "Prices") df')
  /\ to_numeric_Int64
       (str_remove_non_digits
          (str_replace_col (py ",") [] [Some (py "1,299.50")]))
     = Int64Series [Some 129950%Z]
  /\ to_numeric_Int64
       (str_remove_non_digits
          (str_replace_col (py ",") [] [Some (py "1"); None]))
     = Int64Series [Some 1%Z; None]
  /\ to_numeric_Int64
       (str_remove_non_digits
          (str_replace_col (py ",") []
             [Some (py "000000000000000000001"); None]))
     = Int64Series [Some 0%Z; None].
Proof.
  assert (Hsame : forall col col',
      map (option_map (filter unicode_decimal)) col
      = map (option_map (filter unicode_decimal)) col' ->
      to_numeric_Int64 (str_remove_non_digits (str_replace_col (py ",") [] col))
      = to_numeric_Int64
          (str_remove_non_digits (str_replace_col (py ",") [] col'))).
  { intros col col' H. rewrite !price_column, !price_text_column.
    now rewrite H. }
  split; [exact Hsame|].
  split.
  { intros before a c b after Hc. apply Hsame.
    rewrite !map_app. cbn [map option_map].
    rewrite !filter_app. cbn [filter]. now rewrite Hc. }
  split.
  { intros raw_data raw_data' df df' prices prices' H H' Hp Hp' Hd.
    rewrite (normalized_prices_column _ _ _ H Hp).
    rewrite (normalized_prices_column _ _ _ H' Hp').
    rewrite <- !price_column. f_equal. now apply Hsame. }
  split; [vm_compute; reflexivity|].
  split; vm_compute; reflexivity.
Qed.

Lemma price_depends_on_digits_only_witness :
  map (option_map (filter unicode_decimal)) [Some (py "₹45,990"); None]
  = map (option_map (filter unicode_decimal)) [Some (py "Rs. 45990/-"); None]
  /\ to_numeric_Int64
       (str_remove_non_digits
          (str_replace_col (py ",") [] [Some (py "₹45,990"); None]))
     = to_numeric_Int64
         (str_remove_non_digits
            (str_replace_col (py ",") [] [Some (py "Rs. 45990/-"); None]))
  /\ unicode_decimal 46 = false
  /\ to_numeric_Int64
       (str_remove_non_digits
          (str_replace_col (py ",") []
             ([None] ++ Some (py "1299" ++ 46%N :: py "50") :: [])))
     = to_numeric_Int64
         (str_remove_non_digits
            (str_replace_col (py ",") []
               ([None] ++ Some (py "1299" ++ py "50") :: [])))
  /\ normalize sample_raw = Ok sample_out
  /\ normalize (setitem sample_raw (py "Prices")
                  (ObjectSeries [Some (py "Rs. 45990/-"); None]))
     = Ok sample_out
  /\ columns_of (py "Prices") sample_out = columns_of (py "Prices") sample_out.
Proof.
  pose proof price_depends_on_digits_only as (Hsame & Hins & Hframe & _).
  assert (Hd : map (option_map (filter unicode_decimal))
                 [Some (py "₹45,990"); None]
               = map (option_map (filter unicode_decimal))
                   [Some (py "Rs. 45990/-"); None])
    by (vm_compute; reflexivity).
  assert (H1 : normalize sample_raw = Ok sample_out)
    by (vm_compute; reflexivity).
  assert (H2 : normalize (setitem sample_raw (py "Prices")
                            (ObjectSeries [Some (py "Rs. 45990/-"); None]))
               = Ok sample_out) by (vm_compute; reflexivity).
  split; [exact Hd|].
  split; [exact (Hsame _ _ Hd)|].
  split; [vm_compute; reflexivity|].
  split; [apply Hins; vm_compute; reflexivity|].
  split; [exact H1|]. split; [exact H2|].
  apply (Hframe _ _ _ _ [Some (py "₹45,990"); None]
           [Some (py "Rs. 45990/-"); None] H1 H2);
    [vm_compute; reflexivity|vm_compute; reflexivity|exact Hd].
Defined.

(** ** The first two tokens *)

Lemma token_no_space t : is_token t = true -> count_space t = 0.
Proof.
  unfold is_token, count_space. destruct t as [|c t]; [discriminate|].
  generalize (c :: t). intros l H.
  induction l as [|d l IH]; [reflexivity|]. simpl in *.
  apply andb_true_iff in H as [Hd H]. apply negb_true_iff in Hd.
  rewrite Hd. now apply IH.
Qed.

Lemma count_space_app a b : count_space (a ++ b) = count_space a + count_space b.
Proof. unfold count_space. now rewrite filter_app, length_app. Qed.

Lemma token_stripped t : is_token t = true -> stripped t = true.
Proof.
  unfold is_token, stripped. destruct t as [|c t]; [discriminate|].
  intros H. rewrite forallb_forall in H. apply andb_true_iff. split.
  - simpl. apply H. now left.
  - destruct (rev (c :: t)) as [|d r] eqn:E; [reflexivity|].
    simpl. apply H, in_rev. rewrite E. now left.
Qed.

Lemma two_tokens_cases s :
  two_tokens s = []
  \/ (exists t, is_token t = true /\ two_tokens s = t)
  \/ (exists t1 t2, is_token t1 = true /\ is_token t2 = true
                    /\ two_tokens s = t1 ++ 32%N :: t2).
Proof.
  unfold two_tokens. pose proof (split_ws_tokens s) as H.
  destruct (split_ws s) as [|t1 [|t2 rest]].
  - now left.
  - right; left. exists t1. inversion H; subst. split; [assumption|reflexivity].
  - right; right. exists t1, t2. inversion H as [|? ? H1 H2]; subst.
    inversion H2; subst. repeat split; assumption.
Qed.

Lemma two_tokens_stripped s : stripped (two_tokens s) = true.
Proof.
  destruct (two_tokens_cases s)
    as [-> | [(t & Ht & ->) | (t1 & t2 & H1 & H2 & ->)]].
  - reflexivity.
  - now apply token_stripped.
  - destruct t1 as [|c1 r1]; [discriminate H1|].
    destruct t2 as [|c2 r2]; [discriminate H2|].
    apply token_stripped in H1, H2. unfold stripped in *.
    apply andb_true_iff in H1 as [H1 _]. apply andb_true_iff in H2 as [_ H2].
    apply andb_true_iff. split; [exact H1|].
    rewrite no_leading_space_rev_app.
    change (32%N :: c2 :: r2) with ([32%N] ++ c2 :: r2).
    rewrite no_leading_space_rev_app. exact H2.
Qed.

Lemma two_tokens_count_space s : count_space (two_tokens s) <= 1.
Proof.
  destruct (two_tokens_cases s)
    as [-> | [(t & Ht & ->) | (t1 & t2 & H1 & H2 & ->)]].
  - unfold count_space. simpl. lia.
  - rewrite token_no_space by assumption. lia.
  - change (32%N :: t2) with ([32%N] ++ t2).
    rewrite !count_space_app.
    rewrite (token_no_space t1 H1), (token_no_space t2 H2).
    change (count_space [32%N]) with 1. lia.
Qed.

(** X11: the value kept by the two-token cut (the RAM value, and the
    Warranty value before the mapping) has no white space at its ends and at
    most one white-space character, the single space between the two tokens:
    tabs and runs of spaces of the original are gone.  A text that is one
    token, or two tokens with one space between them, is returned as it is. *)
Theorem two_tokens_shape :
  (forall s, stripped (two_tokens s) = true)
  /\ (forall s, count_space (two_tokens s) <= 1)
  /\ (forall s, two_tokens s = []
                \/ (exists t, is_token t = true /\ two_tokens s = t)
                \/ (exists t1 t2, is_token t1 = true /\ is_token t2 = true
                                  /\ two_tokens s = t1 ++ 32%N :: t2))
  /\ (forall t, is_token t = true -> two_tokens t = t)
  /\ (forall t1 t2, is_token t1 = true -> is_token t2 = true ->
        two_tokens (t1 ++ 32%N :: t2) = t1 ++ 32%N :: t2)
  /\ (forall s, forallb isspace s = true -> two_tokens s = []).
Proof.
  split; [exact two_tokens_stripped|].
  split; [exact two_tokens_count_space|].
  split; [exact two_tokens_cases|].
  split.
  { intros t Ht. unfold two_tokens. now rewrite split_ws_token. }
  split.
  { intros t1 t2 H1 H2. unfold two_tokens.
    rewrite split_ws_token_space by (assumption || reflexivity).
    now rewrite split_ws_token. }
  intros s Hs. unfold two_tokens. now rewrite split_ws_blank.
Qed.

Lemma two_tokens_shape_witness :
  is_token (py "16") = true /\ is_token (py "GB") = true
  /\ two_tokens (py "16" ++ 32%N :: py "GB") = py "16" ++ 32%N :: py "GB"
  /\ two_tokens (py "16") = py "16"
  /\ forallb isspace (py "   ") = true
  /\ two_tokens (py "   ") = [].
Proof.
  pose proof two_tokens_shape as (_ & _ & _ & Hone & Htwo & Hblank).
  split; [vm_compute; reflexivity|]. split; [vm_compute; reflexivity|].
  split; [apply Htwo; vm_compute; reflexivity|].
  split; [apply Hone; vm_compute; reflexivity|].
  split; [vm_compute; reflexivity|].
  apply Hblank; vm_compute; reflexivity.
Defined.

(** ** The entry of the warranty mapping that cannot apply *)

Lemma count_space_replace old new s :
  old <> [] -> count_space old = count_space new ->
  count_space (str_replace old new s) = count_space s.
Proof.
  intros Ho Hc.
  apply (str_replace_ind old new Ho
           (fun s y => count_space y = count_space s)).
  - reflexivity.
  - intros t IH. rewrite !count_space_app. lia.
  - intros c t _ IH. change (c :: str_replace old new t)
      with ([c] ++ str_replace old new t).
    change (c :: t) with ([c] ++ t). rewrite !count_space_app. lia.
Qed.

Lemma apply_replacements_app r1 r2 s :
  apply_replacements (r1 ++ r2) s
  = apply_replacements r2 (apply_replacements r1 s).
Proof. unfold apply_replacements. apply fold_left_app. Qed.

Lemma count_space_replacements reps s :
  Forall (fun kv => fst kv <> [] /\ count_space (fst kv) = count_space (snd kv))
    reps ->
  count_space (apply_replacements reps s) = count_space s.
Proof.
  intros H. revert s. induction H as [|kv reps [H1 H2] _ IH]; intros s;
    [reflexivity|].
  change (apply_replacements (kv :: reps) s)
    with (apply_replacements reps (str_replace (fst kv) (snd kv) s)).
  now rewrite IH, count_space_replace.
Qed.

Lemma contains_count_space k s :
  contains k s = true -> count_space k <= count_space s.
Proof.
  intros (a & b & ->)%contains_spec. rewrite !count_space_app. lia.
Qed.

Lemma dead_replacement before key value after s :
  Forall (fun kv => fst kv <> [] /\ count_space (fst kv) = count_space (snd kv))
    before ->
  count_space s < count_space key ->
  apply_replacements (before ++ (key, value) :: after) s
  = apply_replacements (before ++ after) s.
Proof.
  intros Hb Hs. rewrite !apply_replacements_app.
  change (apply_replacements ((key, value) :: after)
            (apply_replacements before s))
    with (apply_replacements after
            (str_replace key value (apply_replacements before s))).
  rewrite str_replace_absent; [reflexivity|].
  apply not_true_is_false. intros H. apply contains_count_space in H.
  rewrite count_space_replacements in H by assumption. lia.
Qed.

(** X12: the third entry of the warranty mapping, the key "1 Years " with a
    space at its end, never applies: the text it is searched in has at most
    one white-space character.  The warranty rule is the rule with the seven
    other entries. *)
Theorem warranty_key_with_trailing_space_is_dead s :
  nth_error warranty_replacements 2 = Some (py "1 Years ", py "1 Year")
  /\ warranty_rule s
     = apply_replacements
         (firstn 2 warranty_replacements ++ skipn 3 warranty_replacements)
         (two_tokens s)
  /\ contains (py "1 Years ")
       (apply_replacements (firstn 2 warranty_replacements) (two_tokens s))
     = false.
Proof.
  assert (Hb : Forall (fun kv => fst kv <> []
                        /\ count_space (fst kv) = count_space (snd kv))
                 (firstn 2 warranty_replacements)).
  { repeat constructor; try discriminate; vm_compute; reflexivity. }
  assert (Hs : count_space (two_tokens s) < count_space (py "1 Years ")).
  { pose proof (two_tokens_count_space s) as Hc.
    change (count_space (py "1 Years ")) with 2. lia. }
  split; [reflexivity|]. split.
  - unfold warranty_rule.
    exact (dead_replacement (firstn 2 warranty_replacements)
             (py "1 Years ") (py "1 Year") (skipn 3 warranty_replacements)
             (two_tokens s) Hb Hs).
  - apply not_true_is_false. intros H. apply contains_count_space in H.
    rewrite count_space_replacements in H by assumption. lia.
Qed.

(** ** Processor *)

(** X13: a normalized processor value has no white space at its ends and
    contains neither "Intel Core 5 Processor" nor "Intel Core 7 Processor":
    the two replacements leave no occurrence behind and create none. *)
Theorem processor_result_clean s :
  stripped (processor_rule s) = true
  /\ contains (py "Intel Core 5 Processor") (processor_rule s) = false
  /\ contains (py "Intel Core 7 Processor") (processor_rule s) = false.
Proof.
  split; [apply processor_rule_stripped|apply processor_rule_clean].
Qed.

(** ** Brand *)

Lemma split_ws_from_first s : forall cur t rest,
  cur <> [] \/ no_leading_space s = true ->
  split_ws_from cur s = t :: rest ->
  exists u v, t = rev cur ++ u /\ s = u ++ v.
Proof.
  induction s as [|c s IH]; intros cur t rest Hcur H; simpl in H.
  - destruct cur as [|a cur]; [discriminate|].
    injection H as <- _. exists [], []. now rewrite app_nil_r.
  - destruct (isspace c) eqn:Hc.
    + destruct cur as [|a cur].
      * destruct Hcur as [Hcur|Hcur]; [contradiction|].
        simpl in Hcur. rewrite Hc in Hcur. discriminate.
      * injection H as <- _. exists [], (c :: s). now rewrite app_nil_r.
    + apply IH in H; [|left; discriminate].
      destruct H as (u & v & -> & ->). exists (c :: u), v.
      simpl. now rewrite <- app_assoc.
Qed.

(** X14: a Brand_Name that is not missing is a token: it is not empty and
    has no white space; it is the beginning of the title once the white space
    in front of the title is removed. *)
Theorem brand_is_leading_token title brand :
  brand_cell (Some title) = Some brand ->
  is_token brand = true /\ exists rest, lstrip title = brand ++ rest.
Proof.
  unfold brand_cell, brand_rule. intros H.
  destruct (split_ws title) as [|t toks] eqn:E; [discriminate|].
  injection H as ->. split.
  - pose proof (split_ws_tokens title) as Ht. rewrite E in Ht.
    now inversion Ht.
  - destruct (lstrip_spec title) as (ws & Hs & Hws).
    rewrite Hs, split_ws_leading in E by assumption.
    apply split_ws_from_first in E;
      [|right; apply lstrip_no_leading_space].
    destruct E as (u & v & -> & Hv). exists v. exact Hv.
Qed.

Lemma brand_is_leading_token_witness :
  brand_cell (Some (py "  Dell Inspiron 15")) = Some (py "Dell")
  /\ is_token (py "Dell") = true
  /\ exists rest, lstrip (py "  Dell Inspiron 15") = py "Dell" ++ rest.
Proof.
  assert (H : brand_cell (Some (py "  Dell Inspiron 15")) = Some (py "Dell"))
    by (vm_compute; reflexivity).
  split; [exact H|]. exact (brand_is_leading_token _ _ H).
Defined.

(** * The DataFrame object that [transform_data] works on *)

Lemma outcome_exec_cons s rest df :
  outcome (exec (s :: rest) df) = df' <- s df ;; outcome (exec rest df').
Proof. simpl. now destruct (s df). Qed.

Lemma outcome_exec_app s1 s2 df :
  outcome (exec (s1 ++ s2) df)
  = df' <- outcome (exec s1 df) ;; outcome (exec s2 df').
Proof.
  revert df. induction s1 as [|s s1 IH]; intros df; [reflexivity|].
  simpl. destruct (s df) as [df'|e]; [apply IH|reflexivity].
Qed.

Lemma outcome_exec_replace label reps df :
  outcome (exec (map (replace_statement label) reps) df)
  = replace_loop label reps df.
Proof.
  revert df. induction reps as [|[k v] reps IH]; intros df; [reflexivity|].
  cbn [map]. rewrite outcome_exec_cons. unfold replace_statement at 1.
  cbn [replace_loop fst snd].
  destruct (column_text df label); cbn [bind]; [apply IH|reflexivity].
Qed.

Ltac next_read :=
  match goal with
  | |- context [column_text ?df ?l] =>
      destruct (column_text df l); cbn [bind exec outcome]; try reflexivity
  | |- context [apply_join ?sep ?col] =>
      destruct (apply_join sep col); cbn [bind exec outcome]; try reflexivity
  | |- context [drop_label ?l ?df] =>
      destruct (drop_label l df); cbn [bind exec outcome]; try reflexivity
  end.

(** The statements run one after the other on the object compute what
    [normalize] computes. *)
Lemma outcome_statements raw_data :
  outcome (exec statements raw_data) = normalize raw_data.
Proof.
  unfold statements, normalize, extract_brand, transform_processor,
    transform_ram, transform_os, transform_warranty, transform_prices,
    transform_rating.
  cbn [app exec]. unfold replace_statement at 1 2 3. cbn [fst snd].
  do 10 next_read.
  rewrite outcome_exec_app, outcome_exec_replace.
  match goal with
  | |- context [replace_loop ?l ?r ?df] => destruct (replace_loop l r df)
  end; cbn [bind]; [|reflexivity].
  cbn [app exec]. next_read. next_read.
  apply outcome_exec_replace.
Qed.

(** X15: [transform_data] changes the DataFrame it is given.  Its result is
    the one of the functional reading; after a call that returns, the object
    of the caller is the whole normalized frame (every row, without Title
    and the artifact columns) and the returned table, its first fifty rows,
    is another object. *)
Theorem inplace_agrees_with_transform_data raw_data :
  snd (transform_data_inplace raw_data) = transform_data raw_data
  /\ (forall df,
        normalize raw_data = Ok df ->
        transform_data_inplace raw_data = (df, Ok (head 50 df))).
Proof.
  pose proof (outcome_statements raw_data) as H.
  unfold transform_data_inplace. rewrite transform_data_normalize.
  destruct (exec statements raw_data) as [df' [e|]]; simpl in H; rewrite <- H.
  - split; [reflexivity|discriminate].
  - split; [reflexivity|]. now intros df [= <-].
Qed.

Lemma inplace_agrees_with_transform_data_witness :
  normalize sample_raw = Ok sample_out
  /\ transform_data_inplace sample_raw = (sample_out, Ok (head 50 sample_out)).
Proof.
  assert (H : normalize sample_raw = Ok sample_out) by (vm_compute; reflexivity).
  split; [exact H|].
  exact (proj2 (inplace_agrees_with_transform_data sample_raw) sample_out H).
Defined.

Lemma drop_label_present l df :
  has_label l df = true -> drop_label l df = Ok (frame_without l df).
Proof. unfold drop_label. now intros ->. Qed.

(** X16: a call that raises has already changed the object.  When the
    Title column is absent the artifact columns are gone all the same; when
    a RAM cell is missing, the object is left without Title and the artifact
    columns, with Brand_Name set and Processor normalized, and with the RAM
    column and the columns after it as they were (for a table with at most
    one column labelled Brand_Name, as [pd.read_csv] gives). *)
Theorem failed_transform_leaves_partial_frame raw_data :
  (columns_of (py "Title") raw_data = [] ->
   transform_data_inplace raw_data
   = (drop_unnamed raw_data, Raise (KeyError (py "Title"))))
  /\ (forall title proc ram,
        (length (columns_of (py "Brand_Name") raw_data) <= 1)%nat ->
        column_text raw_data (py "Title") = Ok title ->
        column_text raw_data (py "Processor") = Ok proc ->
        column_text raw_data (py "RAM") = Ok ram ->
        In None ram ->
        transform_data_inplace raw_data
        = (setitem
             (frame_without (py "Title")
                (setitem (drop_unnamed raw_data) (py "Brand_Name")
                   (ObjectSeries (map brand_cell title))))
             (py "Processor")
             (ObjectSeries (map (option_map processor_rule) proc)),
           Raise TypeError)).
Proof.
  split.
  - intros Ht. unfold transform_data_inplace, statements. cbn [app exec].
    unfold column_text. rewrite columns_of_drop_unnamed_keep by reflexivity.
    now rewrite Ht.
  - intros title proc ram _ Ht Hp Hr Hin.
    unfold transform_data_inplace, statements. cbn [app exec].
    rewrite column_text_drop_unnamed by reflexivity.
    rewrite Ht. cbn [bind exec]. rewrite brand_column.
    rewrite drop_label_present.
    2:{ apply (column_text_has_label _ _ title). through_frames. exact Ht. }
    cbn [exec].
    set (df2 := frame_without (py "Title")
                  (setitem (drop_unnamed raw_data) (py "Brand_Name")
                     (ObjectSeries (map brand_cell title)))).
    assert (Hp2 : column_text df2 (py "Processor") = Ok proc)
      by (unfold df2, frame_without; through_frames; exact Hp).
    assert (Hr2 : forall s, column_text (setitem df2 (py "Processor") s)
                              (py "RAM") = Ok ram)
      by (intros s; unfold df2, frame_without; through_frames; exact Hr).
    rewrite Hp2. cbn [bind exec]. unfold replace_statement. cbn [fst snd].
    rewrite (column_text_setitem _ _ _ _ Hp2). cbn [bind exec].
    rewrite setitem_setitem, (column_text_setitem _ _ _ _ Hp2).
    cbn [bind exec]. rewrite setitem_setitem, processor_column.
    rewrite Hr2. cbn [bind]. rewrite two_tokens_column.
    replace (forallb is_text ram) with false; [reflexivity|].
    symmetry. apply not_true_is_false. intros H.
    rewrite forallb_forall in H. now apply H in Hin.
Qed.

Lemma failed_transform_leaves_partial_frame_witness :
  (length (columns_of (py "Brand_Name") frame_missing_ram) <= 1)%nat
  /\ columns_of (py "Title") (frame_without (py "Title") sample_raw) = []
  /\ transform_data_inplace (frame_without (py "Title") sample_raw)
     = (drop_unnamed (frame_without (py "Title") sample_raw),
        Raise (KeyError (py "Title")))
  /\ In None [Some (py "8 GB DDR4 3200MHz"); None]
  /\ transform_data_inplace frame_missing_ram
     = (setitem
          (frame_without (py "Title")
             (setitem (drop_unnamed frame_missing_ram) (py "Brand_Name")
                (ObjectSeries
                   (map brand_cell
                      [Some (py "Dell Inspiron 15");
                       Some (py "HP Pavilion 14")]))))
          (py "Processor")
          (ObjectSeries
             (map (option_map processor_rule)
                [Some (py "Intel Core 7 Processor (12th Gen)");
                 Some (py "AMD Ryzen 5 Hexa Core Processor")])),
        Raise TypeError).
Proof.
  assert (H1 : columns_of (py "Title") (frame_without (py "Title") sample_raw)
               = []) by (vm_compute; reflexivity).
  assert (H2 : In None [Some (py "8 GB DDR4 3200MHz"); None])
    by (right; left; reflexivity).
  assert (H3 : (length (columns_of (py "Brand_Name") frame_missing_ram) <= 1)%nat)
    by (vm_compute; lia).
  split; [exact H3|].
  split; [exact H1|].
  split; [exact (proj1 (failed_transform_leaves_partial_frame _) H1)|].
  split; [exact H2|].
  apply (proj2 (failed_transform_leaves_partial_frame frame_missing_ram)
           _ _ [Some (py "8 GB DDR4 3200MHz"); None]);
    [exact H3|vm_compute; reflexivity|vm_compute; reflexivity
    |vm_compute; reflexivity|exact H2].
Defined.

(** * The connection string and the run *)

Lemma split_at_first (c : N) a : forall a' b b',
  ~ In c a -> ~ In c a' -> a ++ c :: b = a' ++ c :: b' -> a = a' /\ b = b'.
Proof.
  induction a as [|x a IH]; intros [|y a'] b b' Ha Ha' E; simpl in *.
  - injection E as <-. auto.
  - injection E as <- _. tauto.
  - injection E as -> _. tauto.
  - injection E as <- E. apply IH in E; [|tauto|tauto].
    destruct E as [<- <-]. auto.
Qed.

(** X17: the connection string is the plain concatenation of the fields,
    nothing is escaped.  It tells the five fields apart as long as the user
    name and the host have no ':', the password has no '@' and the port has
    no '/'; without that two different objects can have the same string. *)
Theorem conn_str_determines_fields :
  (forall s1 s2,
      ~ In 58%N (user_name s1) -> ~ In 58%N (user_name s2) ->
      ~ In 64%N (password s1) -> ~ In 64%N (password s2) ->
      ~ In 58%N (host_name s1) -> ~ In 58%N (host_name s2) ->
      ~ In 47%N (port_number s1) -> ~ In 47%N (port_number s2) ->
      conn_str s1 = conn_str s2 ->
      user_name s1 = user_name s2 /\ password s1 = password s2
      /\ host_name s1 = host_name s2 /\ port_number s1 = port_number s2
      /\ db_name s1 = db_name s2)
  /\ (exists s1 s2,
        conn_str s1 = conn_str s2 /\ password s1 <> password s2
        /\ host_name s1 <> host_name s2).
Proof.
  split.
  - intros [b1 k1 h1 o1 d1 u1 p1] [b2 k2 h2 o2 d2 u2 p2].
    cbn [user_name password host_name port_number db_name].
    intros Hu1 Hu2 Hp1 Hp2 Hh1 Hh2 Ho1 Ho2 E.
    vm_compute in E. repeat (injection E as E).
    fold (@app N) in E.
    apply split_at_first in E as [Eu E]; [|assumption|assumption].
    apply split_at_first in E as [Ep E]; [|assumption|assumption].
    apply split_at_first in E as [Eh E]; [|assumption|assumption].
    apply split_at_first in E as [Eo E]; [|assumption|assumption].
    auto.
  - exists {| bucket_name := []; file_key := []; host_name := py "d";
              port_number := py "5439"; db_name := py "db";
              user_name := py "a"; password := py "b@c" |},
           {| bucket_name := []; file_key := []; host_name := py "c@d";
              port_number := py "5439"; db_name := py "db";
              user_name := py "a"; password := py "b" |}.
    split; [vm_compute; reflexivity|].
    split; vm_compute; discriminate.
Qed.

Lemma conn_str_determines_fields_witness :
  conn_str sample_etl = conn_str sample_etl
  /\ ~ In 58%N (user_name sample_etl) /\ ~ In 64%N (password sample_etl)
  /\ ~ In 58%N (host_name sample_etl) /\ ~ In 47%N (port_number sample_etl)
  /\ user_name sample_etl = user_name sample_etl
  /\ password sample_etl = password sample_etl
  /\ host_name sample_etl = host_name sample_etl
  /\ port_number sample_etl = port_number sample_etl
  /\ db_name sample_etl = db_name sample_etl.
Proof.
  assert (Hu : ~ In 58%N (user_name sample_etl))
    by (vm_compute; intuition discriminate).
  assert (Hp : ~ In 64%N (password sample_etl))
    by (vm_compute; intuition discriminate).
  assert (Hh : ~ In 58%N (host_name sample_etl))
    by (vm_compute; intuition discriminate).
  assert (Ho : ~ In 47%N (port_number sample_etl))
    by (vm_compute; intuition discriminate).
  split; [reflexivity|]. split; [exact Hu|]. split; [exact Hp|].
  split; [exact Hh|]. split; [exact Ho|].
  exact (proj1 conn_str_determines_fields sample_etl sample_etl
           Hu Hu Hp Hp Hh Hh Ho Ho eq_refl).
Defined.

(** X18: the warehouse is written only after [transform_data] has returned.
    When the download fails the world is untouched; when the download and the
    first file are fine and a rule raises, the run stops with that exception
    in the world that the writing of [raw_data.csv] left: neither
    [transformed_data.csv] nor the table is written. *)
Theorem run_etl_stops_before_load {world} (ext : externals world) self table w :
  (forall e,
      read_csv_s3 ext (bucket_name self) (file_key self) w = Raise e ->
      run_etl ext self table w = (w, Raise e))
  /\ (forall raw_data w1 e,
        read_csv_s3 ext (bucket_name self) (file_key self) w = Ok raw_data ->
        to_csv ext (path_join (py "artifacts") (py "raw_data.csv")) raw_data w = (w1, None) ->
        transform_data raw_data = Raise e ->
        run_etl ext self table w = (w1, Raise e)).
Proof.
  split.
  - intros e H. unfold run_etl, extract_data. now rewrite H.
  - intros raw_data w1 e Hread Hcsv Ht.
    unfold run_etl, extract_data, transform_data_saving.
    rewrite Hread. cbv zeta. rewrite Hcsv. rewrite transform_data_normalize in Ht.
    destruct (normalize raw_data); [discriminate|]. now injection Ht as ->.
Qed.

Lemma run_etl_stops_before_load_witness :
  read_csv_s3 (recording frame_missing_ram) (bucket_name sample_etl)
    (file_key sample_etl) ([], []) = Ok frame_missing_ram
  /\ to_csv (recording frame_missing_ram)
       (path_join (py "artifacts") (py "raw_data.csv"))
       frame_missing_ram ([], [])
     = (([(path_join (py "artifacts") (py "raw_data.csv"),
           frame_missing_ram)], []), None)
  /\ transform_data frame_missing_ram = Raise TypeError
  /\ run_etl (recording frame_missing_ram) sample_etl (py "flipkart_data")
       ([], [])
     = (([(path_join (py "artifacts") (py "raw_data.csv"),
           frame_missing_ram)], []),
        Raise TypeError).
Proof.
  assert (H : transform_data frame_missing_ram = Raise TypeError)
    by (vm_compute; reflexivity).
  split; [reflexivity|]. split; [reflexivity|]. split; [exact H|].
  exact (proj2 (run_etl_stops_before_load (recording frame_missing_ram)
                  sample_etl (py "flipkart_data") ([], []))
           frame_missing_ram _ TypeError eq_refl eq_refl H).
Defined.

(** X19: when the run gets through, the file [transformed_data.csv] is
    written with the whole normalized frame and then the table is loaded with
    its first fifty rows only, through the connection string of the object:
    the run ends as that load ends. *)
Theorem run_etl_loads_first_fifty_rows {world} (ext : externals world)
  self table w raw_data w1 df w2 :
  read_csv_s3 ext (bucket_name self) (file_key self) w = Ok raw_data ->
  to_csv ext (path_join (py "artifacts") (py "raw_data.csv")) raw_data w = (w1, None) ->
  normalize raw_data = Ok df ->
  to_csv ext (path_join (py "artifacts") (py "transformed_data.csv")) df w1 = (w2, None) ->
  run_etl ext self table w
  = match to_sql ext (conn_str self) table (head 50 df) w2 with
    | (w3, Some e) => (w3, Raise e)
    | (w3, None) => (w3, Ok tt)
    end.
Proof.
  intros Hread Hraw Hn Hsave.
  unfold run_etl, extract_data, transform_data_saving, load_data_to_redshift.
  rewrite Hread. cbv zeta. now rewrite Hraw, Hn, Hsave.
Qed.

Lemma run_etl_loads_first_fifty_rows_witness :
  normalize long_raw = Ok long_normalized
  /\ run_etl (recording long_raw) sample_etl (py "flipkart_data") ([], [])
     = (([(path_join (py "artifacts") (py "transformed_data.csv"),
           long_normalized);
          (path_join (py "artifacts") (py "raw_data.csv"), long_raw)],
         [(py "flipkart_data", head 50 long_normalized)]),
        Ok tt).
Proof.
  assert (H : normalize long_raw = Ok long_normalized)
    by (vm_compute; reflexivity).
  split; [exact H|].
  exact (run_etl_loads_first_fifty_rows (recording long_raw) sample_etl
           (py "flipkart_data") ([], []) long_raw _ long_normalized _
           eq_refl eq_refl H eq_refl).
Defined.
